(** * Fin-NeuroSim: orchestration and resource-coordination layer

    A shallow embedding of the Python sources under [fin_neurosim/] and the
    properties of its rate limiter, confidence engine, circuit breaker,
    model loader, context builder and the two synthesis paths.

    Conventions of the embedding:
    - Python [float]s are exact rationals ([Q]); the one place that takes a
      square root (the agreement score) is stated over the reals ([R]).
    - Python [dict]s keyed by strings are [gmap string _] where only lookup
      and insertion are used, and insertion-ordered association lists where
      the code iterates over them or sniffs their keys (JSON payloads).
    - Exceptions are values of [exn]; code that may raise returns a
      [result].  Only subclasses of [Exception] are represented, which is
      what every [except Exception] clause of the sources catches.
    - Calls into external collaborators (HuggingFace loading, inference,
      the data providers, the wall clock) are explicit parameters. *)

From Stdlib Require Import ZArith QArith Qminmax Lia Lqa Lra List Bool Ascii String.
From Stdlib Require Import Reals.
From stdpp Require Import base option list gmap strings sets.

Local Open Scope string_scope.
Local Open Scope list_scope.

(* ===================================================================== *)
(** * Python runtime helpers                                              *)
(* ===================================================================== *)

Module Py.

(** An exception instance: its class name and its message. *)
Record exn := Exn { exn_class : string; exn_msg : string }.

Inductive result (A : Type) : Type :=
| Ok (a : A)
| Raise (e : exn).
Arguments Ok {A} a.
Arguments Raise {A} e.

Definition bind_result {A B} (r : result A) (k : A -> result B) : result B :=
  match r with
  | Ok a => k a
  | Raise e => Raise e
  end.

(** [str(e)] *)
Definition str_exn (e : exn) : string := exn_msg e.

(** ** Strings (ASCII model of [str]) *)

Definition lower_ascii (c : ascii) : ascii :=
  let n := nat_of_ascii c in
  if (65 <=? n)%nat && (n <=? 90)%nat then ascii_of_nat (n + 32) else c.

(** [s.lower()] *)
Fixpoint lower (s : string) : string :=
  match s with
  | EmptyString => EmptyString
  | String c r => String (lower_ascii c) (lower r)
  end.

(** Characters for which [str.isspace] holds, below 128. *)
Definition is_space (c : ascii) : bool :=
  let n := nat_of_ascii c in
  ((9 <=? n)%nat && (n <=? 13)%nat) || ((28 <=? n)%nat && (n <=? 32)%nat).

Fixpoint lstrip (s : string) : string :=
  match s with
  | EmptyString => EmptyString
  | String c r => if is_space c then lstrip r else s
  end.

Fixpoint rstrip (s : string) : string :=
  match s with
  | EmptyString => EmptyString
  | String c r =>
      match rstrip r with
      | EmptyString => if is_space c then EmptyString else String c EmptyString
      | r' => String c r'
      end
  end.

(** [s.strip()] *)
Definition strip (s : string) : string := rstrip (lstrip s).

(** [needle in hay] on strings *)
Fixpoint contains (needle hay : string) : bool :=
  String.prefix needle hay ||
  match hay with
  | EmptyString => false
  | String _ r => contains needle r
  end.

(** [sep.join(parts)] *)
Fixpoint join (sep : string) (parts : list string) : string :=
  match parts with
  | [] => ""
  | [p] => p
  | p :: rest => String.append p (String.append sep (join sep rest))
  end.

(** [x in xs] for a list of strings *)
Definition str_in (x : string) (xs : list string) : bool :=
  existsb (String.eqb x) xs.

(** ** Floats as rationals *)

Definition Qltb (a b : Q) : bool := negb (Qle_bool b a).

(** [max(a, b)] returns [b] only when it is strictly greater. *)
Definition max (a b : Q) : Q := if Qltb a b then b else a.
(** [min(a, b)] returns [b] only when it is strictly smaller. *)
Definition min (a b : Q) : Q := if Qltb b a then b else a.

(** [sum(xs)] *)
Definition sum (xs : list Q) : Q := fold_left Qplus xs 0%Q.

(** ** JSON values, as [json.loads] produces them *)

#[local] Unset Elimination Schemes.
Inductive json : Type :=
| JNull
| JBool (b : bool)
| JNum (q : Q)
| JStr (s : string)
| JList (items : list json)
| JDict (fields : list (string * json)).
#[local] Set Elimination Schemes.

(** A [dict] with string keys, in insertion order. *)
Definition dict := list (string * json).

(** [key in d] *)
Definition has_key (key : string) (d : dict) : bool :=
  existsb (fun kv => String.eqb key (fst kv)) d.

(** [d.get(key)] *)
Fixpoint get (key : string) (d : dict) : option json :=
  match d with
  | [] => None
  | (k, v) :: rest => if String.eqb key k then Some v else get key rest
  end.

(** [d.get(key, dflt)] *)
Definition get_or (key : string) (dflt : json) (d : dict) : json :=
  match get key d with
  | Some v => v
  | None => dflt
  end.

(** [d[key] = v]: replace in place, or append a new key. *)
Fixpoint set (key : string) (v : json) (d : dict) : dict :=
  match d with
  | [] => [(key, v)]
  | (k, w) :: rest =>
      if String.eqb key k then (k, v) :: rest else (k, w) :: set key v rest
  end.

(** [d.update(other)] *)
Definition update (d other : dict) : dict :=
  fold_left (fun acc kv => set (fst kv) (snd kv) acc) other d.

(** Truth value of an object, as [if x] / [not x] test it. *)
Definition truthy (j : json) : bool :=
  match j with
  | JNull => false
  | JBool b => b
  | JNum q => negb (Qeq_bool q 0)
  | JStr s => negb (String.eqb s "")
  | JList l => match l with [] => false | _ => true end
  | JDict d => match d with [] => false | _ => true end
  end.

Fixpoint chars (s : string) : list json :=
  match s with
  | EmptyString => []
  | String c r => JStr (String c EmptyString) :: chars r
  end.

(** What [for item in x] yields; [TypeError] for non-iterables. *)
Definition iter (j : json) : result (list json) :=
  match j with
  | JList l => Ok l
  | JStr s => Ok (chars s)
  | JDict d => Ok (map (fun kv => JStr (fst kv)) d)
  | _ => Raise (Exn "TypeError" "object is not iterable")
  end.

End Py.

Import Py.

(* ===================================================================== *)
(** * utils/time_utils.py                                                 *)
(* ===================================================================== *)

Module TimeUtils.

(** A [datetime], as microseconds since the epoch; differences are
    [timedelta]s in microseconds.  The two datetimes handed to the score
    are taken to be comparable (both naive or both aware). *)
Definition datetime := Z.

(** [delta.total_seconds()] *)
Definition total_seconds (delta : Z) : Q := delta # 1000000.

(** [(reference_time - timestamp).total_seconds() / 3600.0] *)
Definition age_hours (timestamp reference_time : datetime) : Q :=
  (total_seconds (reference_time - timestamp) / 3600)%Q.

(** [calculate_freshness_score(timestamp, max_age_hours, reference_time)];
    the clock reading taken when [reference_time] is [None] is the
    caller's to supply. *)
Definition calculate_freshness_score
    (timestamp : datetime) (max_age_hours : Z) (reference_time : datetime) : Q :=
  let age := age_hours timestamp reference_time in
  if Qle_bool age 0 then 1%Q
  else if Qle_bool (inject_Z max_age_hours) age then 0%Q
  else
    let freshness := (1 - age / inject_Z max_age_hours)%Q in
    Py.max 0 (Py.min 1 freshness).

Definition hours (h : Z) : Z := (h * 3600 * 1000000)%Z.

Arguments calculate_freshness_score (timestamp max_age_hours reference_time)%_Z.
Arguments age_hours (timestamp reference_time)%_Z.
Arguments hours h%_Z.

End TimeUtils.

(** ** Naive and aware datetimes *)

Module Clock.

(** A [datetime] with its kind.  [instant] is the wall-clock reading
    of a naive datetime and the UTC instant of an aware one, in
    microseconds. *)
Record stamp := {
  instant : TimeUtils.datetime;
  aware : bool
}.

Definition mixed_kinds : exn :=
  Exn "TypeError" "can't subtract offset-naive and offset-aware datetimes".

(** [a - b] *)
Definition sub (a b : stamp) : result Z :=
  if Bool.eqb (aware a) (aware b) then Ok (instant a - instant b)%Z
  else Raise mixed_kinds.

(** [datetime.utcnow()], which is naive. *)
Definition utcnow (reading : TimeUtils.datetime) : stamp :=
  {| instant := reading; aware := false |}.

(** [calculate_freshness_score(timestamp, max_age_hours, reference_time)]
    with its subtraction; [reading] is the clock, read when
    [reference_time] is [None]. *)
Definition calculate_freshness_score (timestamp : stamp) (max_age_hours : Z)
    (reference_time : option stamp) (reading : TimeUtils.datetime) : result Q :=
  let reference := default (utcnow reading) reference_time in
  bind_result (sub reference timestamp) (fun _ =>
  Ok (TimeUtils.calculate_freshness_score
        (instant timestamp) max_age_hours (instant reference))).

End Clock.

(* ===================================================================== *)
(** * schemas/agent_output.py, schemas/final_report.py                    *)
(* ===================================================================== *)

Module Schemas.

(** [Field(..., ge=0.0, le=1.0)] *)
Definition in_unit (q : Q) : bool := Qle_bool 0 q && Qle_bool q 1.

Definition validation_error (field : string) : exn :=
  Exn "ValidationError" field.

Record SourceSummary := {
  source : string;
  freshness : Q;
  reliability : Q
}.

(** Default-factory timestamps are not represented: no operation modelled
    here reads them. *)
Record AgentOutput := {
  agent_id : string;
  signal_type : string;
  risk_level : string;
  confidence : Q;
  key_drivers : list string;
  source_summary : list SourceSummary;
  reasoning : string;
  raw_data : option dict
}.

Record CircuitBreakerEvent := {
  event : string;
  conflicting_agents : list string;
  arbiter : string;
  action : string;
  contradiction_count : nat;
  contradiction_types : list string
}.

Record ActionPlan := {
  priority : string;
  ap_action : string;
  rationale : string
}.

Record FinalReport := {
  query : string;
  final_risk_level : string;
  overall_confidence : Q;
  strategic_rationale : string;
  action_plan : list ActionPlan;
  agent_contributions : list AgentOutput;
  data_freshness_score : Q;
  warnings : list string
}.

(** Field validators: the declared type, then the declared bounds. *)
Definition as_str (field : string) (j : json) : result string :=
  match j with
  | JStr s => Ok s
  | _ => Raise (validation_error field)
  end.

Definition as_unit_float (field : string) (j : json) : result Q :=
  match j with
  | JNum q => if in_unit q then Ok q else Raise (validation_error field)
  | _ => Raise (validation_error field)
  end.

Fixpoint as_str_list_items (field : string) (l : list json) : result (list string) :=
  match l with
  | [] => Ok []
  | j :: rest =>
      bind_result (as_str field j) (fun s =>
      bind_result (as_str_list_items field rest) (fun ss => Ok (s :: ss)))
  end.

Definition as_str_list (field : string) (j : json) : result (list string) :=
  match j with
  | JList l => as_str_list_items field l
  | _ => Raise (validation_error field)
  end.

(** [SourceSummary(...)] with its [ge]/[le] bounds. *)
Definition valid_source (s : SourceSummary) : bool :=
  in_unit (freshness s) && in_unit (reliability s).

(** What the [AgentOutput] model accepts. *)
Definition valid_output (a : AgentOutput) : bool :=
  in_unit (confidence a) && forallb valid_source (source_summary a).

(** [FinalReport(...)]: bounds on the two scores and
    [min_length=300] on the rationale. *)
Definition make_final_report
    (q : string) (risk : json) (conf : json) (rat : json)
    (plan : list ActionPlan) (contribs : list AgentOutput)
    (fresh : Q) (warn : json) : result FinalReport :=
  bind_result (as_str "final_risk_level" risk) (fun risk' =>
  bind_result (as_unit_float "overall_confidence" conf) (fun conf' =>
  bind_result (as_str "strategic_rationale" rat) (fun rat' =>
  if negb (300 <=? String.length rat')%nat
  then Raise (validation_error "strategic_rationale")
  else if negb (in_unit fresh)
  then Raise (validation_error "data_freshness_score")
  else
    bind_result (as_str_list "warnings" warn) (fun warn' =>
    Ok {| query := q;
          final_risk_level := risk';
          overall_confidence := conf';
          strategic_rationale := rat';
          action_plan := plan;
          agent_contributions := contribs;
          data_freshness_score := fresh;
          warnings := warn' |})))).

End Schemas.

Import Schemas.

(* ===================================================================== *)
(** * core/confidence_engine.py                                           *)
(* ===================================================================== *)

Module ConfidenceEngine.

Definition SOURCE_RELIABILITY : gmap string Q :=
  list_to_map
    [ ("Reuters", 0.95%Q);
      ("Bloomberg", 0.95%Q);
      ("Financial Times", 0.90%Q);
      ("Wall Street Journal", 0.90%Q);
      ("FRED", 0.98%Q);
      ("Alpha Vantage", 0.85%Q);
      ("Tavily", 0.80%Q);
      ("NewsAPI", 0.75%Q);
      ("default", 0.70%Q) ].

(** [self.SOURCE_RELIABILITY["default"]] *)
Definition default_reliability : Q :=
  default 0%Q (SOURCE_RELIABILITY !! "default").

(** [self.SOURCE_RELIABILITY.get(source_name, default)] *)
Definition static_reliability (source_name : string) : Q :=
  default default_reliability (SOURCE_RELIABILITY !! source_name).

(** The accumulation loop of [_calculate_source_reliability]:
    [(total_reliability, total_weight)]. *)
Definition reliability_step (acc : Q * Q) (s : SourceSummary) : Q * Q :=
  let reliability_ := static_reliability (source s) in
  let weighted_reliability := (reliability_ * reliability s)%Q in
  let weight := freshness s in
  ((fst acc + weighted_reliability * weight)%Q, (snd acc + weight)%Q).

Definition _calculate_source_reliability (source_summary : list SourceSummary) : Q :=
  match source_summary with
  | [] => default_reliability
  | _ =>
      let '(total_reliability, total_weight) :=
        fold_left reliability_step source_summary (0%Q, 0%Q) in
      if Qltb 0 total_weight
      then (total_reliability / total_weight)%Q
      else default_reliability
  end.

(** [context_freshness.get("overall", 0.5)] and the mean with the
    agent's own source freshness. *)
Definition _calculate_data_freshness
    (agent_output : AgentOutput) (context_freshness : gmap string Q) : Q :=
  let agent_freshness :=
    match source_summary agent_output with
    | [] => 0.5%Q
    | ss =>
        let freshness_scores := map freshness ss in
        (Py.sum freshness_scores / inject_Z (Z.of_nat (length freshness_scores)))%Q
    end in
  let context_fresh := default 0.5%Q (context_freshness !! "overall") in
  let combined_freshness := ((agent_freshness + context_fresh) / 2)%Q in
  Py.max 0 (Py.min 1 combined_freshness).

(** The body of the loop of [compute_dynamic_confidence] for one output. *)
Definition final_confidence
    (agent_output : AgentOutput) (freshness_factor : Q)
    (context_freshness : gmap string Q) : Q :=
  let base_confidence := confidence agent_output in
  let source_reliability := _calculate_source_reliability (source_summary agent_output) in
  let data_freshness := _calculate_data_freshness agent_output context_freshness in
  (base_confidence * source_reliability * data_freshness * freshness_factor)%Q.

(** [compute_dynamic_confidence(agent_outputs, freshness_factor=0.95,
    context_freshness=None)]; an omitted argument is [None] here. *)
Definition compute_dynamic_confidence
    (agent_outputs : list AgentOutput)
    (freshness_factor : option Q)
    (context_freshness : option (gmap string Q)) : gmap string Q :=
  let ff := default 0.95%Q freshness_factor in
  let cf := default ∅ context_freshness in
  fold_left
    (fun confidence_map agent_output =>
       <[ agent_id agent_output :=
            Py.max 0 (Py.min 1 (final_confidence agent_output ff cf)) ]>
         confidence_map)
    agent_outputs ∅.

(** ** The agreement score, over the reals *)

Definition risk_levels : gmap string Z :=
  list_to_map [ ("critical", 4%Z); ("high", 3%Z); ("medium", 2%Z); ("low", 1%Z) ].

(** [risk_levels.get(output.risk_level.lower(), 2)] *)
Definition risk_value (output : AgentOutput) : Z :=
  default 2%Z (risk_levels !! Py.lower (risk_level output)).

Definition Rsum (xs : list R) : R := fold_left Rplus xs 0%R.

Definition calculate_inter_agent_agreement (agent_outputs : list AgentOutput) : R :=
  if (length agent_outputs <? 2)%nat then 1%R
  else
    let risk_values := map (fun o => IZR (risk_value o)) agent_outputs in
    let agreement :=
      if (1 <? length risk_values)%nat then
        let n := INR (length risk_values) in
        let mean := (Rsum risk_values / n)%R in
        let variance := (Rsum (map (fun x => (x - mean) ^ 2) risk_values) / n)%R in
        let std_dev := sqrt variance in
        (1 - Rmin 1 (std_dev / 2))%R
      else 1%R in
    Rmax 0 (Rmin 1 agreement).

End ConfidenceEngine.

(* ===================================================================== *)
(** * core/circuit_breaker.py                                             *)
(* ===================================================================== *)

Module CircuitBreaker.

(** [(agent1, agent2) -> arbiter], in the order the dict literal lists
    them. *)
Definition CONTRADICTION_RULES : list ((string * string) * string) :=
  [ (("RiskAgent", "TechnicalAgent"), "MacroAgent");
    (("TechnicalAgent", "RiskAgent"), "MacroAgent");
    (("MacroAgent", "SentimentAgent"), "RiskAgent");
    (("SentimentAgent", "MacroAgent"), "RiskAgent") ].

Definition RISK_LEVELS : gmap string Z :=
  list_to_map [ ("critical", 4%Z); ("high", 3%Z); ("medium", 2%Z); ("low", 1%Z) ].

Definition opposite_pairs : list (string * string) :=
  [ ("bullish", "bearish");
    ("rise", "fall");
    ("growth", "decline");
    ("positive", "negative");
    ("buy", "sell");
    ("crash", "rally") ].

(** [self.RISK_LEVELS.get(output.risk_level.lower(), 2)] *)
Definition risk_ordinal (output : AgentOutput) : Z :=
  default 2%Z (RISK_LEVELS !! Py.lower (risk_level output)).

Definition _is_contradictory (output1 output2 : AgentOutput) : bool :=
  let risk1 := risk_ordinal output1 in
  let risk2 := risk_ordinal output2 in
  let risk_diff := Z.abs (risk1 - risk2) in
  if (3 <=? risk_diff)%Z then true
  else
    let drivers1 := Py.lower (Py.join " " (key_drivers output1)) in
    let drivers2 := Py.lower (Py.join " " (key_drivers output2)) in
    existsb
      (fun p =>
         let word1 := fst p in
         let word2 := snd p in
         (Py.contains word1 drivers1 && Py.contains word2 drivers2)
         || (Py.contains word2 drivers1 && Py.contains word1 drivers2))
      opposite_pairs.

(** [{output.agent_id: output for output in agent_outputs}]: a later
    output replaces an earlier one with the same identity. *)
Definition agent_dict (agent_outputs : list AgentOutput) : gmap string AgentOutput :=
  fold_left (fun d output => <[ agent_id output := output ]> d) agent_outputs ∅.

(** One iteration of the loop over the rules:
    [(contradictions, arbiter)]. *)
Definition rule_step (d : gmap string AgentOutput)
    (acc : list (string * string) * option string)
    (rule : (string * string) * string) : list (string * string) * option string :=
  let '(agent1, agent2, arbiter_agent) := rule in
  match d !! agent1, d !! agent2 with
  | Some output1, Some output2 =>
      if _is_contradictory output1 output2 then
        (fst acc ++ [(agent1, agent2)],
         match snd acc with
         | None => Some arbiter_agent
         | Some a => Some a
         end)
      else acc
  | _, _ => acc
  end.

(** [list(set(xs))] *)
Definition dedup (xs : list string) : list string :=
  elements (list_to_set xs : gset string).

Definition check_contradictions
    (agent_outputs : list AgentOutput) : option CircuitBreakerEvent :=
  if (length agent_outputs <? 2)%nat then None
  else
    let d := agent_dict agent_outputs in
    let '(contradictions, arbiter_) :=
      fold_left (rule_step d) CONTRADICTION_RULES ([], None) in
    match contradictions with
    | [] => None
    | _ =>
        let conflicting := flat_map (fun c => [fst c; snd c]) contradictions in
        Some {| event := "CONTRADICTION_DETECTED";
                conflicting_agents := dedup conflicting;
                arbiter :=
                  match arbiter_ with
                  | Some a => if String.eqb a "" then "SynthesisAgent" else a
                  | None => "SynthesisAgent"
                  end;
                action := "REWEIGHT_AND_REEVALUATE";
                contradiction_count := length contradictions;
                contradiction_types :=
                  map (fun c => String.append (fst c) (String.append "_vs_" (snd c)))
                      contradictions |}
    end.

End CircuitBreaker.

(* ===================================================================== *)
(** * data_sources/rate_limiter.py                                        *)
(* ===================================================================== *)

Module RateLimiter.

Record t := {
  _limits : gmap string (Z * Z);        (* max_calls, time_window *)
  _call_history : gmap string (list Q)  (* defaultdict(list) *)
}.

Definition init : t := {| _limits := ∅; _call_history := ∅ |}.

Definition add_limit (api_name : string) (max_calls time_window_seconds : Z)
    (rl : t) : t :=
  {| _limits := <[ api_name := (max_calls, time_window_seconds) ]> (_limits rl);
     _call_history := _call_history rl |}.

(** [self._call_history[api_name]] *)
Definition history (rl : t) (api_name : string) : list Q :=
  default [] (_call_history rl !! api_name).

Definition set_history (api_name : string) (h : list Q) (rl : t) : t :=
  {| _limits := _limits rl;
     _call_history := <[ api_name := h ]> (_call_history rl) |}.

(** [min(xs)] of a non-empty list *)
Definition list_min (x : Q) (xs : list Q) : Q := fold_left Py.min xs x.

(** How the synchronous first part of [wait_if_needed] ends. *)
Inductive entered :=
| Unlimited                (* name not registered: return at once *)
| Proceed                  (* go on to record the call *)
| Sleep (wait_time : Q).   (* [await asyncio.sleep(wait_time)] *)

(** [wait_if_needed] up to its only suspension point; [now] is the
    reading of [time.time()]. *)
Definition enter (api_name : string) (now : Q) (rl : t) : result entered * t :=
  match _limits rl !! api_name with
  | None => (Ok Unlimited, rl)
  | Some (max_calls, time_window) =>
      let cutoff_time := (now - inject_Z time_window)%Q in
      let pruned :=
        List.filter (fun call_time => Qltb cutoff_time call_time) (history rl api_name) in
      let rl' := set_history api_name pruned rl in
      if (max_calls <=? Z.of_nat (length pruned))%Z then
        match pruned with
        | [] => (Raise (Exn "ValueError" "min() arg is an empty sequence"), rl')
        | c :: cs =>
            let oldest_call := list_min c cs in
            let wait_time := (inject_Z time_window - (now - oldest_call) + 0.1)%Q in
            if Qltb 0 wait_time then (Ok (Sleep wait_time), rl')
            else (Ok Proceed, rl')
        end
      else (Ok Proceed, rl')
  end.

(** [self._call_history[api_name].append(time.time())] *)
Definition record_call (api_name : string) (stamp : Q) (rl : t) : t :=
  set_history api_name (history rl api_name ++ [stamp]) rl.

(** ** Cooperative scheduling of several callers

    One event loop, one clock.  A coroutine runs without interruption
    until it awaits; the only await of [wait_if_needed] is the sleep. *)

Inductive task :=
| Fresh (api_name : string)
| Asleep (api_name : string) (wake_at : Q)
| Finished
| Failed (e : exn).

Record loop := {
  clock : Q;
  limiter : t;
  tasks : list task
}.

Inductive event :=
| Tick (reading : Q)  (* time passes: the clock reaches [reading] *)
| Run (i : nat).      (* the loop resumes task [i] *)

Definition step (s : loop) (ev : event) : option loop :=
  match ev with
  | Tick reading =>
      if Qle_bool (clock s) reading
      then Some {| clock := reading; limiter := limiter s; tasks := tasks s |}
      else None
  | Run i =>
      match tasks s !! i with
      | Some (Fresh api_name) =>
          match enter api_name (clock s) (limiter s) with
          | (Ok Unlimited, rl) =>
              Some {| clock := clock s; limiter := rl;
                      tasks := <[ i := Finished ]> (tasks s) |}
          | (Ok Proceed, rl) =>
              Some {| clock := clock s;
                      limiter := record_call api_name (clock s) rl;
                      tasks := <[ i := Finished ]> (tasks s) |}
          | (Ok (Sleep w), rl) =>
              Some {| clock := clock s; limiter := rl;
                      tasks := <[ i := Asleep api_name (clock s + w)%Q ]> (tasks s) |}
          | (Raise e, rl) =>
              Some {| clock := clock s; limiter := rl;
                      tasks := <[ i := Failed e ]> (tasks s) |}
          end
      | Some (Asleep api_name wake_at) =>
          if Qle_bool wake_at (clock s) then
            Some {| clock := clock s;
                    limiter := record_call api_name (clock s) (limiter s);
                    tasks := <[ i := Finished ]> (tasks s) |}
          else None
      | _ => None
      end
  end.

Fixpoint run (s : loop) (evs : list event) : option loop :=
  match evs with
  | [] => Some s
  | ev :: rest =>
      match step s ev with
      | Some s' => run s' rest
      | None => None
      end
  end.

(** Recorded calls within the window that ends at [t_end]. *)
Definition calls_in_window (h : list Q) (time_window : Z) (t_end : Q) : nat :=
  length
    (List.filter
       (fun c => Qltb (t_end - inject_Z time_window)%Q c && Qle_bool c t_end) h).

(** ** A caller that runs alone

    [wait_if_needed] from entry to return when no other coroutine runs in
    between: [now] is the clock when it enters and [stamp] the clock when
    it records.  The result is the outcome, the limiter and the
    timestamps recorded; it is [None] when the readings are impossible
    (the second precedes the first, or cuts the sleep short). *)
Definition wait_if_needed (api_name : string) (now stamp : Q) (rl : t)
    : option (result unit * t * list Q) :=
  match enter api_name now rl with
  | (Ok Unlimited, rl') => Some (Ok tt, rl', [])
  | (Ok Proceed, rl') =>
      if Qle_bool now stamp
      then Some (Ok tt, record_call api_name stamp rl', [stamp])
      else None
  | (Ok (Sleep wait_time), rl') =>
      if Qle_bool (now + wait_time)%Q stamp
      then Some (Ok tt, record_call api_name stamp rl', [stamp])
      else None
  | (Raise e, rl') => Some (Raise e, rl', [])
  end.

(** Calls made one after the other; [last] is the latest clock reading
    so far and [log] collects every timestamp recorded, pruned or not. *)
Fixpoint calls_alone (api_name : string) (readings : list (Q * Q))
    (last : Q) (rl : t) (log : list Q) : option (t * list Q) :=
  match readings with
  | [] => Some (rl, log)
  | (now, stamp) :: rest =>
      if negb (Qle_bool last now) then None
      else
        match wait_if_needed api_name now stamp rl with
        | Some (_, rl', []) => calls_alone api_name rest now rl' log
        | Some (_, rl', stamps) =>
            calls_alone api_name rest stamp rl' (log ++ stamps)
        | None => None
        end
  end.

End RateLimiter.

(* ===================================================================== *)
(** * core/intent_engine.py (the [Intent] dataclass)                      *)
(* ===================================================================== *)

Module IntentEngine.

Record Intent := {
  assets : list string;
  region : string;
  analysis_type : string;
  time_horizon : string;
  keywords : list string
}.

End IntentEngine.

Import IntentEngine.

(* ===================================================================== *)
(** * data_sources/market_api.py, macro_api.py, news_api.py               *)
(* ===================================================================== *)

(** The three API clients.  What lies outside the repository (the
    environment variables, the rate limiter's verdict, the remote
    services with the clock) is a field of the client; what the methods
    do with it is the code's. *)

Module Api.

(** [if not self.api_key]: an unset or empty variable. *)
Definition missing (key : option string) : bool :=
  match key with
  | Some k => String.eqb k ""
  | None => true
  end.

Definition no_api_key : string := "API anahtarı bulunamadı".

End Api.

Module MarketAPI.

Record t := {
  api_key : option string;                    (* ALPHA_VANTAGE_API_KEY *)
  wait_if_needed : string -> result unit;     (* self.rate_limiter *)
  (** [ts.get_intraday(symbol, interval)] with the clock reading:
      [(data, meta_data, timestamp)] *)
  get_intraday : string -> string -> result (json * json * string);
  (** the body of the [try] of [get_quote]: [response.json()] *)
  global_quote : string -> result json
}.

Definition get_quote (api : t) (symbol : string) : result json :=
  if Api.missing (api_key api) then Ok (JDict [ ("error", JStr Api.no_api_key) ])
  else
    bind_result (wait_if_needed api "alpha_vantage") (fun _ =>
    match global_quote api symbol with
    | Ok quote => Ok quote
    | Raise e => Ok (JDict [ ("error", JStr (Py.str_exn e)) ])
    end).

Definition get_intraday_data (api : t) (symbol interval : string) : result json :=
  if Api.missing (api_key api) then Ok (JDict [ ("error", JStr Api.no_api_key) ])
  else
    bind_result (wait_if_needed api "alpha_vantage") (fun _ =>
    match get_intraday api symbol interval with
    | Ok (data, meta_data, timestamp) =>
        Ok (JDict [ ("symbol", JStr symbol);
                    ("interval", JStr interval);
                    ("data", data);
                    ("metadata", meta_data);
                    ("timestamp", JStr timestamp) ])
    | Raise e =>
        let error_msg := Py.str_exn e in
        let failed := JDict [ ("error", JStr error_msg); ("symbol", JStr symbol) ] in
        if Py.contains "premium" (Py.lower error_msg) then
          match get_quote api symbol with
          | Ok quote => Ok quote
          | Raise _ => Ok failed
          end
        else Ok failed
    end).

End MarketAPI.

Module MacroAPI.

(** What the [try] of an indicator method reads off the series. *)
Record observation := {
  latest_value : option Q;
  latest_date : option string;
  data_points : Z;
  timestamp : string
}.

Record t := {
  fred_api_key : option string;               (* FRED_API_KEY *)
  wait_if_needed : string -> result unit;     (* self.rate_limiter *)
  (** [fred.get_series(series_id, ...)] and what is read off it *)
  get_series : string -> result observation
}.

Definition optional {A} (f : A -> json) (o : option A) : json :=
  match o with
  | Some a => f a
  | None => JNull
  end.

(** The four indicator methods differ in their series only. *)
Definition indicator_data (api : t) (series_id region : string) : result json :=
  if Api.missing (fred_api_key api)
  then Ok (JDict [ ("error", JStr "FRED API anahtarı bulunamadı") ])
  else
    bind_result (wait_if_needed api "fred") (fun _ =>
    match get_series api series_id with
    | Ok o =>
        Ok (JDict [ ("series_id", JStr series_id);
                    ("region", JStr region);
                    ("latest_value", optional JNum (latest_value o));
                    ("latest_date", optional JStr (latest_date o));
                    ("data_points", JNum (inject_Z (data_points o)));
                    ("timestamp", JStr (timestamp o)) ])
    | Raise e => Ok (JDict [ ("error", JStr (Py.str_exn e)) ])
    end).

Definition get_cpi_data (api : t) (region : string) : result json :=
  indicator_data api (if String.eqb region "US" then "CPIAUCSL" else "CPIAUCSL") region.

Definition get_gdp_data (api : t) (region : string) : result json :=
  indicator_data api (if String.eqb region "US" then "GDP" else "GDP") region.

Definition get_unemployment_rate (api : t) (region : string) : result json :=
  indicator_data api (if String.eqb region "US" then "UNRATE" else "UNRATE") region.

Definition get_interest_rates (api : t) (region : string) : result json :=
  indicator_data api (if String.eqb region "US" then "FEDFUNDS" else "FEDFUNDS") region.

End MacroAPI.

Module NewsAPI.

Record t := {
  tavily_api_key : option string;             (* TAVILY_API_KEY *)
  newsapi_key : option string;                (* NEWSAPI_KEY *)
  wait_if_needed : string -> result unit;     (* self.rate_limiter *)
  (** the request of [search_tavily] and of [search_newsapi], with the
      items built from the response and the clock reading:
      [query -> max_results -> (results, timestamp)] *)
  tavily : string -> Z -> result (list json * string);
  newsapi : string -> Z -> result (list json * string)
}.

Definition found (query source_ : string) (hit : list json * string) : json :=
  JDict [ ("query", JStr query);
          ("source", JStr source_);
          ("results", JList (fst hit));
          ("count", JNum (inject_Z (Z.of_nat (length (fst hit)))));
          ("timestamp", JStr (snd hit)) ].

Definition failed (msg : string) : json :=
  JDict [ ("error", JStr msg); ("results", JList []) ].

Definition search_newsapi (api : t) (query : string) (max_results : Z) : result json :=
  if Api.missing (newsapi_key api) then Ok (failed Api.no_api_key)
  else
    bind_result (wait_if_needed api "newsapi") (fun _ =>
    match newsapi api query max_results with
    | Ok hit => Ok (found query "newsapi" hit)
    | Raise e => Ok (failed (Py.str_exn e))
    end).

Definition search_tavily (api : t) (query : string) (max_results : Z) : result json :=
  if Api.missing (tavily_api_key api) then search_newsapi api query max_results
  else
    bind_result (wait_if_needed api "tavily") (fun _ =>
    match tavily api query max_results with
    | Ok hit => Ok (found query "tavily" hit)
    | Raise e => Ok (failed (Py.str_exn e))
    end).

Definition get_live_anomalies (api : t) (keywords : list string) (max_results : Z)
    : result json :=
  let query :=
    String.append (Py.join " OR " keywords)
      " finance OR financial OR market OR economy" in
  if negb (Api.missing (tavily_api_key api))
  then search_tavily api query max_results
  else search_newsapi api query max_results.

End NewsAPI.

(* ===================================================================== *)
(** * core/context_builder.py                                             *)
(* ===================================================================== *)

Module ContextBuilder.

(** An element of [await asyncio.gather(..., return_exceptions=True)]. *)
Inductive gathered :=
| Returned (value : json)
| Raised (e : exn).

(** What [gather(..., return_exceptions=True)] makes of a coroutine. *)
Definition gather (outcome : result json) : gathered :=
  match outcome with
  | Ok value => Returned value
  | Raise e => Raised e
  end.

(** The Context Cloud.  Its ["timestamp"] entry is not represented. *)
Record context := {
  intent : Intent;
  market_data : list dict;
  macro_data : dict;
  news_data : dict;
  data_freshness : gmap string Q
}.

(** The API clients, by the methods the builder calls. *)
Record providers := {
  get_intraday_data : string -> result json;
  get_cpi_data : string -> result json;
  get_gdp_data : string -> result json;
  get_unemployment_rate : string -> result json;
  get_interest_rates : string -> result json;
  get_live_anomalies : list string -> result json;
  (** [_calculate_freshness_scores], which parses provider timestamps
      and subtracts them from the clock reading *)
  freshness_scores : list dict -> dict -> dict -> result (gmap string Q)
}.

(** The clients [__init__] builds. *)
Definition clients (market : MarketAPI.t) (macro : MacroAPI.t) (news : NewsAPI.t)
    (scores : list dict -> dict -> dict -> result (gmap string Q)) : providers :=
  {| get_intraday_data := fun symbol => MarketAPI.get_intraday_data market symbol "5min";
     get_cpi_data := MacroAPI.get_cpi_data macro;
     get_gdp_data := MacroAPI.get_gdp_data macro;
     get_unemployment_rate := MacroAPI.get_unemployment_rate macro;
     get_interest_rates := MacroAPI.get_interest_rates macro;
     get_live_anomalies := fun keywords => NewsAPI.get_live_anomalies news keywords 20;
     freshness_scores := scores |}.

Definition error_payload (e : exn) (key : string) (v : json) : dict :=
  [ ("error", JStr (Py.str_exn e)); (key, v) ].

Definition _get_market_data (p : providers) (symbol : string) : json :=
  match get_intraday_data p symbol with
  | Ok data => data
  | Raise e => JDict (error_payload e "symbol" (JStr symbol))
  end.

Definition indicator (g : gathered) : json :=
  match g with
  | Returned v => v
  | Raised e => JDict [ ("error", JStr (Py.str_exn e)) ]
  end.

(** The inner [gather] returns the exceptions of the four methods, so
    the [try] has nothing left to catch. *)
Definition _get_macro_data (p : providers) (region_ : string) : json :=
  let cpi := gather (get_cpi_data p region_) in
  let gdp := gather (get_gdp_data p region_) in
  let unemployment := gather (get_unemployment_rate p region_) in
  let interest := gather (get_interest_rates p region_) in
  JDict [ ("region", JStr region_);
          ("cpi", indicator cpi);
          ("gdp", indicator gdp);
          ("unemployment", indicator unemployment);
          ("interest_rates", indicator interest) ].

Definition anomaly_keywords : list string :=
  [ "crisis"; "crash"; "collapse"; "panic"; "anomaly";
    "banking stress"; "market crash"; "recession" ].

Definition _get_news_data (p : providers) (i : Intent) (user_query : string) : json :=
  let all_keywords := keywords i ++ anomaly_keywords in
  match get_live_anomalies p (firstn 5 all_keywords) with
  | Ok news => news
  | Raise e => JDict (error_payload e "results" (JList []))
  end.

(** One iteration of the loop that sorts the gathered results into
    buckets: [(market_data, macro_data, news_data)]. *)
Definition categorize_step (acc : list dict * dict * dict) (r : gathered)
    : list dict * dict * dict :=
  let '(market, macro, news) := acc in
  match r with
  | Raised _ => acc
  | Returned (JDict result_) =>
      if Py.has_key "symbol" result_ || Py.has_key "error" result_ then
        if negb (Py.has_key "error" result_)
        then (market ++ [result_], macro, news)
        else acc
      else if Py.has_key "series_id" result_ || Py.has_key "region" result_ then
        (market, Py.update macro result_, news)
      else if Py.has_key "results" result_ || Py.has_key "query" result_ then
        (market, macro, result_)
      else acc
  | Returned _ => acc
  end.

Definition categorize (results : list gathered) : list dict * dict * dict :=
  fold_left categorize_step results ([], [], []).

(** The tasks handed to the outer [gather], in order. *)
Definition market_tasks (p : providers) (i : Intent) : list gathered :=
  map (fun asset => Returned (_get_market_data p asset))
      (List.filter (fun asset => negb (String.eqb asset "GENERAL_MARKET")) (assets i)).

Definition fan_out (p : providers) (i : Intent) (user_query : string) : list gathered :=
  market_tasks p i
    ++ [ Returned (_get_macro_data p (region i)) ]
    ++ [ Returned (_get_news_data p i user_query) ].

Definition build_context (p : providers) (i : Intent) (user_query : string)
    : result context :=
  let results := fan_out p i user_query in
  let '(market, macro, news) := categorize results in
  bind_result (freshness_scores p market macro news) (fun scores =>
  Ok {| intent := i;
        market_data := market;
        macro_data := macro;
        news_data := news;
        data_freshness := scores |}).

End ContextBuilder.

(* ===================================================================== *)
(** * llm/model_loader.py                                                 *)
(* ===================================================================== *)

Module ModelLoader.

(** Handles returned by the HuggingFace hub. *)
Inductive model := Model (name : string).
Inductive tokenizer := Tokenizer (name : string) (use_fast : bool).

(** [AutoTokenizer.from_pretrained] and
    [AutoModelForCausalLM.from_pretrained]. *)
Record hub := {
  tokenizer_from_pretrained : string -> bool -> result tokenizer;
  model_from_pretrained : string -> result model
}.

Record t := {
  current_model : option model;
  current_tokenizer : option tokenizer;
  current_model_name : option string
}.

Definition init : t :=
  {| current_model := None; current_tokenizer := None; current_model_name := None |}.

(** [unload_model]: moving the model to the CPU, the garbage collection
    and the CUDA cache flush leave no trace in the loader's fields. *)
Definition unload_model (l : t) : t :=
  match current_model l with
  | Some _ => init
  | None => l
  end.

Definition load_model (h : hub) (model_name : string) (l : t)
    : result (model * tokenizer) * t :=
  let l1 := match current_model l with
            | Some _ => unload_model l
            | None => l
            end in
  let tok :=
    match tokenizer_from_pretrained h model_name true with
    | Ok tk => Ok tk
    | Raise _ => tokenizer_from_pretrained h model_name false
    end in
  match tok with
  | Raise e => (Raise e, l1)
  | Ok tk =>
      match model_from_pretrained h model_name with
      | Raise e => (Raise e, l1)
      | Ok m =>
          (Ok (m, tk),
           {| current_model := Some m;
              current_tokenizer := Some tk;
              current_model_name := Some model_name |})
      end
  end.

Definition get_current_model (l : t) : option (model * tokenizer) :=
  match current_model l, current_tokenizer l with
  | Some m, Some tk => Some (m, tk)
  | _, _ => None
  end.

Definition is_model_loaded (model_name : option string) (l : t) : bool :=
  match model_name with
  | None => match current_model l with Some _ => true | None => false end
  | Some n =>
      match current_model_name l with
      | Some n' => String.eqb n' n
      | None => false
      end
  end.

End ModelLoader.

(* ===================================================================== *)
(** * The objects shared by the Mode B pipeline                           *)
(* ===================================================================== *)

Module Store.

(** [Stage1Mistral], [Stage2Llama] and the orchestrator hold the same
    [ModelLoader] instance, so it lives in one store together with the
    attributes [Stage2Llama] assigns to itself.  [load_log] is the
    sequence of names [load_model] was called with (it logs each). *)
Record store := {
  model_loader : ModelLoader.t;
  stage2_MODEL_NAME : string;
  stage2_last_stage1_risk : option string;
  load_log : list string
}.

Definition with_loader (l : ModelLoader.t) (s : store) : store :=
  {| model_loader := l;
     stage2_MODEL_NAME := stage2_MODEL_NAME s;
     stage2_last_stage1_risk := stage2_last_stage1_risk s;
     load_log := load_log s |}.

(** Stateful code that may raise; the store survives an exception. *)
Definition M (A : Type) : Type := store -> result A * store.

Definition ret {A} (a : A) : M A := fun s => (Ok a, s).
Definition raise {A} (e : exn) : M A := fun s => (Raise e, s).
Definition bind {A B} (m : M A) (k : A -> M B) : M B :=
  fun s =>
    match m s with
    | (Ok a, s') => k a s'
    | (Raise e, s') => (Raise e, s')
    end.
Definition lift {A} (r : result A) : M A := fun s => (r, s).

(** [try: body except Exception as e: handler(e)] *)
Definition try_except {A} (body : M A) (handler : exn -> M A) : M A :=
  fun s =>
    match body s with
    | (Ok a, s') => (Ok a, s')
    | (Raise e, s') => handler e s'
    end.

Definition unload_model : M unit :=
  fun s => (Ok tt, with_loader (ModelLoader.unload_model (model_loader s)) s).

Definition load_model (h : ModelLoader.hub) (model_name : string)
    : M (ModelLoader.model * ModelLoader.tokenizer) :=
  fun s =>
    let '(r, l) := ModelLoader.load_model h model_name (model_loader s) in
    (r, {| model_loader := l;
           stage2_MODEL_NAME := stage2_MODEL_NAME s;
           stage2_last_stage1_risk := stage2_last_stage1_risk s;
           load_log := load_log s ++ [model_name] |}).

Definition is_model_loaded (model_name : option string) : M bool :=
  fun s => (Ok (ModelLoader.is_model_loaded model_name (model_loader s)), s).

Definition get_current_model
    : M (option (ModelLoader.model * ModelLoader.tokenizer)) :=
  fun s => (Ok (ModelLoader.get_current_model (model_loader s)), s).

Definition init (default_name : string) : store :=
  {| model_loader := ModelLoader.init;
     stage2_MODEL_NAME := default_name;
     stage2_last_stage1_risk := None;
     load_log := [] |}.

End Store.

Declare Scope store_scope.
Delimit Scope store_scope with store.
Notation "'let*' x ':=' m 'in' k" := (Store.bind m (fun x => k))
  (at level 10, x name, m at level 100, k at level 200) : store_scope.
Notation "'run*' m 'in' k" := (Store.bind m (fun _ => k))
  (at level 10, m at level 100, k at level 200) : store_scope.

(* ===================================================================== *)
(** * llm/stage1_mistral.py                                               *)
(* ===================================================================== *)

Module Stage1Mistral.

Local Open Scope store_scope.

Definition MODEL_NAME : string := "mistralai/Mistral-7B-v0.3".

(** Prompt construction, tokenisation, generation, decoding and
    [_parse_llm_response]: the decoded response and the parsed
    [analysis_result], or the exception any of them raises. *)
Definition inference :=
  ModelLoader.model -> ModelLoader.tokenizer -> string -> Intent
  -> result (string * dict).

(** [AgentOutput(agent_id="Stage1Mistral", ...)] with validation. *)
Definition make_output (response : string) (analysis_result : dict)
    : result AgentOutput :=
  bind_result (as_str "risk_level"
                 (Py.get_or "risk_level" (JStr "medium") analysis_result)) (fun risk =>
  bind_result (as_unit_float "confidence"
                 (Py.get_or "anomaly_confidence" (JNum 0.5) analysis_result)) (fun conf =>
  bind_result (as_str_list "key_drivers"
                 (Py.get_or "key_drivers" (JList []) analysis_result)) (fun drivers =>
  bind_result (as_str "reasoning"
                 (Py.get_or "reasoning" (JStr response) analysis_result)) (fun reasoning_ =>
  Ok {| agent_id := "Stage1Mistral";
        signal_type := "anomaly";
        risk_level := risk;
        confidence := conf;
        key_drivers := drivers;
        source_summary := [];
        reasoning := reasoning_;
        raw_data := Some analysis_result |})))).

Definition analyze (h : ModelLoader.hub) (infer : inference)
    (compact_context : string) (i : Intent) : Store.M AgentOutput :=
  let* loaded := Store.is_model_loaded (Some MODEL_NAME) in
  run* (if negb loaded
        then (let* _ := Store.load_model h MODEL_NAME in Store.ret tt)
        else Store.ret tt) in
  let* current := Store.get_current_model in
  match current with
  | None => Store.raise (Exn "TypeError" "cannot unpack non-iterable NoneType object")
  | Some (m, tk) =>
      let* out := Store.lift (infer m tk compact_context i) in
      Store.lift (make_output (fst out) (snd out))
  end.

End Stage1Mistral.

(* ===================================================================== *)
(** * llm/stage2_llama.py                                                 *)
(* ===================================================================== *)

Module Stage2Llama.

Local Open Scope store_scope.

Definition MODEL_NAMES : list string :=
  [ "mistralai/Mistral-7B-Instruct-v0.2";
    "mistralai/Mistral-7B-v0.3";
    "microsoft/Phi-3-medium-4k-instruct";
    "meta-llama/Meta-Llama-3-8B-Instruct" ].

(** The class attribute [MODEL_NAME = MODEL_NAMES[0]]. *)
Definition MODEL_NAME : string := "mistralai/Mistral-7B-Instruct-v0.2".

Definition inference :=
  ModelLoader.model -> ModelLoader.tokenizer -> AgentOutput -> gmap string Q
  -> string -> string -> result (string * dict).

Definition llm_suggested : string := "LLM tarafından önerildi".

(** One iteration of the loop over a non-empty [action_plan_data]. *)
Definition parse_item (item : json) : result (list ActionPlan) :=
  match item with
  | JDict d =>
      bind_result (match Py.get_or "action" (JStr "") d with
                   | JStr s => Ok (Py.strip s)
                   | _ => Raise (Exn "AttributeError" "strip")
                   end) (fun action_ =>
      bind_result (match Py.get_or "rationale" (JStr "") d with
                   | JStr s => Ok (Py.strip s)
                   | _ => Raise (Exn "AttributeError" "strip")
                   end) (fun rationale_ =>
      bind_result (match Py.get_or "priority" (JStr "medium") d with
                   | JStr s => Ok (Py.lower (Py.strip s))
                   | _ => Raise (Exn "AttributeError" "strip")
                   end) (fun priority_ =>
      if negb (String.eqb action_ "") then
        Ok [ {| priority :=
                  if Py.str_in priority_ ["immediate"; "high"; "medium"; "low"]
                  then priority_ else "medium";
                ap_action := action_;
                rationale :=
                  if negb (String.eqb rationale_ "") then rationale_
                  else llm_suggested |} ]
      else Ok [])))
  | JStr s =>
      if negb (String.eqb (Py.strip s) "") then
        Ok [ {| priority := "medium";
                ap_action := Py.strip s;
                rationale := llm_suggested |} ]
      else Ok []
  | _ => Ok []
  end.

Fixpoint parse_items (items : list json) : result (list ActionPlan) :=
  match items with
  | [] => Ok []
  | item :: rest =>
      bind_result (parse_item item) (fun ps =>
      bind_result (parse_items rest) (fun qs => Ok (ps ++ qs)))
  end.

Definition default_high_plan : ActionPlan :=
  {| priority := "high";
     ap_action := "Piyasayı yakından izleyin ve risk yönetimi protokollerini aktifleştirin";
     rationale := "Yüksek risk seviyesi tespit edildi, dikkatli olunmalı" |}.

Definition default_medium_plan : ActionPlan :=
  {| priority := "medium";
     ap_action := "Risk analizi tamamlandı. Piyasa koşullarını düzenli olarak izleyin.";
     rationale := "Detaylı aksiyon planı üretilemedi, genel öneri" |}.

(** [_parse_action_plan]; [last_stage1_risk] is the attribute
    [_last_stage1_risk], absent ([None]) until [synthesize] sets it. *)
Definition _parse_action_plan (last_stage1_risk : option string)
    (action_plan_data : json) : result (list ActionPlan) :=
  if negb (Py.truthy action_plan_data) then
    let risk := default "medium" last_stage1_risk in
    if Py.str_in risk ["critical"; "high"]
    then Ok [ default_high_plan ]
    else Ok []
  else
    bind_result (Py.iter action_plan_data) (fun items =>
    bind_result (parse_items items) (fun action_plans =>
    match action_plans with
    | [] => Ok [ default_medium_plan ]
    | _ => Ok action_plans
    end)).

(** The fallback loop over [MODEL_NAMES]: [true] once a load succeeded. *)
Fixpoint try_models (h : ModelLoader.hub) (names : list string) : Store.M bool :=
  match names with
  | [] => Store.ret false
  | model_name :: rest =>
      Store.try_except
        (run* Store.load_model h model_name in
         run* (fun s =>
                 (Ok tt,
                  {| Store.model_loader := Store.model_loader s;
                     Store.stage2_MODEL_NAME := model_name;
                     Store.stage2_last_stage1_risk := Store.stage2_last_stage1_risk s;
                     Store.load_log := Store.load_log s |})) in
         Store.ret true)
        (fun _ => try_models h rest)
  end.

Definition no_model_error : exn :=
  Exn "RuntimeError"
    "Hiçbir model yüklenemedi. Denenen modeller: ['mistralai/Mistral-7B-Instruct-v0.2', 'mistralai/Mistral-7B-v0.3', 'microsoft/Phi-3-medium-4k-instruct', 'meta-llama/Meta-Llama-3-8B-Instruct']".

(** The block "load the model if none is loaded (with fallback)". *)
Definition ensure_loaded (h : ModelLoader.hub) : Store.M unit :=
  let* loaded := Store.is_model_loaded None in
  if negb loaded then
    let* model_loaded := try_models h MODEL_NAMES in
    if negb model_loaded then Store.raise no_model_error else Store.ret tt
  else Store.ret tt.

Definition set_last_stage1_risk (risk : string) : Store.M unit :=
  fun s =>
    (Ok tt,
     {| Store.model_loader := Store.model_loader s;
        Store.stage2_MODEL_NAME := Store.stage2_MODEL_NAME s;
        Store.stage2_last_stage1_risk := Some risk;
        Store.load_log := Store.load_log s |}).

(** [FinalReport(...)] as [synthesize] builds it. *)
Definition make_report (last_stage1_risk : option string)
    (stage1_report : AgentOutput) (confidence_metrics : gmap string Q)
    (user_query response : string) (synthesis_result : dict) : result FinalReport :=
  bind_result
    (_parse_action_plan last_stage1_risk
       (Py.get_or "action_plan" (JList []) synthesis_result)) (fun plan =>
  make_final_report user_query
    (Py.get_or "final_risk_level" (JStr "medium") synthesis_result)
    (Py.get_or "overall_confidence" (JNum 0.5) synthesis_result)
    (Py.get_or "strategic_rationale" (JStr response) synthesis_result)
    plan
    [stage1_report]
    (default 0.5%Q (confidence_metrics !! "data_freshness"))
    (Py.get_or "warnings" (JList []) synthesis_result)).

Definition synthesize (h : ModelLoader.hub) (infer : inference)
    (stage1_report : AgentOutput) (confidence_metrics : gmap string Q)
    (compact_context user_query : string) : Store.M FinalReport :=
  run* set_last_stage1_risk (risk_level stage1_report) in
  run* ensure_loaded h in
  let* current := Store.get_current_model in
  match current with
  | None => Store.raise (Exn "RuntimeError" "Model yüklenemedi!")
  | Some (m, tk) =>
      let* out :=
        Store.lift (infer m tk stage1_report confidence_metrics
                      compact_context user_query) in
      fun s =>
        (make_report (Store.stage2_last_stage1_risk s) stage1_report
           confidence_metrics user_query (fst out) (snd out), s)
  end.

End Stage2Llama.

(* ===================================================================== *)
(** * agents/synthesis_agent.py                                           *)
(* ===================================================================== *)

Module SynthesisAgent.

Definition parse_item (item : json) : result (list ActionPlan) :=
  match item with
  | JDict d =>
      bind_result (as_str "priority" (Py.get_or "priority" (JStr "medium") d)) (fun p =>
      bind_result (as_str "action" (Py.get_or "action" (JStr "") d)) (fun a =>
      bind_result (as_str "rationale" (Py.get_or "rationale" (JStr "") d)) (fun r =>
      Ok [ {| priority := p; ap_action := a; rationale := r |} ])))
  | JStr s =>
      Ok [ {| priority := "medium";
              ap_action := s;
              rationale := Stage2Llama.llm_suggested |} ]
  | _ => Ok []
  end.

Fixpoint parse_items (items : list json) : result (list ActionPlan) :=
  match items with
  | [] => Ok []
  | item :: rest =>
      bind_result (parse_item item) (fun ps =>
      bind_result (parse_items rest) (fun qs => Ok (ps ++ qs)))
  end.

Definition _parse_action_plan (action_plan_data : json) : result (list ActionPlan) :=
  bind_result (Py.iter action_plan_data) parse_items.

(** [synthesize]; [llm] is the outcome of [_call_llm] followed by
    [_parse_llm_response]: the response text and the parsed result. *)
Definition synthesize (llm : result (string * dict))
    (agent_outputs : list AgentOutput) (confidence_map : gmap string Q)
    (context : ContextBuilder.context) (user_query : string) : result FinalReport :=
  bind_result llm (fun out =>
  let response := fst out in
  let synthesis_result := snd out in
  bind_result
    (_parse_action_plan (Py.get_or "action_plan" (JList []) synthesis_result)) (fun plan =>
  make_final_report user_query
    (Py.get_or "final_risk_level" (JStr "medium") synthesis_result)
    (Py.get_or "overall_confidence" (JNum 0.5) synthesis_result)
    (Py.get_or "strategic_rationale" (JStr response) synthesis_result)
    plan
    agent_outputs
    (default 0.5%Q (ContextBuilder.data_freshness context !! "overall"))
    (Py.get_or "warnings" (JList []) synthesis_result))).

End SynthesisAgent.

(* ===================================================================== *)
(** * core/orchestrator_hf.py                                             *)
(* ===================================================================== *)

Module OrchestratorHF.

Local Open Scope store_scope.

(** The collaborators of the Mode B pipeline. *)
Record collaborators := {
  hub : ModelLoader.hub;
  classify : string -> result Intent;                        (* IntentClassifier.analyze *)
  harvest : Intent -> string -> result ContextBuilder.context; (* build_context *)
  compress : ContextBuilder.context -> string -> Intent -> result string;
  stage1_inference : Stage1Mistral.inference;
  stage2_inference : Stage2Llama.inference
}.

(** The [try] block of [process_query]. *)
Definition pipeline (c : collaborators) (user_query : string) : Store.M FinalReport :=
  let* i := Store.lift (classify c user_query) in
  let* raw_data := Store.lift (harvest c i user_query) in
  let* compact_context := Store.lift (compress c raw_data user_query i) in
  let* stage1_report :=
    Stage1Mistral.analyze (hub c) (stage1_inference c) compact_context i in
  run* Store.unload_model in
  let confidence_map :=
    ConfidenceEngine.compute_dynamic_confidence
      [stage1_report] (Some 0.95%Q)
      (Some (ContextBuilder.data_freshness raw_data)) in
  let* final_report :=
    Stage2Llama.synthesize (hub c) (stage2_inference c)
      stage1_report confidence_map
      (String.substring 0 500 compact_context) user_query in
  run* Store.unload_model in
  Store.ret final_report.

Definition process_query (c : collaborators) (user_query : string)
    : Store.M FinalReport :=
  Store.try_except (pipeline c user_query)
    (fun e => run* Store.unload_model in Store.raise e).

End OrchestratorHF.

(* ===================================================================== *)
(** * utils/retry.py                                                      *)
(* ===================================================================== *)

Module Retry.

(** [raise None] *)
Definition raise_none : exn :=
  Exn "TypeError" "exceptions must derive from BaseException".

(** [range(start, stop)] *)
Definition range (start stop : Z) : list Z :=
  map (fun i => (start + Z.of_nat i)%Z) (seq 0 (Z.to_nat (stop - start))).

(** The [for attempt in range(...)] loop followed by
    [raise last_exception].  [func attempt] is the outcome of the call
    made in that attempt, [caught e] is [isinstance(e, exceptions)],
    [sleep d] is the exception the sleep raises, if any.  The result
    comes with the delays slept, oldest first. *)
Fixpoint attempts {T} (func : Z -> result T) (caught : exn -> bool)
    (sleep : Q -> option exn) (max_attempts : Z) (backoff : Q)
    (range_ : list Z) (current_delay : Q) (last_exception : option exn)
    (slept : list Q) : result T * list Q :=
  match range_ with
  | [] =>
      (Raise (match last_exception with
              | Some e => e
              | None => raise_none
              end), slept)
  | attempt :: rest =>
      match func attempt with
      | Ok v => (Ok v, slept)
      | Raise e =>
          if caught e then
            if (attempt <? max_attempts)%Z then
              match sleep current_delay with
              | Some e' => (Raise e', slept)
              | None =>
                  attempts func caught sleep max_attempts backoff rest
                    (current_delay * backoff)%Q (Some e) (slept ++ [current_delay])
              end
            else
              attempts func caught sleep max_attempts backoff rest
                current_delay (Some e) slept
          else (Raise e, slept)
      end
  end.

(** [retry_sync] and [async_retry]: the two differ in the sleep they
    call. *)
Definition retry {T} (func : Z -> result T) (max_attempts : Z)
    (delay backoff : Q) (caught : exn -> bool) (sleep : Q -> option exn)
    : result T * list Q :=
  attempts func caught sleep max_attempts backoff
    (range 1 (max_attempts + 1)) delay None [].

End Retry.

(* ===================================================================== *)
(** * The text fallbacks of the response parsers                          *)
(* ===================================================================== *)

Module TextResponse.

(** [any(word in text for word in words)] *)
Definition any_word (words : list string) (text : string) : bool :=
  existsb (fun word => Py.contains word text) words.

End TextResponse.

(** [Stage1Mistral._parse_text_response] *)
Module Stage1Fallback.

Import TextResponse.

Definition _parse_text_response (response : string) : dict :=
  let risk_level :=
    if any_word ["critical"; "crisis"; "crash"; "collapse"] (Py.lower response)
    then "critical"
    else if any_word ["high"; "danger"; "warning"] (Py.lower response)
    then "high"
    else if any_word ["low"; "stable"; "safe"] (Py.lower response)
    then "low"
    else "medium" in
  let key_drivers :=
    (if Py.contains "anomaly" (Py.lower response)
     then ["Anomali tespit edildi"] else [])
    ++ (if Py.contains "crisis" (Py.lower response)
        then ["Kriz sinyali"] else []) in
  [ ("risk_level", JStr risk_level);
    ("anomaly_confidence", JNum 0.6%Q);
    ("key_drivers", JList (map JStr key_drivers));
    ("reasoning", JStr response) ].

End Stage1Fallback.

(** [SynthesisAgent._parse_text_response] and
    [Stage2Llama._parse_text_response], which are the same function. *)
Module SynthesisFallback.

Import TextResponse.

Definition _parse_text_response (response : string) : dict :=
  let risk_level :=
    if any_word ["critical"; "crisis"; "urgent"] (Py.lower response)
    then "critical"
    else if any_word ["high"; "warning"; "concern"] (Py.lower response)
    then "high"
    else if any_word ["low"; "stable"; "safe"] (Py.lower response)
    then "low"
    else "medium" in
  [ ("final_risk_level", JStr risk_level);
    ("overall_confidence", JNum 0.6%Q);
    ("strategic_rationale", JStr response);
    ("action_plan", JList []);
    ("warnings", JList []) ].

End SynthesisFallback.

(* ===================================================================== *)
(** * core/circuit_breaker.py: the arbiter's brief                        *)
(* ===================================================================== *)

Module Arbiter.

Record conflicting_output := {
  co_agent_id : string;
  co_risk_level : string;
  co_confidence : Q;
  co_key_drivers : list string
}.

Record recommendation := {
  rec_arbiter : string;
  rec_conflicting_agents : list string;
  conflicting_outputs : list conflicting_output;
  instruction : string
}.

Definition get_arbiter_recommendation (ev : CircuitBreakerEvent)
    (agent_outputs : list AgentOutput) : recommendation :=
  let conflicting_ids := conflicting_agents ev in
  let conflicting_outputs_ :=
    List.filter (fun output => Py.str_in (agent_id output) conflicting_ids)
      agent_outputs in
  {| rec_arbiter := arbiter ev;
     rec_conflicting_agents := conflicting_ids;
     conflicting_outputs :=
       map (fun output =>
              {| co_agent_id := agent_id output;
                 co_risk_level := risk_level output;
                 co_confidence := confidence output;
                 co_key_drivers := key_drivers output |})
           conflicting_outputs_;
     instruction :=
       String.append (arbiter ev)
         (String.append
            ", aşağıdaki çelişkili ajan çıktılarını değerlendir ve nihai kararı ver. Çelişki: "
            (Py.join ", " conflicting_ids)) |}.

End Arbiter.

(* ===================================================================== *)
(** * core/orchestrator.py                                                *)
(* ===================================================================== *)

Module Orchestrator.

(** The four agents of stage 1, by their [analyze]. *)
Record stage1_agents := {
  RiskAgent : ContextBuilder.context -> Intent -> result AgentOutput;
  MacroAgent : ContextBuilder.context -> Intent -> result AgentOutput;
  TechnicalAgent : ContextBuilder.context -> Intent -> result AgentOutput;
  SentimentAgent : ContextBuilder.context -> Intent -> result AgentOutput
}.

(** A synthesis agent, by its [_call_llm] followed by
    [_parse_llm_response]. *)
Definition synthesis_agent :=
  list AgentOutput -> gmap string Q -> ContextBuilder.context -> string
  -> result (string * dict).

Record agents := {
  stage1 : stage1_agents;
  synthesis_llm : synthesis_agent
}.

Record collaborators := {
  classify : string -> result Intent;                          (* IntentClassifier.analyze *)
  harvest : Intent -> string -> result ContextBuilder.context; (* build_context *)
  (** the imports of [_load_agents] and the constructors of the four
      stage-1 agents *)
  construct_stage1 : result stage1_agents
}.

Definition abstract_class : exn :=
  Exn "TypeError"
      "Can't instantiate abstract class SynthesisAgent with abstract method analyze".

(** [SynthesisAgent()]: [BaseAgent] declares [analyze] abstract and
    [SynthesisAgent] does not define it. *)
Definition SynthesisAgent_ : result synthesis_agent := Raise abstract_class.

(** The dict literal of [_load_agents], evaluated entry by entry. *)
Definition _load_agents (c : collaborators) : result agents :=
  bind_result (construct_stage1 c) (fun four =>
  bind_result SynthesisAgent_ (fun synthesis =>
  Ok {| stage1 := four; synthesis_llm := synthesis |})).

(** [gather(..., return_exceptions=True)] followed by the loop that
    drops the exceptions. *)
Definition _run_stage1_agents (a : agents) (context : ContextBuilder.context)
    (i : Intent) : list AgentOutput :=
  let results :=
    [ RiskAgent (stage1 a) context i; MacroAgent (stage1 a) context i;
      TechnicalAgent (stage1 a) context i; SentimentAgent (stage1 a) context i ] in
  flat_map (fun r => match r with
                     | Ok output => [output]
                     | Raise _ => []
                     end) results.

Definition _run_stage2_synthesis (a : agents) (agent_outputs : list AgentOutput)
    (confidence_map : gmap string Q) (context : ContextBuilder.context)
    (user_query : string) : result FinalReport :=
  SynthesisAgent.synthesize
    (synthesis_llm a agent_outputs confidence_map context user_query)
    agent_outputs confidence_map context user_query.

(** [process_query]; [self.agents] is [None] on the first query and,
    [_load_agents] never returning, on every later one. *)
Definition process_query (c : collaborators) (user_query : string)
    : result FinalReport :=
  bind_result (classify c user_query) (fun i =>
  bind_result (harvest c i user_query) (fun context =>
  bind_result (_load_agents c) (fun a =>
  let agent_outputs := _run_stage1_agents a context i in
  let circuit_event := CircuitBreaker.check_contradictions agent_outputs in
  let arbiter_recommendation :=
    option_map (fun ev => Arbiter.get_arbiter_recommendation ev agent_outputs)
      circuit_event in
  let confidence_map :=
    ConfidenceEngine.compute_dynamic_confidence agent_outputs (Some 0.95%Q)
      (Some (ContextBuilder.data_freshness context)) in
  _run_stage2_synthesis a agent_outputs confidence_map context user_query))).

End Orchestrator.

(* ===================================================================== *)
(** * agents/base_agent.py                                                *)
(* ===================================================================== *)

Module BaseAgent.

Definition reliability_map : gmap string Q :=
  list_to_map
    [ ("Reuters", 0.95%Q);
      ("Bloomberg", 0.95%Q);
      ("Financial Times", 0.90%Q);
      ("Wall Street Journal", 0.90%Q);
      ("FRED", 0.98%Q);
      ("Alpha Vantage", 0.85%Q);
      ("Tavily", 0.80%Q);
      ("NewsAPI", 0.75%Q) ].

(** [reliability_map.get(source, 0.70)] *)
Definition _get_source_reliability (source : string) : Q :=
  default 0.70%Q (reliability_map !! source).

(** The loop of [_create_source_summary]; each [SourceSummary(...)] is
    validated as it is built. *)
Fixpoint _create_source_summary (sources : list string)
    (freshness_scores : gmap string Q) : result (list SourceSummary) :=
  match sources with
  | [] => Ok []
  | source_ :: rest =>
      let freshness_ := default 0.5%Q (freshness_scores !! source_) in
      let reliability_ := _get_source_reliability source_ in
      if negb (in_unit freshness_) then Raise (validation_error "freshness")
      else if negb (in_unit reliability_) then Raise (validation_error "reliability")
      else
        bind_result (_create_source_summary rest freshness_scores) (fun summaries =>
        Ok ({| source := source_;
               freshness := freshness_;
               reliability := reliability_ |} :: summaries))
  end.

End BaseAgent.

(* ===================================================================== *)
(** * Properties                                                          *)
(* ===================================================================== *)

(** ** Arithmetic of the float model *)

(** Linear arithmetic over the rationals and over the reals. *)
Ltac qlra := Lqa.lra.
Ltac rlra := Lra.lra.

Module PyFacts.

Local Open Scope Q_scope.

Lemma Qltb_true (a b : Q) : Py.Qltb a b = true <-> a < b.
Proof.
  unfold Py.Qltb. rewrite negb_true_iff.
  destruct (Qle_bool b a) eqn:E.
  - apply Qle_bool_iff in E. split; [discriminate | intros H; exfalso; qlra].
  - split; [intros _ | reflexivity].
    destruct (Qlt_le_dec a b) as [H | H]; [exact H |].
    apply Qle_bool_iff in H. congruence.
Qed.

Lemma Qltb_false (a b : Q) : Py.Qltb a b = false <-> b <= a.
Proof.
  unfold Py.Qltb. rewrite negb_false_iff. apply Qle_bool_iff.
Qed.

(** [clamp01] as the specification writes it. *)
Definition clamp01 (x : Q) : Q := Qmax 0 (Qmin 1 x).

Lemma clamp01_range (x : Q) : 0 <= clamp01 x <= 1.
Proof.
  unfold clamp01. split.
  - apply Q.le_max_l.
  - apply Q.max_lub; [qlra | apply Q.le_min_l].
Qed.

Lemma clamp_cases (x : Q) :
  (x < 0 /\ Py.max 0 (Py.min 1 x) == 0) \/
  (0 <= x <= 1 /\ Py.max 0 (Py.min 1 x) == x) \/
  (1 < x /\ Py.max 0 (Py.min 1 x) == 1).
Proof.
  unfold Py.max, Py.min.
  destruct (Py.Qltb x 1) eqn:E1.
  - apply Qltb_true in E1.
    destruct (Py.Qltb 0 x) eqn:E2.
    + apply Qltb_true in E2. right; left. split; [qlra | reflexivity].
    + apply Qltb_false in E2.
      destruct (Qlt_le_dec x 0) as [H | H].
      * left. split; [exact H | reflexivity].
      * right; left. split; [qlra | qlra].
  - apply Qltb_false in E1.
    destruct (Py.Qltb 0 1) eqn:E2.
    + destruct (Qlt_le_dec 1 x) as [H | H].
      * right; right. split; [exact H | reflexivity].
      * right; left. split; [qlra | qlra].
    + apply Qltb_false in E2. qlra.
Qed.

Lemma clamp01_cases (x : Q) :
  (x < 0 /\ clamp01 x == 0) \/
  (0 <= x <= 1 /\ clamp01 x == x) \/
  (1 < x /\ clamp01 x == 1).
Proof.
  unfold clamp01.
  destruct (Qlt_le_dec x 0) as [H0 | H0]; [left | right].
  - split; [exact H0 |].
    rewrite Q.max_l; [reflexivity |].
    rewrite Q.min_r; qlra.
  - destruct (Qlt_le_dec 1 x) as [H1 | H1]; [right | left].
    + split; [exact H1 |].
      rewrite Q.min_l by qlra. rewrite Q.max_r; qlra.
    + split; [qlra |].
      rewrite Q.min_r by qlra. rewrite Q.max_r; qlra.
Qed.

(** The nested [max(0.0, min(1.0, x))] of the sources is [clamp01]. *)
Lemma clamp_is_clamp01 (x : Q) : Py.max 0 (Py.min 1 x) == clamp01 x.
Proof.
  destruct (clamp_cases x) as [[H E] | [[H E] | [H E]]];
    destruct (clamp01_cases x) as [[H' E'] | [[H' E'] | [H' E']]];
    rewrite E, E'; qlra.
Qed.

Lemma clamp_range (x : Q) : 0 <= Py.max 0 (Py.min 1 x) <= 1.
Proof.
  destruct (clamp_cases x) as [[H E] | [[H E] | [H E]]]; rewrite E; qlra.
Qed.

Lemma clamp01_proper (x y : Q) : x == y -> clamp01 x == clamp01 y.
Proof. intros H. unfold clamp01. rewrite H. reflexivity. Qed.

Lemma fold_plus_acc (xs : list Q) (a : Q) :
  fold_left Qplus xs a == a + Py.sum xs.
Proof.
  unfold Py.sum. revert a.
  induction xs as [| x xs IH]; intros a; simpl.
  - qlra.
  - rewrite (IH (a + x)), (IH (0 + x)). qlra.
Qed.

Lemma sum_cons (x : Q) (xs : list Q) : Py.sum (x :: xs) == x + Py.sum xs.
Proof.
  unfold Py.sum at 1. simpl. rewrite fold_plus_acc. qlra.
Qed.

Lemma sum_nonneg (xs : list Q) :
  Forall (fun x => 0 <= x) xs -> 0 <= Py.sum xs.
Proof.
  induction 1 as [| x xs Hx _ IH].
  - unfold Py.sum; simpl; qlra.
  - rewrite sum_cons. qlra.
Qed.

End PyFacts.

(** ** Freshness score *)

Module TimeUtilsFacts.

Import TimeUtils PyFacts.
Local Open Scope Q_scope.

Lemma ratio_bounds (age m : Q) :
  0 < m -> 0 <= age -> age <= m -> 0 <= age / m <= 1.
Proof.
  intros Hm H0 H1. split.
  - apply Qle_shift_div_l; [exact Hm | qlra].
  - apply Qle_shift_div_r; [exact Hm | qlra].
Qed.

(** Behaviour on each of the three branches, by the age alone. *)
Lemma score_by_age (ts ref : datetime) (M : Z) :
  (0 < M)%Z ->
  let age := age_hours ts ref in
  let score := calculate_freshness_score ts M ref in
  (age <= 0 -> score == 1) /\
  (inject_Z M <= age -> score == 0) /\
  (0 <= age <= inject_Z M -> score == 1 - age / inject_Z M).
Proof.
  intros HM age score.
  assert (Hm : inject_Z 0 < inject_Z M) by (rewrite <- Zlt_Qlt; exact HM).
  change (inject_Z 0) with 0 in Hm.
  unfold score, calculate_freshness_score. fold age.
  destruct (Qle_bool age 0) eqn:E0.
  - apply Qle_bool_iff in E0.
    repeat split; intros H; try reflexivity; try qlra.
    assert (Ha : age == 0) by qlra.
    rewrite Ha. unfold Qdiv. qlra.
  - assert (Hpos : 0 < age).
    { destruct (Qlt_le_dec 0 age) as [H | H]; [exact H |].
      apply Qle_bool_iff in H. congruence. }
    destruct (Qle_bool (inject_Z M) age) eqn:E1.
    + apply Qle_bool_iff in E1.
      repeat split; intros H; try reflexivity; try qlra.
      assert (Ha : age == inject_Z M) by qlra.
      rewrite Ha. field. qlra.
    + assert (Hlt : age < inject_Z M).
      { destruct (Qlt_le_dec age (inject_Z M)) as [H | H]; [exact H |].
        apply Qle_bool_iff in H. congruence. }
      repeat split; intros H; try qlra.
      pose proof (ratio_bounds age (inject_Z M) Hm) as Hb.
      destruct Hb as [Hb0 Hb1]; [qlra | qlra |].
      destruct (clamp_cases (1 - age / inject_Z M)) as [[Hc E] | [[Hc E] | [Hc E]]];
        rewrite E; qlra.
Qed.

(** C8. For every maximum age [M > 0] the freshness score is linear in
    the age of the data: age 0 gives 1, any age of at least [M] gives 0,
    age [M/2] gives exactly 1/2, and every age between 0 and [M] gives
    [1 - age/M]. *)
Theorem freshness_is_linear_in_age (ts ref : datetime) (M : Z) :
  (0 < M)%Z ->
  let age := age_hours ts ref in
  let score := calculate_freshness_score ts M ref in
  (age == 0 -> score == 1) /\
  (inject_Z M <= age -> score == 0) /\
  (age == inject_Z M / 2 -> score == 1 # 2) /\
  (0 <= age <= inject_Z M -> score == 1 - age / inject_Z M).
Proof.
  intros HM age score.
  assert (Hm : inject_Z 0 < inject_Z M) by (rewrite <- Zlt_Qlt; exact HM).
  change (inject_Z 0) with 0 in Hm.
  destruct (score_by_age ts ref M HM) as (H0 & H1 & H2).
  fold age in H0, H1, H2. fold score in H0, H1, H2.
  repeat split.
  - intros H. apply H0. qlra.
  - exact H1.
  - intros H.
    assert (Hhalf : inject_Z M / 2 == inject_Z M * (1 # 2)) by (field).
    rewrite H2 by (rewrite H, Hhalf; qlra).
    rewrite H. field. qlra.
  - exact H2.
Qed.

(** Twelve hours into a 24 hour horizon: exactly one half. *)
Lemma freshness_is_linear_in_age_witness :
  (0 < 24)%Z /\ calculate_freshness_score 0 24 (hours 12) == 1 # 2.
Proof.
  split; [lia |].
  apply (freshness_is_linear_in_age 0%Z (hours 12) 24%Z); [lia | reflexivity].
Defined.

Example fresh_at_zero : calculate_freshness_score 5 24 5 == 1.
Proof. reflexivity. Qed.

Example stale_at_max : calculate_freshness_score 0 24 (hours 24) == 0.
Proof. reflexivity. Qed.

Example three_quarters : calculate_freshness_score 0 168 (hours 42) == 3 # 4.
Proof. reflexivity. Qed.

End TimeUtilsFacts.

(** ** Confidence scoring *)

Module ConfidenceEngineFacts.

Import ConfidenceEngine PyFacts.
Local Open Scope Q_scope.

Lemma default_reliability_value : default_reliability = 0.70.
Proof. vm_compute. reflexivity. Qed.

(** The reliability of the specification: the freshness-weighted mean
    of [staticReliability(source) * source.reliability], and the
    constant 0.70 when there is no source or the weights sum to zero. *)
Definition weighted_terms (ss : list SourceSummary) : list Q :=
  map (fun s => static_reliability (source s) * reliability s * freshness s) ss.

Definition reliability_spec (ss : list SourceSummary) : Q :=
  let weights := Py.sum (map freshness ss) in
  match ss with
  | [] => 0.70
  | _ => if Qeq_bool weights 0 then 0.70
         else Py.sum (weighted_terms ss) / weights
  end.

Lemma reliability_fold (ss : list SourceSummary) (r w : Q) :
  fst (fold_left reliability_step ss (r, w)) == r + Py.sum (weighted_terms ss) /\
  snd (fold_left reliability_step ss (r, w)) == w + Py.sum (map freshness ss).
Proof.
  revert r w.
  induction ss as [| s ss IH]; intros r w; simpl.
  - unfold Py.sum; simpl. split; qlra.
  - destruct (IH (r + static_reliability (source s) * reliability s * freshness s)
                 (w + freshness s)) as [IHr IHw].
    unfold weighted_terms in *. simpl map.
    rewrite !sum_cons.
    unfold reliability_step at 2 4. simpl fst. simpl snd.
    split.
    + rewrite IHr. qlra.
    + rewrite IHw. qlra.
Qed.

Lemma weights_nonneg (ss : list SourceSummary) :
  forallb valid_source ss = true -> 0 <= Py.sum (map freshness ss).
Proof.
  intros H. apply sum_nonneg.
  apply List.Forall_forall. intros x Hx.
  apply in_map_iff in Hx. destruct Hx as (s & <- & Hs).
  rewrite forallb_forall in H. specialize (H s Hs).
  unfold valid_source, in_unit in H.
  apply andb_prop in H. destruct H as [H _].
  apply andb_prop in H. destruct H as [H _].
  apply Qle_bool_iff in H. exact H.
Qed.

(** The accumulating loop computes the weighted mean. *)
Lemma source_reliability_refines (ss : list SourceSummary) :
  forallb valid_source ss = true ->
  _calculate_source_reliability ss == reliability_spec ss.
Proof.
  intros Hvalid.
  pose proof (weights_nonneg ss Hvalid) as Hw.
  pose proof (reliability_fold ss 0 0) as Hfold.
  unfold _calculate_source_reliability, reliability_spec.
  destruct ss as [| s ss'].
  - rewrite default_reliability_value. reflexivity.
  - set (l := s :: ss') in *.
    destruct (fold_left reliability_step l (0, 0)) as [tr tw].
    destruct Hfold as [Htr Htw]. simpl fst in Htr. simpl snd in Htw.
    rewrite default_reliability_value.
    destruct (Py.Qltb 0 tw) eqn:Epos.
    + apply Qltb_true in Epos.
      destruct (Qeq_bool (Py.sum (map freshness l)) 0) eqn:Ez.
      * apply Qeq_bool_iff in Ez. exfalso. qlra.
      * rewrite Htr, Htw.
        assert (H0 : 0 + Py.sum (weighted_terms l) == Py.sum (weighted_terms l)) by qlra.
        assert (H1 : 0 + Py.sum (map freshness l) == Py.sum (map freshness l)) by qlra.
        rewrite H0, H1. reflexivity.
    + apply Qltb_false in Epos.
      destruct (Qeq_bool (Py.sum (map freshness l)) 0) eqn:Ez.
      * reflexivity.
      * apply Qeq_bool_neq in Ez. exfalso. apply Ez. qlra.
Qed.

(** Every entry of the confidence map is the clamped score of one of
    the outputs, filed under that output's identity. *)
Lemma confidence_map_entries (outs : list AgentOutput) (ff : option Q)
    (cf : option (gmap string Q)) (m0 : gmap string Q) (id : string) (v : Q) :
  fold_left
    (fun confidence_map agent_output =>
       <[ agent_id agent_output :=
            Py.max 0 (Py.min 1
              (final_confidence agent_output (default 0.95 ff) (default ∅ cf))) ]>
         confidence_map)
    outs m0 !! id = Some v ->
  m0 !! id = Some v \/
  exists a, In a outs /\ agent_id a = id /\
    v = Py.max 0 (Py.min 1 (final_confidence a (default 0.95 ff) (default ∅ cf))).
Proof.
  revert m0.
  induction outs as [| a outs IH]; intros m0 H; simpl in H.
  - left. exact H.
  - apply IH in H. destruct H as [H | (b & Hb & Hid & Hv)].
    + destruct (decide (agent_id a = id)) as [E | E].
      * rewrite E, lookup_insert_eq in H. injection H as <-.
        right. exists a. split; [left; reflexivity | split; [exact E | reflexivity]].
      * rewrite lookup_insert_ne in H by exact E. left. exact H.
    + right. exists b. split; [right; exact Hb | split; [exact Hid | exact Hv]].
Qed.

Lemma confidence_fold_covers (outs : list AgentOutput) (f : AgentOutput -> Q)
    (m0 : gmap string Q) (k : string) :
  (exists a, In a outs /\ agent_id a = k) \/ is_Some (m0 !! k) ->
  is_Some (fold_left (fun m a => <[ agent_id a := f a ]> m) outs m0 !! k).
Proof.
  revert m0.
  induction outs as [| b outs IH]; intros m0 H; simpl.
  - destruct H as [(a & [] & _) | H]. exact H.
  - apply IH.
    destruct H as [(a & [-> | Hin] & Hk) | H].
    + right. rewrite Hk, lookup_insert_eq. eauto.
    + left. exists a. split; [exact Hin | exact Hk].
    + right. destruct (decide (agent_id b = k)) as [E | E].
      * rewrite E, lookup_insert_eq. eauto.
      * rewrite lookup_insert_ne by exact E. exact H.
Qed.

(** C6. For analysis results that satisfy their schema, the confidence
    map has an entry for every result; every entry lies in [0,1] and is
    clamp01(baseConfidence * reliability * dataFreshness * factor) of a
    result with that identity, where the factor defaults to 0.95 and
    reliability is the freshness-weighted mean of
    staticReliability(source) * source.reliability, or 0.70 when there
    is no source or the weights sum to zero. *)
Theorem confidence_is_clamped_product (outs : list AgentOutput)
    (ff : option Q) (cf : option (gmap string Q)) :
  forallb valid_output outs = true ->
  let scores := compute_dynamic_confidence outs ff cf in
  let factor := match ff with Some f => f | None => 0.95 end in
  (forall a, In a outs -> is_Some (scores !! agent_id a)) /\
  (forall id v, scores !! id = Some v ->
     0 <= v <= 1 /\
     exists a, In a outs /\ agent_id a = id /\
       v == clamp01 (confidence a
                     * reliability_spec (source_summary a)
                     * _calculate_data_freshness a (default ∅ cf)
                     * factor)).
Proof.
  intros Hvalid scores factor. split.
  - intros a Hin. unfold scores, compute_dynamic_confidence.
    apply confidence_fold_covers. left. exists a. split; [exact Hin | reflexivity].
  - intros id v Hv.
    unfold scores, compute_dynamic_confidence in Hv.
    apply confidence_map_entries in Hv.
    destruct Hv as [Hv | (a & Hin & Hid & Hv)].
    + rewrite lookup_empty in Hv. discriminate.
    + split.
      * rewrite Hv. apply clamp_range.
      * exists a. split; [exact Hin | split; [exact Hid |]].
        rewrite Hv, clamp_is_clamp01. apply clamp01_proper.
        unfold final_confidence.
        rewrite forallb_forall in Hvalid. specialize (Hvalid a Hin).
        unfold valid_output in Hvalid. apply andb_prop in Hvalid.
        destruct Hvalid as [_ Hsrc].
        rewrite (source_reliability_refines _ Hsrc).
        destruct ff; reflexivity.
Qed.

Definition reuters : SourceSummary :=
  {| source := "Reuters"; freshness := 1; reliability := 1 |}.

Definition sample_output (id : string) (risk : string) (ss : list SourceSummary)
    : AgentOutput :=
  {| agent_id := id; signal_type := "anomaly"; risk_level := risk;
     confidence := 0.8; key_drivers := []; source_summary := ss;
     reasoning := ""; raw_data := None |}.

Lemma confidence_is_clamped_product_witness :
  exists v,
    compute_dynamic_confidence [sample_output "RiskAgent" "high" [reuters]] None None
      !! "RiskAgent" = Some v /\ 0 <= v <= 1.
Proof.
  destruct (confidence_is_clamped_product
              [sample_output "RiskAgent" "high" [reuters]] None None)
    as [Hcov Hval]; [reflexivity |].
  destruct (Hcov (sample_output "RiskAgent" "high" [reuters])) as [v Hv];
    [left; reflexivity |].
  exists v. split; [exact Hv |].
  apply (Hval "RiskAgent" v Hv).
Defined.

(** 0.8 * (0.95 * 1) * ((1 + 0.5) / 2) * 0.95 *)
Example confidence_example :
  exists v,
    compute_dynamic_confidence [sample_output "RiskAgent" "high" [reuters]] None None
      !! "RiskAgent" = Some v /\ v == 0.5415.
Proof. eexists. split; [vm_compute; reflexivity | reflexivity]. Qed.

Example no_sources_example :
  exists v,
    compute_dynamic_confidence [sample_output "MacroAgent" "low" []] None None
      !! "MacroAgent" = Some v /\ v == 0.8 * 0.70 * 0.5 * 0.95.
Proof. eexists. split; [vm_compute; reflexivity | reflexivity]. Qed.

End ConfidenceEngineFacts.

(** ** Inter-agent agreement *)

Module AgreementFacts.

Import ConfidenceEngine.
Local Open Scope R_scope.

(** The specification's formula: the population standard deviation of
    the ordinals, and [clamp01 (1 - stddev / 2)]. *)
Definition population_std_dev (xs : list R) : R :=
  let n := INR (length xs) in
  let mean := Rsum xs / n in
  sqrt (Rsum (map (fun x => (x - mean) ^ 2) xs) / n).

Definition clamp01 (x : R) : R := Rmax 0 (Rmin 1 x).

(** The four risk levels of the specification and their ordinals. *)
Inductive level := low | medium | high | critical.

Definition level_name (l : level) : string :=
  match l with
  | low => "low"
  | medium => "medium"
  | high => "high"
  | critical => "critical"
  end.

Definition ordinal (l : level) : Z :=
  match l with
  | low => 1
  | medium => 2
  | high => 3
  | critical => 4
  end.

Definition agreement_spec (levels : list level) : R :=
  clamp01 (1 - population_std_dev (map (fun l => IZR (ordinal l)) levels) / 2).

(** The score of the code, over whatever values it gives the results. *)
Definition agreement_of_values (outs : list AgentOutput) : R :=
  clamp01 (1 - population_std_dev (map (fun o => IZR (risk_value o)) outs) / 2).

Lemma Rsum_acc (xs : list R) (a : R) : fold_left Rplus xs a = a + Rsum xs.
Proof.
  unfold Rsum. revert a.
  induction xs as [| x xs IH]; intros a; simpl.
  - rlra.
  - rewrite (IH (a + x)), (IH (0 + x)). rlra.
Qed.

Lemma Rsum_cons (x : R) (xs : list R) : Rsum (x :: xs) = x + Rsum xs.
Proof. unfold Rsum at 1. simpl. rewrite Rsum_acc. rlra. Qed.

Lemma Rsum_constant (c : R) (xs : list R) :
  Forall (fun x => x = c) xs -> Rsum xs = INR (length xs) * c.
Proof.
  induction 1 as [| x xs Hx _ IH].
  - unfold Rsum. simpl. rlra.
  - rewrite Rsum_cons, IH. simpl length.
    rewrite S_INR, Hx. rlra.
Qed.

Lemma Rsum_zero (xs : list R) : Forall (fun x => x = 0) xs -> Rsum xs = 0.
Proof. intros H. rewrite (Rsum_constant 0 xs H). rlra. Qed.

Lemma clamp01_one : clamp01 1 = 1.
Proof.
  unfold clamp01. rewrite Rmin_left by rlra. apply Rmax_right. rlra.
Qed.

(** Values that are all equal have standard deviation zero. *)
Lemma std_dev_constant (c : R) (xs : list R) :
  Forall (fun x => x = c) xs -> population_std_dev xs = 0.
Proof.
  intros Hc. unfold population_std_dev.
  destruct xs as [| x xs'].
  - unfold Rsum. simpl. unfold Rdiv. rewrite !Rmult_0_l. apply sqrt_0.
  - set (l := x :: xs') in *.
    assert (Hn : INR (length l) <> 0).
    { unfold l. change (length (x :: xs')) with (S (length xs')).
      apply not_0_INR. discriminate. }
    assert (Hmean : Rsum l / INR (length l) = c).
    { rewrite (Rsum_constant c l Hc). field. exact Hn. }
    rewrite Hmean.
    rewrite Rsum_zero.
    + unfold Rdiv. rewrite Rmult_0_l. apply sqrt_0.
    + apply List.Forall_forall. intros y Hy.
      apply in_map_iff in Hy. destruct Hy as (z & <- & Hz).
      rewrite List.Forall_forall in Hc. rewrite (Hc z Hz). ring.
Qed.

Lemma clamp_of_complement (s : R) :
  0 <= s -> Rmax 0 (Rmin 1 (1 - Rmin 1 (s / 2))) = clamp01 (1 - s / 2).
Proof.
  intros Hs. unfold clamp01.
  destruct (Rle_dec (s / 2) 1) as [H | H].
  - rewrite (Rmin_right 1 (s / 2)) by exact H. reflexivity.
  - assert (H' : 1 < s / 2) by rlra.
    rewrite (Rmin_left 1 (s / 2)) by rlra.
    replace (1 - 1) with 0 by ring.
    rewrite (Rmin_right 1 0) by rlra.
    rewrite (Rmin_right 1 (1 - s / 2)) by rlra.
    rewrite Rmax_left by rlra.
    rewrite Rmax_left by rlra. reflexivity.
Qed.

Lemma agreement_refines (outs : list AgentOutput) :
  calculate_inter_agent_agreement outs = agreement_of_values outs.
Proof.
  unfold calculate_inter_agent_agreement, agreement_of_values.
  destruct (length outs <? 2)%nat eqn:Elen.
  - apply Nat.ltb_lt in Elen.
    rewrite (std_dev_constant
               (match outs with [] => 0 | o :: _ => IZR (risk_value o) end)).
    + replace (1 - 0 / 2) with 1 by field. symmetry. apply clamp01_one.
    + destruct outs as [| o [| o' outs']]; simpl in *; try lia.
      * constructor.
      * constructor; [reflexivity | constructor].
  - apply Nat.ltb_ge in Elen.
    rewrite length_map.
    assert (E1 : (1 <? length outs)%nat = true) by (apply Nat.ltb_lt; lia).
    rewrite E1.
    unfold population_std_dev. rewrite length_map.
    apply clamp_of_complement. apply sqrt_pos.
Qed.

(** The code gives a result of a named level the ordinal of the
    specification. *)
Lemma risk_value_of_level (o : AgentOutput) (l : level) :
  risk_level o = level_name l -> risk_value o = ordinal l.
Proof.
  intros H. unfold risk_value. rewrite H. destruct l; reflexivity.
Qed.

Lemma values_of_levels (outs : list AgentOutput) :
  forall levels,
  map risk_level outs = map level_name levels ->
  map (fun o => IZR (risk_value o)) outs = map (fun l => IZR (ordinal l)) levels.
Proof.
  induction outs as [| o outs IH]; intros [| l levels] H; try discriminate H.
  - reflexivity.
  - cbn [map] in *. injection H as Ho Hrest.
    rewrite (risk_value_of_level o l Ho), (IH levels Hrest). reflexivity.
Qed.

(** C7. For results whose risk levels are low, medium, high or
    critical, the agreement score is clamp01(1 - populationStdDev / 2)
    over the ordinals low = 1, medium = 2, high = 3, critical = 4 of
    all results; and whatever the risk levels are, it is exactly 1 when
    all results carry the same one and when there is a single
    result. *)
Theorem agreement_is_clamped_std_dev (outs : list AgentOutput) :
  (forall levels,
     map risk_level outs = map level_name levels ->
     calculate_inter_agent_agreement outs = agreement_spec levels) /\
  ((forall a b, In a outs -> In b outs -> risk_level a = risk_level b) ->
   calculate_inter_agent_agreement outs = 1) /\
  (length outs = 1%nat -> calculate_inter_agent_agreement outs = 1).
Proof.
  assert (Hsame :
    (forall a b, In a outs -> In b outs -> risk_level a = risk_level b) ->
    calculate_inter_agent_agreement outs = 1).
  { intros Hall. rewrite agreement_refines. unfold agreement_of_values.
    rewrite (std_dev_constant
               (match outs with [] => 0 | o :: _ => IZR (risk_value o) end)).
    - replace (1 - 0 / 2) with 1 by field. apply clamp01_one.
    - destruct outs as [| o outs']; [constructor |].
      apply List.Forall_forall. intros y Hy.
      apply in_map_iff in Hy. destruct Hy as (z & <- & Hz).
      unfold risk_value. rewrite (Hall z o Hz); [reflexivity | left; reflexivity]. }
  split; [| split; [exact Hsame |]].
  - intros levels Hlevels. rewrite agreement_refines.
    unfold agreement_of_values, agreement_spec.
    rewrite (values_of_levels outs levels Hlevels). reflexivity.
  - intros Hone. apply Hsame.
    destruct outs as [| o [| o' outs']]; simpl in Hone; try discriminate.
    intros a b [<- | []] [<- | []]. reflexivity.
Qed.

Definition rated (id risk : string) : AgentOutput :=
  {| agent_id := id; signal_type := "risk"; risk_level := risk;
     confidence := 0.8%Q; key_drivers := []; source_summary := [];
     reasoning := ""; raw_data := None |}.

(** The spread of the specification's own example values: ordinals 1,
    4, 3 and 2 have mean 5/2 and variance 5/4. *)
Lemma spread_of_all_levels :
  population_std_dev (map (fun l => IZR (ordinal l)) [low; critical; high; medium])
  = sqrt (5 / 4).
Proof.
  unfold population_std_dev, Rsum. simpl. f_equal. field.
Qed.

(** One result of each level: the score is 1 - sqrt(5/4) / 2, and the
    three results of one level score 1. *)
Lemma agreement_is_clamped_std_dev_witness :
  calculate_inter_agent_agreement
    [rated "RiskAgent" "low"; rated "MacroAgent" "critical";
     rated "TechnicalAgent" "high"; rated "SentimentAgent" "medium"]
  = clamp01 (1 - sqrt (5 / 4) / 2) /\
  calculate_inter_agent_agreement
    [rated "RiskAgent" "high"; rated "MacroAgent" "high"; rated "TechnicalAgent" "high"]
  = 1.
Proof.
  split.
  - destruct (agreement_is_clamped_std_dev
                [rated "RiskAgent" "low"; rated "MacroAgent" "critical";
                 rated "TechnicalAgent" "high"; rated "SentimentAgent" "medium"])
      as (Hspec & _ & _).
    rewrite (Hspec [low; critical; high; medium] eq_refl).
    unfold agreement_spec. rewrite spread_of_all_levels. reflexivity.
  - destruct (agreement_is_clamped_std_dev
                [rated "RiskAgent" "high"; rated "MacroAgent" "high";
                 rated "TechnicalAgent" "high"]) as (_ & Hsame & _).
    apply Hsame.
    intros a b [<- | [<- | [<- | []]]] [<- | [<- | [<- | []]]]; reflexivity.
Defined.

(** Ordinals 1 and 4: mean 5/2, variance 9/4, deviation 3/2. *)
Example low_against_critical :
  calculate_inter_agent_agreement [rated "RiskAgent" "low"; rated "MacroAgent" "critical"]
  = 1 / 4.
Proof.
  rewrite agreement_refines. unfold agreement_of_values, population_std_dev.
  simpl map. simpl length.
  replace (IZR (risk_value (rated "RiskAgent" "low"))) with 1 by reflexivity.
  replace (IZR (risk_value (rated "MacroAgent" "critical"))) with 4 by reflexivity.
  unfold Rsum. simpl fold_left. simpl INR.
  match goal with
  | |- context [sqrt ?v] => replace v with ((3 / 2) * (3 / 2)) by field
  end.
  rewrite sqrt_square by rlra.
  unfold clamp01.
  replace (1 - 3 / 2 / 2) with (1 / 4) by field.
  rewrite Rmin_right by rlra. apply Rmax_right. rlra.
Qed.

(** A level the table does not name counts as medium, in any letter
    case. *)
Example unknown_level_counts_as_medium :
  risk_value (rated "RiskAgent" "severe") = 2%Z /\
  risk_value (rated "RiskAgent" "CRITICAL") = 4%Z.
Proof. split; reflexivity. Qed.

End AgreementFacts.

(** ** Contradiction detection *)

Module CircuitBreakerFacts.

Import CircuitBreaker.

Definition output (id risk : string) (drivers : list string) : AgentOutput :=
  {| agent_id := id; signal_type := "risk"; risk_level := risk;
     confidence := 0.8; key_drivers := drivers; source_summary := [];
     reasoning := ""; raw_data := None |}.

Example lower_example : Py.lower "CRITICAL Risk" = "critical risk".
Proof. reflexivity. Qed.

Example join_example : Py.join " " ["a"; "b"; "c"] = "a b c".
Proof. reflexivity. Qed.

Example contains_example :
  Py.contains "bear" "a bearish tone" = true /\ Py.contains "bull" "a bearish tone" = false.
Proof. split; reflexivity. Qed.

(** A risk gap of three ordinals is a contradiction whatever the
    drivers say. *)
Lemma low_critical_contradictory (a b : AgentOutput) :
  Py.lower (risk_level a) = "low" ->
  Py.lower (risk_level b) = "critical" ->
  _is_contradictory a b = true.
Proof.
  intros Ha Hb. unfold _is_contradictory, risk_ordinal.
  rewrite Ha, Hb. reflexivity.
Qed.

Lemma rule_step_keeps (d : gmap string AgentOutput)
    (acc : list (string * string) * option string)
    (rule : (string * string) * string) (p : string * string) :
  In p (fst acc) -> In p (fst (rule_step d acc rule)).
Proof.
  intros Hp. unfold rule_step. destruct rule as [[a1 a2] arb].
  destruct (d !! a1); [| exact Hp].
  destruct (d !! a2); [| exact Hp].
  destruct (_is_contradictory _ _); [| exact Hp].
  simpl. apply in_or_app. left. exact Hp.
Qed.

Lemma rules_keep (d : gmap string AgentOutput)
    (rules : list ((string * string) * string))
    (acc : list (string * string) * option string) (p : string * string) :
  In p (fst acc) -> In p (fst (fold_left (rule_step d) rules acc)).
Proof.
  revert acc.
  induction rules as [| r rules IH]; intros acc Hp; simpl.
  - exact Hp.
  - apply IH. apply rule_step_keeps. exact Hp.
Qed.

(** A rule whose two identities are present and contradictory is
    reported. *)
Lemma rules_report (d : gmap string AgentOutput)
    (rules : list ((string * string) * string))
    (acc : list (string * string) * option string)
    (a1 a2 arb : string) (o1 o2 : AgentOutput) :
  In ((a1, a2), arb) rules ->
  d !! a1 = Some o1 -> d !! a2 = Some o2 ->
  _is_contradictory o1 o2 = true ->
  In (a1, a2) (fst (fold_left (rule_step d) rules acc)).
Proof.
  intros Hin H1 H2 Hc. revert acc.
  induction rules as [| r rules IH]; intros acc; simpl.
  - destruct Hin.
  - destruct Hin as [-> | Hin].
    + apply rules_keep. unfold rule_step. rewrite H1, H2, Hc.
      simpl. apply in_or_app. right. left. reflexivity.
    + apply IH. exact Hin.
Qed.

Lemma agent_dict_short (outs : list AgentOutput) (k1 k2 : string)
    (o1 o2 : AgentOutput) :
  (length outs < 2)%nat ->
  agent_dict outs !! k1 = Some o1 -> agent_dict outs !! k2 = Some o2 ->
  k1 = k2.
Proof.
  intros Hlen H1 H2. unfold agent_dict in *.
  destruct outs as [| x [| y outs']]; simpl in *; try lia.
  - rewrite lookup_empty in H1. discriminate.
  - destruct (decide (agent_id x = k1)) as [E1 | E1];
      [| rewrite lookup_insert_ne, lookup_empty in H1 by exact E1; discriminate].
    destruct (decide (agent_id x = k2)) as [E2 | E2];
      [| rewrite lookup_insert_ne, lookup_empty in H2 by exact E2; discriminate].
    congruence.
Qed.

Lemma rule_identities_differ (a1 a2 arb : string) :
  In ((a1, a2), arb) CONTRADICTION_RULES -> a1 <> a2.
Proof.
  unfold CONTRADICTION_RULES. simpl.
  intros [H | [H | [H | [H | []]]]]; injection H as <- <- _; discriminate.
Qed.

Lemma dedup_keeps (x : string) (xs : list string) : In x xs -> In x (dedup xs).
Proof.
  intros H. unfold dedup.
  apply list_elem_of_In, elem_of_elements, elem_of_list_to_set, list_elem_of_In.
  exact H.
Qed.

(** C5, as the detector implements it. When the results retained for
    two identities that form a rule of the table have risk levels low
    and critical, the detector returns an event whose conflicting
    identities contain both. *)
Theorem low_critical_rule_pair_flagged (outs : list AgentOutput)
    (A B : AgentOutput) (arb : string) :
  agent_dict outs !! agent_id A = Some A ->
  agent_dict outs !! agent_id B = Some B ->
  In ((agent_id A, agent_id B), arb) CONTRADICTION_RULES ->
  Py.lower (risk_level A) = "low" ->
  Py.lower (risk_level B) = "critical" ->
  exists ev,
    check_contradictions outs = Some ev /\
    In (agent_id A) (conflicting_agents ev) /\
    In (agent_id B) (conflicting_agents ev).
Proof.
  intros HA HB Hrule Hlow Hcrit.
  unfold check_contradictions.
  destruct (length outs <? 2)%nat eqn:Elen.
  - apply Nat.ltb_lt in Elen.
    exfalso. apply (rule_identities_differ _ _ _ Hrule).
    exact (agent_dict_short outs _ _ _ _ Elen HA HB).
  - pose proof (rules_report (agent_dict outs) CONTRADICTION_RULES ([], None)
                  _ _ _ _ _ Hrule HA HB
                  (low_critical_contradictory A B Hlow Hcrit)) as Hrep.
    destruct (fold_left (rule_step (agent_dict outs)) CONTRADICTION_RULES ([], None))
      as [contradictions arbiter_].
    simpl fst in Hrep.
    destruct contradictions as [| c cs]; [destruct Hrep |].
    eexists. split; [reflexivity |].
    cbn [conflicting_agents].
    split; apply dedup_keeps; apply in_flat_map;
      exists (agent_id A, agent_id B); (split; [exact Hrep |]); simpl; auto.
Qed.

Definition risk_low : AgentOutput := output "RiskAgent" "low" [].
Definition technical_critical : AgentOutput := output "TechnicalAgent" "critical" [].
Definition macro_critical : AgentOutput := output "MacroAgent" "critical" [].

Lemma low_critical_rule_pair_flagged_witness :
  exists ev,
    check_contradictions [risk_low; technical_critical] = Some ev /\
    In "RiskAgent" (conflicting_agents ev) /\
    In "TechnicalAgent" (conflicting_agents ev).
Proof.
  apply (low_critical_rule_pair_flagged
           [risk_low; technical_critical] risk_low technical_critical "MacroAgent").
  - vm_compute. reflexivity.
  - vm_compute. reflexivity.
  - left. reflexivity.
  - reflexivity.
  - reflexivity.
Defined.

(** C5 as stated fails: a low and a critical result whose identities
    form no rule of the table raise no event. *)
Lemma low_critical_without_rule_unflagged :
  In risk_low [risk_low; macro_critical] /\
  In macro_critical [risk_low; macro_critical] /\
  risk_level risk_low = "low" /\
  risk_level macro_critical = "critical" /\
  check_contradictions [risk_low; macro_critical] = None.
Proof.
  split; [left; reflexivity |].
  split; [right; left; reflexivity |].
  split; [reflexivity |].
  split; [reflexivity |].
  vm_compute. reflexivity.
Qed.

(** The event for the flagged pair, in full. *)
Example flagged_event :
  check_contradictions [risk_low; technical_critical] =
  Some {| event := "CONTRADICTION_DETECTED";
          conflicting_agents := dedup ["RiskAgent"; "TechnicalAgent";
                                       "TechnicalAgent"; "RiskAgent"];
          arbiter := "MacroAgent";
          action := "REWEIGHT_AND_REEVALUATE";
          contradiction_count := 2;
          contradiction_types :=
            ["RiskAgent_vs_TechnicalAgent"; "TechnicalAgent_vs_RiskAgent"] |}.
Proof. vm_compute. reflexivity. Qed.

(** A later result with the same identity replaces the earlier one. *)
Example later_result_wins :
  check_contradictions
    [risk_low; technical_critical; output "RiskAgent" "high" []] = None.
Proof. vm_compute. reflexivity. Qed.

Example antonyms_flagged :
  _is_contradictory (output "MacroAgent" "medium" ["Bullish momentum"])
                    (output "SentimentAgent" "medium" ["bearish tone"]) = true.
Proof. reflexivity. Qed.

End CircuitBreakerFacts.

(** ** Context assembly *)

Module ContextBuilderFacts.

Import ContextBuilder.

(** A gathered result that is a dict with an ["error"] key. *)
Definition carries_error (r : gathered) : bool :=
  match r with
  | Returned (JDict d) => Py.has_key "error" d
  | _ => false
  end.

Lemma error_payload_has_error (e : exn) (key : string) (v : json) :
  Py.has_key "error" (error_payload e key v) = true.
Proof. reflexivity. Qed.

Lemma error_step (acc : list dict * dict * dict) (r : gathered) :
  carries_error r = true -> categorize_step acc r = acc.
Proof.
  intros H. destruct acc as [[market macro] news].
  destruct r as [[| b | q | s | l | d] | e]; simpl in H; try discriminate.
  unfold categorize_step. rewrite H, orb_true_r. reflexivity.
Qed.

Lemma categorize_skips_errors (results : list gathered)
    (acc : list dict * dict * dict) :
  fold_left categorize_step results acc =
  fold_left categorize_step
    (List.filter (fun r => negb (carries_error r)) results) acc.
Proof.
  revert acc.
  induction results as [| r results IH]; intros acc; simpl.
  - reflexivity.
  - destruct (carries_error r) eqn:E; simpl.
    + rewrite (error_step acc r E). apply IH.
    + apply IH.
Qed.

Definition macro_bucket (buckets : list dict * dict * dict) : dict := snd (fst buckets).

(** What [_get_macro_data] returns: the region and one entry per
    indicator, an error entry for an indicator that failed. *)
Definition macro_payload (p : providers) (region_ : string) : dict :=
  [ ("region", JStr region_);
    ("cpi", indicator (gather (get_cpi_data p region_)));
    ("gdp", indicator (gather (get_gdp_data p region_)));
    ("unemployment", indicator (gather (get_unemployment_rate p region_)));
    ("interest_rates", indicator (gather (get_interest_rates p region_))) ].

(** The macro payload has no top-level ["error"] key: it is filed in
    the macro bucket whatever its entries are. *)
Lemma macro_step (acc : list dict * dict * dict) (p : providers) (region_ : string) :
  categorize_step acc (Returned (_get_macro_data p region_))
  = (fst (fst acc), Py.update (macro_bucket acc) (macro_payload p region_), snd acc).
Proof. destruct acc as [[market macro] news]. reflexivity. Qed.

Lemma fresh_macro_bucket (p : providers) (region_ : string) :
  Py.update [] (macro_payload p region_) = macro_payload p region_.
Proof. reflexivity. Qed.

(** C10, as the code has it.  A payload with a top-level ["error"] key
    is dropped whatever else it carries, so the buckets are those of
    the results without such payloads.  A failed news fetch is such a
    payload: it is recorded nowhere, and with no market task the news
    bucket stays empty.  The macro payload never is: it is filed in the
    macro bucket with its region and its four entries, the error
    entries of failed indicators included. *)
Theorem error_payloads_are_discarded :
  (forall acc d,
      Py.has_key "error" d = true ->
      categorize_step acc (Returned (JDict d)) = acc) /\
  (forall results,
      categorize results =
      categorize (List.filter (fun r => negb (carries_error r)) results)) /\
  (forall p i q,
      carries_error (Returned (_get_macro_data p (region i))) = false /\
      macro_bucket (categorize (market_tasks p i ++ [Returned (_get_macro_data p (region i))]))
      = Py.update (macro_bucket (categorize (market_tasks p i)))
          (macro_payload p (region i)) /\
      (carries_error (Returned (_get_news_data p i q)) = true ->
       categorize (fan_out p i q)
       = categorize (market_tasks p i ++ [Returned (_get_macro_data p (region i))]) /\
       (market_tasks p i = [] ->
        forall ctx, build_context p i q = Ok ctx ->
                    news_data ctx = [] /\
                    macro_data ctx = macro_payload p (region i)))).
Proof.
  split; [| split].
  - intros acc d H. apply error_step. exact H.
  - intros results. unfold categorize. apply categorize_skips_errors.
  - intros p i q.
    split; [reflexivity |]. split.
    + unfold categorize. rewrite fold_left_app. cbn [fold_left].
      rewrite macro_step. reflexivity.
    + intros Hnews.
      assert (Hcat : categorize (fan_out p i q)
                     = categorize (market_tasks p i
                                     ++ [Returned (_get_macro_data p (region i))])).
      { unfold categorize, fan_out.
        rewrite app_assoc, (fold_left_app _ _ [Returned (_get_news_data p i q)]).
        cbn [fold_left]. apply error_step. exact Hnews. }
      split; [exact Hcat |].
      intros Hnone ctx Hctx. unfold build_context in Hctx.
      rewrite Hcat, Hnone in Hctx. cbn [app] in Hctx.
      unfold categorize in Hctx. cbn [fold_left] in Hctx.
      rewrite macro_step in Hctx. cbn [fst snd macro_bucket] in Hctx.
      rewrite fresh_macro_bucket in Hctx.
      destruct (freshness_scores p [] (macro_payload p (region i)) [])
        as [scores | e]; cbn [bind_result] in Hctx; [| discriminate Hctx].
      injection Hctx as <-. split; reflexivity.
Qed.

Definition offline : exn := Exn "ConnectionError" "timeout".

Definition quiet (api_name : string) : result unit := Ok tt.

(** The clients of a process without any API key in its environment. *)
Definition keyless : providers :=
  clients
    {| MarketAPI.api_key := None;
       MarketAPI.wait_if_needed := quiet;
       MarketAPI.get_intraday := fun _ _ => Raise offline;
       MarketAPI.global_quote := fun _ => Raise offline |}
    {| MacroAPI.fred_api_key := None;
       MacroAPI.wait_if_needed := quiet;
       MacroAPI.get_series := fun _ => Raise offline |}
    {| NewsAPI.tavily_api_key := None;
       NewsAPI.newsapi_key := None;
       NewsAPI.wait_if_needed := quiet;
       NewsAPI.tavily := fun _ _ => Raise offline;
       NewsAPI.newsapi := fun _ _ => Raise offline |}
    (fun _ _ _ => Ok {[ "overall" := 0.5%Q ]}).

Definition general_intent : Intent :=
  {| assets := ["GENERAL_MARKET"]; region := "US"; analysis_type := "risk";
     time_horizon := "short"; keywords := ["inflation"] |}.

Definition no_fred_key : json := JDict [ ("error", JStr "FRED API anahtarı bulunamadı") ].

(** C10 as stated fails: without a FRED key every indicator fails, and
    the macro bucket is not left empty but records the region and four
    error entries. *)
Lemma failed_macro_fetch_is_recorded :
  exists ctx,
    build_context keyless general_intent "q" = Ok ctx /\
    macro_data ctx
    = [ ("region", JStr "US"); ("cpi", no_fred_key); ("gdp", no_fred_key);
        ("unemployment", no_fred_key); ("interest_rates", no_fred_key) ] /\
    macro_data ctx <> [].
Proof.
  eexists. split; [vm_compute; reflexivity |]. split; [reflexivity | discriminate].
Qed.

(** Without any key the news fetch fails with the client's own error
    payload: the news bucket stays empty, the macro bucket does not. *)
Lemma error_payloads_are_discarded_witness :
  exists ctx,
    build_context keyless general_intent "q" = Ok ctx /\
    news_data ctx = [] /\
    macro_data ctx = macro_payload keyless "US".
Proof.
  destruct (build_context keyless general_intent "q") as [ctx | e] eqn:E.
  - exists ctx. split; [reflexivity |].
    destruct error_payloads_are_discarded as (_ & _ & H).
    destruct (H keyless general_intent "q") as (_ & _ & Hnews).
    destruct Hnews as [_ Hbuckets]; [reflexivity |].
    apply (Hbuckets eq_refl ctx E).
  - vm_compute in E. discriminate E.
Defined.

(** However a news fetch fails, its payload carries the error key: a
    missing key, a request that raises, a rate limiter that raises. *)
Lemma news_failure_carries_error (news : NewsAPI.t) (keywords : list string)
    (market : MarketAPI.t) (macro : MacroAPI.t)
    (scores : list dict -> dict -> dict -> result (gmap string Q))
    (i : Intent) (q : string) :
  let p := clients market macro news scores in
  carries_error (Returned (_get_news_data p i q)) = true \/
  exists source_ hit,
    _get_news_data p i q
    = NewsAPI.found
        (String.append (Py.join " OR " (firstn 5 (IntentEngine.keywords i ++ anomaly_keywords)))
           " finance OR financial OR market OR economy")
        source_ hit.
Proof.
  intros p. unfold p, _get_news_data, clients. cbn [get_live_anomalies].
  unfold NewsAPI.get_live_anomalies, NewsAPI.search_tavily, NewsAPI.search_newsapi.
  destruct (Api.missing (NewsAPI.tavily_api_key news)); cbn [negb].
  - destruct (Api.missing (NewsAPI.newsapi_key news)); [left; reflexivity |].
    destruct (NewsAPI.wait_if_needed news "newsapi") as [u | e]; cbn [bind_result];
      [| left; reflexivity].
    destruct (NewsAPI.newsapi news _ 20) as [hit | e]; [| left; reflexivity].
    right. eauto.
  - destruct (NewsAPI.wait_if_needed news "tavily") as [u | e]; cbn [bind_result];
      [| left; reflexivity].
    destruct (NewsAPI.tavily news _ 20) as [hit | e]; [| left; reflexivity].
    right. eauto.
Qed.

(** An error key next to the key of any of the three branches: each
    payload is dropped.  A macro payload whose indicator failed has the
    error one level down and is filed. *)
Example failed_branches :
  categorize
    [ Returned (JDict [("error", JStr "x"); ("symbol", JStr "TSLA")]);
      Returned (JDict [("error", JStr "x"); ("region", JStr "US")]);
      Returned (JDict [("error", JStr "x"); ("results", JList [])]) ]
  = ([], [], []).
Proof. reflexivity. Qed.

Example inner_errors_are_kept :
  categorize
    [ Returned (JDict [("region", JStr "US");
                       ("cpi", JDict [("error", JStr "x")])]) ]
  = ([], [("region", JStr "US"); ("cpi", JDict [("error", JStr "x")])], []).
Proof. reflexivity. Qed.

End ContextBuilderFacts.

(** ** Concrete collaborators for worked runs *)

Module Scenario.

Fixpoint repeat_text (n : nat) (s : string) : string :=
  match n with
  | O => ""
  | S n' => String.append s (repeat_text n' s)
  end.

(** A rationale long enough for [min_length=300]. *)
Definition long_rationale : string := repeat_text 60 "risk ".

Definition sample_intent : Intent :=
  {| assets := ["TSLA"]; region := "US"; analysis_type := "risk";
     time_horizon := "short"; keywords := ["inflation"] |}.

Definition sample_context : ContextBuilder.context :=
  {| ContextBuilder.intent := sample_intent;
     ContextBuilder.market_data := [];
     ContextBuilder.macro_data := [("region", JStr "US")];
     ContextBuilder.news_data := [];
     ContextBuilder.data_freshness :=
       {[ "macro" := 0.9%Q; "overall" := 0.9%Q ]} |}.

(** A hub on which only [good] names load. *)
Definition hub_loading (good : list string) : ModelLoader.hub :=
  {| ModelLoader.tokenizer_from_pretrained := fun name fast =>
       if Py.str_in name good then Ok (ModelLoader.Tokenizer name fast)
       else Raise (Exn "OSError" "not found");
     ModelLoader.model_from_pretrained := fun name =>
       if Py.str_in name good then Ok (ModelLoader.Model name)
       else Raise (Exn "OSError" "not found") |}.

Definition every_name : list string :=
  Stage1Mistral.MODEL_NAME :: Stage2Llama.MODEL_NAMES.

(** What [_parse_text_response] returns for a reply that is not JSON. *)
Definition text_fallback (risk : string) : dict :=
  [ ("final_risk_level", JStr risk);
    ("overall_confidence", JNum 0.6);
    ("strategic_rationale", JStr long_rationale);
    ("action_plan", JList []);
    ("warnings", JList []) ].

Definition stage1_reply (risk : string) : Stage1Mistral.inference :=
  fun _ _ _ _ =>
    Ok ("{}", [ ("risk_level", JStr risk);
                ("anomaly_confidence", JNum 0.6);
                ("key_drivers", JList [JStr "Kriz sinyali"]);
                ("reasoning", JStr "crisis") ]).

Definition out_of_memory : exn := Exn "RuntimeError" "CUDA out of memory".

Definition stage1_crash : Stage1Mistral.inference :=
  fun _ _ _ _ => Raise out_of_memory.

Definition stage2_reply (risk : string) : Stage2Llama.inference :=
  fun _ _ _ _ _ _ => Ok (long_rationale, text_fallback risk).

Definition collaborators_with (h : ModelLoader.hub)
    (s1 : Stage1Mistral.inference) (s2 : Stage2Llama.inference)
    : OrchestratorHF.collaborators :=
  {| OrchestratorHF.hub := h;
     OrchestratorHF.classify := fun _ => Ok sample_intent;
     OrchestratorHF.harvest := fun _ _ => Ok sample_context;
     OrchestratorHF.compress := fun _ _ _ => Ok "macro: US";
     OrchestratorHF.stage1_inference := s1;
     OrchestratorHF.stage2_inference := s2 |}.

Definition fresh_store : Store.store := Store.init Stage2Llama.MODEL_NAME.

End Scenario.

(** ** Action plans of the Mode B synthesis *)

Module SynthesisFacts.

Ltac inv_bind H :=
  match type of H with
  | bind_result ?r _ = Ok _ =>
      let E := fresh "E" in
      destruct r eqn:E; cbn [bind_result] in H; [| discriminate H]
  end.

(** [FinalReport(...)] stores the plan and the freshness score it is
    given. *)
Lemma final_report_fields (q : string) (risk conf rat : json)
    (plan : list ActionPlan) (contribs : list AgentOutput) (fresh : Q)
    (warn : json) (report : FinalReport) :
  make_final_report q risk conf rat plan contribs fresh warn = Ok report ->
  action_plan report = plan /\ data_freshness_score report = fresh.
Proof.
  unfold make_final_report. intros H.
  inv_bind H. inv_bind H. inv_bind H.
  destruct (negb (300 <=? String.length a1)%nat); [discriminate H |].
  destruct (negb (in_unit fresh)); [discriminate H |].
  inv_bind H. injection H as <-. split; reflexivity.
Qed.

Lemma stage2_plan_when_supplied (last : option string) (data : json)
    (plan : list ActionPlan) :
  Py.truthy data = true ->
  Stage2Llama._parse_action_plan last data = Ok plan ->
  plan <> [].
Proof.
  intros Ht H. unfold Stage2Llama._parse_action_plan in H.
  rewrite Ht in H. simpl in H.
  inv_bind H. inv_bind H.
  destruct a0; injection H as <-; discriminate.
Qed.

Lemma stage2_plan_when_risky (last : option string) (data : json)
    (plan : list ActionPlan) :
  Py.str_in (default "medium" last) ["critical"; "high"] = true ->
  Stage2Llama._parse_action_plan last data = Ok plan ->
  plan <> [].
Proof.
  intros Hrisk H.
  destruct (Py.truthy data) eqn:Ht.
  - exact (stage2_plan_when_supplied last data plan Ht H).
  - unfold Stage2Llama._parse_action_plan in H.
    rewrite Ht, Hrisk in H. simpl in H. injection H as <-. discriminate.
Qed.

Lemma try_models_keeps_risk (h : ModelLoader.hub) (names : list string)
    (s s' : Store.store) (r : result bool) :
  Stage2Llama.try_models h names s = (r, s') ->
  Store.stage2_last_stage1_risk s' = Store.stage2_last_stage1_risk s.
Proof.
  revert s.
  induction names as [| n names IH]; intros s H; simpl in H.
  - injection H as _ <-. reflexivity.
  - unfold Store.try_except, Store.bind, Store.load_model in H.
    destruct (ModelLoader.load_model h n (Store.model_loader s)) as [[mt | e] l].
    + simpl in H. injection H as _ <-. reflexivity.
    + apply IH in H. exact H.
Qed.

Lemma ensure_loaded_keeps_risk (h : ModelLoader.hub)
    (s s' : Store.store) (r : result unit) :
  Stage2Llama.ensure_loaded h s = (r, s') ->
  Store.stage2_last_stage1_risk s' = Store.stage2_last_stage1_risk s.
Proof.
  unfold Stage2Llama.ensure_loaded, Store.bind, Store.is_model_loaded.
  intros H.
  destruct (negb (ModelLoader.is_model_loaded None (Store.model_loader s))).
  - destruct (Stage2Llama.try_models h Stage2Llama.MODEL_NAMES s)
      as [[b | e] s1] eqn:E.
    + apply try_models_keeps_risk in E.
      destruct (negb b); injection H as _ <-; exact E.
    + apply try_models_keeps_risk in E. injection H as _ <-. exact E.
  - injection H as _ <-. reflexivity.
Qed.

(** What a completed [Stage2Llama.synthesize] returns: the report built
    from some provider output, with the stage-1 risk level recorded. *)
Lemma stage2_synthesize_inv (h : ModelLoader.hub) (infer : Stage2Llama.inference)
    (r : AgentOutput) (conf : gmap string Q) (ctx q : string)
    (s s' : Store.store) (report : FinalReport) :
  Stage2Llama.synthesize h infer r conf ctx q s = (Ok report, s') ->
  exists m tk response synthesis_result,
    infer m tk r conf ctx q = Ok (response, synthesis_result) /\
    Stage2Llama.make_report (Some (risk_level r)) r conf q response synthesis_result
    = Ok report.
Proof.
  unfold Stage2Llama.synthesize, Store.bind. intros H.
  unfold Stage2Llama.set_last_stage1_risk in H at 1.
  match type of H with
  | context [Stage2Llama.ensure_loaded h ?s0] =>
      destruct (Stage2Llama.ensure_loaded h s0) as [[u | e] s1] eqn:E
  end; [| discriminate].
  apply ensure_loaded_keeps_risk in E. simpl in E.
  unfold Store.get_current_model in H.
  destruct (ModelLoader.get_current_model (Store.model_loader s1)) as [[m tk] |];
    [| discriminate].
  unfold Store.lift in H.
  destruct (infer m tk r conf ctx q) as [[response res] | e] eqn:Einf;
    [| discriminate].
  simpl in H. rewrite E in H.
  injection H as H _. exists m, tk, response, res. split; [exact Einf | exact H].
Qed.

Lemma stage2_report_plan (last : option string) (r : AgentOutput)
    (conf : gmap string Q) (q response : string) (res : dict)
    (report : FinalReport) :
  Stage2Llama.make_report last r conf q response res = Ok report ->
  Stage2Llama._parse_action_plan last (Py.get_or "action_plan" (JList []) res)
  = Ok (action_plan report).
Proof.
  unfold Stage2Llama.make_report. intros H.
  inv_bind H. apply final_report_fields in H. destruct H as [-> _].
  reflexivity.
Qed.

(** Where a default entry is synthesised: whenever the stage-1 risk
    level is critical or high, and whenever the provider output carries
    a non-empty action plan value, also when none of its items
    parses. *)
Lemma stage2_defaults_elsewhere (h : ModelLoader.hub) (infer : Stage2Llama.inference)
    (r : AgentOutput) (conf : gmap string Q) (ctx q : string)
    (s s' : Store.store) (report : FinalReport) :
  Stage2Llama.synthesize h infer r conf ctx q s = (Ok report, s') ->
  exists m tk response res,
    infer m tk r conf ctx q = Ok (response, res) /\
    (Py.str_in (risk_level r) ["critical"; "high"] = true \/
     Py.truthy (Py.get_or "action_plan" (JList []) res) = true ->
     action_plan report <> []).
Proof.
  intros H.
  apply stage2_synthesize_inv in H.
  destruct H as (m & tk & response & res & Hinf & Hrep).
  exists m, tk, response, res. split; [exact Hinf |].
  apply stage2_report_plan in Hrep.
  intros [Hrisk | Hsupplied].
  - exact (stage2_plan_when_risky (Some (risk_level r)) _ _ Hrisk Hrep).
  - exact (stage2_plan_when_supplied _ _ _ Hsupplied Hrep).
Qed.


Import Scenario.

(** A reply of 300 characters that is not JSON, parsed by the text
    fallback. *)
Definition unparsed_reply : Stage2Llama.inference :=
  fun _ _ _ _ _ _ =>
    Ok (long_rationale, SynthesisFallback._parse_text_response long_rationale).


(** The same reply under a high stage-1 risk gets the default entry. *)
Example high_risk_without_entries_gets_default :
  exists report s',
    Stage2Llama.synthesize (hub_loading every_name) unparsed_reply
      (CircuitBreakerFacts.output "Stage1Mistral" "high" []) ∅ "ctx" "q" fresh_store
    = (Ok report, s') /\
    action_plan report = [Stage2Llama.default_high_plan].
Proof. eexists. eexists. split; [vm_compute; reflexivity | reflexivity]. Qed.

Example stage2_default_entry :
  Stage2Llama._parse_action_plan (Some "critical") (JList [])
  = Ok [Stage2Llama.default_high_plan].
Proof. reflexivity. Qed.

Example stage2_unparsable_items :
  Stage2Llama._parse_action_plan (Some "low") (JList [JNum 3; JStr "  "])
  = Ok [Stage2Llama.default_medium_plan].
Proof. reflexivity. Qed.

Example stage2_parsed_item :
  Stage2Llama._parse_action_plan (Some "low")
    (JList [JDict [("action", JStr " Hedge "); ("priority", JStr "URGENT")]])
  = Ok [ {| priority := "medium"; ap_action := "Hedge";
            rationale := Stage2Llama.llm_suggested |} ].
Proof. reflexivity. Qed.

(** Mode B with a medium or low stage-1 risk and no entries supplied
    returns early, before the default of the last resort is reached. *)
Example stage2_early_return :
  Stage2Llama._parse_action_plan (Some "medium") (JList []) = Ok [].
Proof. reflexivity. Qed.

End SynthesisFacts.

(** ** Loading with fallback *)

Module LoadingFacts.

Import Scenario.

(** Whether [load_model] succeeds for a name: both the tokenizer (fast,
    or else slow) and the model load. *)
Definition loads (h : ModelLoader.hub) (model_name : string) : bool :=
  match fst (ModelLoader.load_model h model_name ModelLoader.init) with
  | Ok _ => true
  | Raise _ => false
  end.

Lemma unload_unloads (l : ModelLoader.t) :
  ModelLoader.is_model_loaded None (ModelLoader.unload_model l) = false.
Proof.
  unfold ModelLoader.unload_model.
  destruct (ModelLoader.current_model l) eqn:E; simpl; [reflexivity |].
  rewrite E. reflexivity.
Qed.

Lemma unload_idempotent (l : ModelLoader.t) :
  ModelLoader.unload_model (ModelLoader.unload_model l) = ModelLoader.unload_model l.
Proof.
  unfold ModelLoader.unload_model.
  destruct (ModelLoader.current_model l) eqn:E; simpl; [reflexivity |].
  rewrite E. reflexivity.
Qed.

(** A failed load leaves nothing resident; a successful one leaves the
    requested name resident. *)
Lemma load_model_outcome (h : ModelLoader.hub) (n : string) (l : ModelLoader.t) :
  match ModelLoader.load_model h n l with
  | (Ok _, l') =>
      loads h n = true /\
      ModelLoader.current_model_name l' = Some n /\
      ModelLoader.is_model_loaded None l' = true
  | (Raise _, l') =>
      loads h n = false /\ ModelLoader.is_model_loaded None l' = false
  end.
Proof.
  unfold loads, ModelLoader.load_model.
  destruct (ModelLoader.tokenizer_from_pretrained h n true) as [tk | e1].
  - destruct (ModelLoader.model_from_pretrained h n) as [m | e2]; simpl.
    + repeat split.
    + split; [reflexivity |].
      destruct (ModelLoader.current_model l) eqn:E;
        [apply unload_unloads | simpl; rewrite E; reflexivity].
  - destruct (ModelLoader.tokenizer_from_pretrained h n false) as [tk | e1'].
    + destruct (ModelLoader.model_from_pretrained h n) as [m | e2]; simpl.
      * repeat split.
      * split; [reflexivity |].
        destruct (ModelLoader.current_model l) eqn:E;
          [apply unload_unloads | simpl; rewrite E; reflexivity].
    + simpl. split; [reflexivity |].
      destruct (ModelLoader.current_model l) eqn:E;
        [apply unload_unloads | simpl; rewrite E; reflexivity].
Qed.

(** The loop stops at the first name that loads. *)
Lemma try_models_first (h : ModelLoader.hub) (before after : list string)
    (n : string) (s : Store.store) :
  Forall (fun m => loads h m = false) before ->
  loads h n = true ->
  exists s',
    Stage2Llama.try_models h (before ++ n :: after) s = (Ok true, s') /\
    Store.load_log s' = Store.load_log s ++ before ++ [n] /\
    ModelLoader.current_model_name (Store.model_loader s') = Some n /\
    ModelLoader.is_model_loaded None (Store.model_loader s') = true /\
    Store.stage2_MODEL_NAME s' = n.
Proof.
  intros Hbefore Hn. revert s.
  induction Hbefore as [| b before Hb _ IH]; intros s; simpl.
  - unfold Store.try_except, Store.bind, Store.load_model.
    pose proof (load_model_outcome h n (Store.model_loader s)) as Hout.
    destruct (ModelLoader.load_model h n (Store.model_loader s)) as [[mt | e] l].
    + destruct Hout as (_ & Hname & Hloaded).
      eexists. split; [reflexivity |]. simpl.
      repeat split; assumption.
    + destruct Hout as [Hno _]. congruence.
  - unfold Store.try_except, Store.bind, Store.load_model.
    pose proof (load_model_outcome h b (Store.model_loader s)) as Hout.
    destruct (ModelLoader.load_model h b (Store.model_loader s)) as [[mt | e] l].
    + destruct Hout as (Hyes & _). congruence.
    + match goal with
      | |- context [Stage2Llama.try_models _ _ ?s1] =>
          destruct (IH s1) as (s' & Hrun & Hlog & Hrest)
      end.
      exists s'. split; [exact Hrun |]. split; [| exact Hrest].
      rewrite Hlog. simpl. rewrite <- !app_assoc. reflexivity.
Qed.

(** With no loadable name the loop tries them all and reports failure. *)
Lemma try_models_none (h : ModelLoader.hub) (names : list string) (s : Store.store) :
  Forall (fun m => loads h m = false) names ->
  ModelLoader.is_model_loaded None (Store.model_loader s) = false ->
  exists s',
    Stage2Llama.try_models h names s = (Ok false, s') /\
    Store.load_log s' = Store.load_log s ++ names /\
    ModelLoader.is_model_loaded None (Store.model_loader s') = false.
Proof.
  intros Hnames. revert s.
  induction Hnames as [| b names Hb _ IH]; intros s Hun; simpl.
  - exists s. rewrite app_nil_r. repeat split. exact Hun.
  - unfold Store.try_except, Store.bind, Store.load_model.
    pose proof (load_model_outcome h b (Store.model_loader s)) as Hout.
    destruct (ModelLoader.load_model h b (Store.model_loader s)) as [[mt | e] l].
    + destruct Hout as (Hyes & _). congruence.
    + destruct Hout as [_ Hun'].
      match goal with
      | |- context [Stage2Llama.try_models _ _ ?s1] =>
          destruct (IH s1 Hun') as (s' & Hrun & Hlog & Hrest)
      end.
      exists s'. split; [exact Hrun |]. split; [| exact Hrest].
      rewrite Hlog. simpl. rewrite <- app_assoc. reflexivity.
Qed.

(** Either no name loads, or there is a first one that does. *)
Lemma first_loadable (h : ModelLoader.hub) (names : list string) :
  Forall (fun m => loads h m = false) names \/
  exists before n after,
    names = before ++ n :: after /\
    Forall (fun m => loads h m = false) before /\
    loads h n = true.
Proof.
  induction names as [| x names IH].
  - left. constructor.
  - destruct (loads h x) eqn:Ex.
    + right. exists [], x, names. repeat split; [constructor | exact Ex].
    + destruct IH as [Hall | (before & n & after & -> & Hb & Hn)].
      * left. constructor; assumption.
      * right. exists (x :: before), n, after.
        repeat split; [constructor; assumption | exact Hn].
Qed.

(** C4. Starting with nothing resident, the loading block tries the
    names of [MODEL_NAMES] in order and stops at the first that loads;
    it raises its fatal error exactly when every name fails to load,
    and then every name has been tried. *)
Theorem fallback_loading (h : ModelLoader.hub) (s : Store.store) :
  ModelLoader.is_model_loaded None (Store.model_loader s) = false ->
  let r := fst (Stage2Llama.ensure_loaded h s) in
  let s' := snd (Stage2Llama.ensure_loaded h s) in
  ((exists e, r = Raise e) <->
   Forall (fun n => loads h n = false) Stage2Llama.MODEL_NAMES) /\
  (forall e, r = Raise e ->
     e = Stage2Llama.no_model_error /\
     Store.load_log s' = Store.load_log s ++ Stage2Llama.MODEL_NAMES /\
     ModelLoader.is_model_loaded None (Store.model_loader s') = false) /\
  (r = Ok tt ->
   exists before n after,
     Stage2Llama.MODEL_NAMES = before ++ n :: after /\
     Forall (fun m => loads h m = false) before /\
     loads h n = true /\
     Store.load_log s' = Store.load_log s ++ before ++ [n] /\
     ModelLoader.is_model_loaded (Some n) (Store.model_loader s') = true).
Proof.
  intros Hun r s'.
  unfold r, s', Stage2Llama.ensure_loaded, Store.bind, Store.is_model_loaded.
  rewrite Hun. cbn [negb].
  destruct (first_loadable h Stage2Llama.MODEL_NAMES)
    as [Hall | (before & n & after & Hsplit & Hb & Hn)].
  - destruct (try_models_none h _ s Hall Hun) as (s1 & Hrun & Hlog & Hun1).
    rewrite Hrun. cbn [negb fst snd Store.raise].
    split; [| split].
    + split; [intros _; exact Hall | intros _; eexists; reflexivity].
    + intros e He. injection He as <-. repeat split; assumption.
    + discriminate.
  - rewrite Hsplit.
    destruct (try_models_first h before after n s Hb Hn)
      as (s1 & Hrun & Hlog & Hname & Hloaded & Hattr).
    rewrite Hrun. cbn [negb fst snd Store.ret].
    split; [| split].
    + split; [intros [e He]; discriminate He |].
      intros Hall. rewrite <- Hsplit in Hall.
      rewrite Hsplit in Hall. apply Forall_app in Hall.
      destruct Hall as [_ Hall]. inversion Hall; subst. congruence.
    + discriminate.
    + intros _. exists before, n, after.
      repeat split; try assumption.
      simpl. rewrite Hname. apply String.eqb_refl.
Qed.

(** The loading block is the first thing [synthesize] does after noting
    the stage-1 risk: when no name loads, the call raises the fatal
    error. *)
Lemma synthesize_raises_when_nothing_loads (h : ModelLoader.hub)
    (infer : Stage2Llama.inference) (r : AgentOutput) (conf : gmap string Q)
    (ctx q : string) (s : Store.store) :
  ModelLoader.is_model_loaded None (Store.model_loader s) = false ->
  Forall (fun n => loads h n = false) Stage2Llama.MODEL_NAMES ->
  fst (Stage2Llama.synthesize h infer r conf ctx q s)
  = Raise Stage2Llama.no_model_error.
Proof.
  intros Hun Hall.
  unfold Stage2Llama.synthesize, Store.bind.
  unfold Stage2Llama.set_last_stage1_risk at 1.
  unfold Stage2Llama.ensure_loaded, Store.bind, Store.is_model_loaded.
  cbn [Store.model_loader]. rewrite Hun. cbn [negb].
  match goal with
  | |- context [Stage2Llama.try_models h _ ?s0] =>
      destruct (try_models_none h Stage2Llama.MODEL_NAMES s0 Hall Hun)
        as (s1 & Hrun & _ & _)
  end.
  rewrite Hrun. reflexivity.
Qed.

(** The first two names fail, the third loads, the fourth is not tried. *)
Lemma fallback_loading_witness :
  exists before n after,
    Stage2Llama.MODEL_NAMES = before ++ n :: after /\
    Store.load_log
      (snd (Stage2Llama.ensure_loaded
              (hub_loading ["microsoft/Phi-3-medium-4k-instruct";
                            "meta-llama/Meta-Llama-3-8B-Instruct"])
              fresh_store))
    = Store.load_log fresh_store ++ before ++ [n] /\
    n = "microsoft/Phi-3-medium-4k-instruct".
Proof.
  destruct (fallback_loading
              (hub_loading ["microsoft/Phi-3-medium-4k-instruct";
                            "meta-llama/Meta-Llama-3-8B-Instruct"])
              fresh_store) as (_ & _ & Hok); [reflexivity |].
  destruct Hok as (before & n & after & Hsplit & Hb & Hn & Hlog & Hloaded);
    [reflexivity |].
  exists before, n, after. split; [exact Hsplit |]. split; [exact Hlog |].
  vm_compute in Hloaded.
  destruct (String.eqb_spec "microsoft/Phi-3-medium-4k-instruct" n) as [E | E].
  - symmetry. exact E.
  - apply String.eqb_neq in E. vm_compute in E.
    rewrite E in Hloaded. discriminate Hloaded.
Defined.

Example third_name_loads :
  let s' := snd (Stage2Llama.ensure_loaded
                   (hub_loading ["microsoft/Phi-3-medium-4k-instruct";
                                 "meta-llama/Meta-Llama-3-8B-Instruct"])
                   fresh_store) in
  Store.load_log s' =
    [ "mistralai/Mistral-7B-Instruct-v0.2"; "mistralai/Mistral-7B-v0.3";
      "microsoft/Phi-3-medium-4k-instruct" ] /\
  Store.stage2_MODEL_NAME s' = "microsoft/Phi-3-medium-4k-instruct".
Proof. split; reflexivity. Qed.

Example nothing_loads :
  Stage2Llama.ensure_loaded (hub_loading []) fresh_store =
  (Raise Stage2Llama.no_model_error,
   {| Store.model_loader := ModelLoader.init;
      Store.stage2_MODEL_NAME := Stage2Llama.MODEL_NAME;
      Store.stage2_last_stage1_risk := None;
      Store.load_log := Stage2Llama.MODEL_NAMES |}).
Proof. reflexivity. Qed.

(** With a model already resident the block loads nothing at all. *)
Example resident_model_is_reused :
  let loaded := snd (Store.load_model (hub_loading every_name)
                       Stage1Mistral.MODEL_NAME fresh_store) in
  Stage2Llama.ensure_loaded (hub_loading []) loaded = (Ok tt, loaded).
Proof. reflexivity. Qed.

End LoadingFacts.

(** ** The Mode B pipeline *)

Module OrchestratorFacts.

Import Scenario.

Lemma bind_ok_inv {A B} (m : Store.M A) (k : A -> Store.M B)
    (s s' : Store.store) (b : B) :
  Store.bind m k s = (Ok b, s') ->
  exists a s1, m s = (Ok a, s1) /\ k a s1 = (Ok b, s').
Proof.
  unfold Store.bind. intros H.
  destruct (m s) as [[a | e] s1]; [| discriminate H].
  exists a, s1. split; [reflexivity | exact H].
Qed.

Lemma lift_ok_inv {A} (r : result A) (s s' : Store.store) (a : A) :
  Store.lift r s = (Ok a, s') -> r = Ok a /\ s' = s.
Proof. unfold Store.lift. intros H. injection H as -> ->. split; reflexivity. Qed.

(** Every result of stage 1 carries the identity ["Stage1Mistral"]. *)
Lemma analyze_identity (h : ModelLoader.hub) (infer : Stage1Mistral.inference)
    (ctx : string) (i : Intent) (s s' : Store.store) (r : AgentOutput) :
  Stage1Mistral.analyze h infer ctx i s = (Ok r, s') ->
  agent_id r = "Stage1Mistral".
Proof.
  unfold Stage1Mistral.analyze. intros H.
  apply bind_ok_inv in H. destruct H as (loaded & s1 & _ & H).
  apply bind_ok_inv in H. destruct H as (u & s2 & _ & H).
  apply bind_ok_inv in H. destruct H as (current & s3 & _ & H).
  destruct current as [[m tk] |]; [| discriminate H].
  apply bind_ok_inv in H. destruct H as (out & s4 & _ & H).
  apply lift_ok_inv in H. destruct H as [H _].
  unfold Stage1Mistral.make_output in H.
  SynthesisFacts.inv_bind H. SynthesisFacts.inv_bind H.
  SynthesisFacts.inv_bind H. SynthesisFacts.inv_bind H.
  injection H as <-. reflexivity.
Qed.

(** The keys of the confidence map are provider identities. *)
Lemma confidence_keys (outs : list AgentOutput) (ff : option Q)
    (cf : option (gmap string Q)) (k : string) :
  (forall a, In a outs -> agent_id a <> k) ->
  ConfidenceEngine.compute_dynamic_confidence outs ff cf !! k = None.
Proof.
  intros Hk.
  destruct (ConfidenceEngine.compute_dynamic_confidence outs ff cf !! k) as [v |] eqn:E;
    [| reflexivity].
  unfold ConfidenceEngine.compute_dynamic_confidence in E.
  apply ConfidenceEngineFacts.confidence_map_entries in E.
  destruct E as [E | (a & Hin & Hid & _)].
  - rewrite lookup_empty in E. discriminate E.
  - exfalso. exact (Hk a Hin Hid).
Qed.

(** Whatever [process_query] returns or raises, nothing is resident
    afterwards. *)
Lemma process_query_unloads (c : OrchestratorHF.collaborators) (q : string)
    (s : Store.store) :
  ModelLoader.is_model_loaded None
    (Store.model_loader (snd (OrchestratorHF.process_query c q s))) = false.
Proof.
  unfold OrchestratorHF.process_query, Store.try_except.
  destruct (OrchestratorHF.pipeline c q s) as [[report | e] s1] eqn:E.
  - unfold OrchestratorHF.pipeline in E.
    apply bind_ok_inv in E. destruct E as (i & s2 & _ & E).
    apply bind_ok_inv in E. destruct E as (raw & s3 & _ & E).
    apply bind_ok_inv in E. destruct E as (compact & s4 & _ & E).
    apply bind_ok_inv in E. destruct E as (r1 & s5 & _ & E).
    apply bind_ok_inv in E. destruct E as (u & s6 & _ & E).
    apply bind_ok_inv in E. destruct E as (final & s7 & _ & E).
    apply bind_ok_inv in E. destruct E as (u' & s8 & Hun & E).
    unfold Store.ret in E. injection E as _ <-.
    unfold Store.unload_model in Hun. injection Hun as _ <-.
    simpl. apply LoadingFacts.unload_unloads.
  - simpl. apply LoadingFacts.unload_unloads.
Qed.

(** C3. When the stage-1 analysis raises, [process_query] raises the
    same exception and leaves nothing resident. *)
Theorem stage1_failure_unloads_and_propagates
    (c : OrchestratorHF.collaborators) (q : string) (s s1 : Store.store)
    (i : Intent) (raw : ContextBuilder.context) (compact : string) (e : exn) :
  OrchestratorHF.classify c q = Ok i ->
  OrchestratorHF.harvest c i q = Ok raw ->
  OrchestratorHF.compress c raw q i = Ok compact ->
  Stage1Mistral.analyze (OrchestratorHF.hub c) (OrchestratorHF.stage1_inference c)
    compact i s = (Raise e, s1) ->
  exists s',
    OrchestratorHF.process_query c q s = (Raise e, s') /\
    ModelLoader.is_model_loaded None (Store.model_loader s') = false /\
    ModelLoader.get_current_model (Store.model_loader s') = None.
Proof.
  intros Hi Hraw Hcompact Hstage1.
  pose proof (process_query_unloads c q s) as Hun.
  unfold OrchestratorHF.process_query, Store.try_except in *.
  assert (Hpipe : OrchestratorHF.pipeline c q s = (Raise e, s1)).
  { unfold OrchestratorHF.pipeline, Store.bind, Store.lift.
    rewrite Hi, Hraw, Hcompact, Hstage1. reflexivity. }
  rewrite Hpipe in *.
  eexists. split; [reflexivity |].
  simpl in *. split; [exact Hun |].
  unfold ModelLoader.get_current_model.
  unfold ModelLoader.is_model_loaded in Hun.
  destruct (ModelLoader.current_model (ModelLoader.unload_model (Store.model_loader s1)));
    [discriminate Hun | reflexivity].
Qed.

Definition crashing : OrchestratorHF.collaborators :=
  collaborators_with (hub_loading every_name) stage1_crash (stage2_reply "low").

(** Stage 1 loads its model and then runs out of memory. *)
Lemma stage1_failure_unloads_and_propagates_witness :
  exists s',
    OrchestratorHF.process_query crashing "Is TSLA risky?" fresh_store
    = (Raise out_of_memory, s') /\
    ModelLoader.is_model_loaded None (Store.model_loader s') = false.
Proof.
  destruct (stage1_failure_unloads_and_propagates crashing "Is TSLA risky?"
              fresh_store
              (snd (Stage1Mistral.analyze (hub_loading every_name) stage1_crash
                      "macro: US" sample_intent fresh_store))
              sample_intent sample_context "macro: US" out_of_memory)
    as (s' & Hrun & Hun & _); try reflexivity.
  exists s'. split; [exact Hrun | exact Hun].
Defined.

Example model_resident_at_the_crash :
  ModelLoader.is_model_loaded None
    (Store.model_loader
       (snd (Stage1Mistral.analyze (hub_loading every_name) stage1_crash
               "macro: US" sample_intent fresh_store))) = true.
Proof. reflexivity. Qed.

(** C9. The confidence map has no key other than provider identities,
    the only identity in Mode B is ["Stage1Mistral"], and so every
    report [process_query] returns has [data_freshness_score] 0.5. *)
Theorem mode_b_freshness_is_constant :
  (forall outs ff cf,
      (forall a, In a outs -> agent_id a <> "data_freshness") ->
      ConfidenceEngine.compute_dynamic_confidence outs ff cf !! "data_freshness"
      = None) /\
  (forall c q s s' report,
      OrchestratorHF.process_query c q s = (Ok report, s') ->
      data_freshness_score report = 0.5%Q).
Proof.
  split.
  - intros outs ff cf H. apply confidence_keys. exact H.
  - intros c q s s' report H.
    unfold OrchestratorHF.process_query, Store.try_except in H.
    destruct (OrchestratorHF.pipeline c q s) as [[rep | e] s1] eqn:E;
      [| discriminate H].
    injection H as -> ->.
    unfold OrchestratorHF.pipeline in E.
    apply bind_ok_inv in E. destruct E as (i & s2 & _ & E).
    apply bind_ok_inv in E. destruct E as (raw & s3 & _ & E).
    apply bind_ok_inv in E. destruct E as (compact & s4 & _ & E).
    apply bind_ok_inv in E. destruct E as (r1 & s5 & Hstage1 & E).
    apply bind_ok_inv in E. destruct E as (u & s6 & _ & E).
    apply bind_ok_inv in E. destruct E as (final & s7 & Hsyn & E).
    apply bind_ok_inv in E. destruct E as (u' & s8 & _ & E).
    unfold Store.ret in E. injection E as <- _.
    apply analyze_identity in Hstage1.
    apply SynthesisFacts.stage2_synthesize_inv in Hsyn.
    destruct Hsyn as (m & tk & response & res & _ & Hrep).
    unfold Stage2Llama.make_report in Hrep.
    SynthesisFacts.inv_bind Hrep.
    apply SynthesisFacts.final_report_fields in Hrep.
    destruct Hrep as [_ ->].
    rewrite confidence_keys; [reflexivity |].
    intros out [<- | []]. rewrite Hstage1. discriminate.
Qed.

Definition answering : OrchestratorHF.collaborators :=
  collaborators_with (hub_loading every_name) (stage1_reply "high") (stage2_reply "high").

(** A completed run over a context whose overall freshness is 0.9. *)
Lemma mode_b_freshness_is_constant_witness :
  exists report s',
    OrchestratorHF.process_query answering "Is TSLA risky?" fresh_store
    = (Ok report, s') /\
    ContextBuilder.data_freshness sample_context !! "overall" = Some 0.9%Q /\
    data_freshness_score report = 0.5%Q.
Proof.
  destruct (OrchestratorHF.process_query answering "Is TSLA risky?" fresh_store)
    as [[report | e] s'] eqn:E.
  - exists report, s'. split; [reflexivity |]. split; [reflexivity |].
    destruct mode_b_freshness_is_constant as [_ H].
    exact (H _ _ _ _ _ E).
  - vm_compute in E. discriminate E.
Defined.

End OrchestratorFacts.

(** ** Rate limiting *)

Module RateLimiterFacts.

Import RateLimiter.
Local Open Scope Q_scope.

(** The budget [MarketAPI] registers. *)
Definition alpha_vantage : t := add_limit "alpha_vantage" 5 60 init.

(** Eleven coroutines handed to one [gather], as [build_context] does
    for an intent with eleven assets. *)
Definition eleven_callers : loop :=
  {| clock := 0;
     limiter := alpha_vantage;
     tasks := repeat (Fresh "alpha_vantage") 11 |}.

(** Each task runs to its first await; the six that had to sleep are
    resumed once their 60.1 seconds have passed. *)
Definition schedule : list event :=
  map Run (seq 0 11) ++ [Tick 60.1] ++ map Run (seq 5 6).

Example one_call_proceeds :
  enter "alpha_vantage" 0 alpha_vantage
  = (Ok Proceed, set_history "alpha_vantage" [] alpha_vantage).
Proof. reflexivity. Qed.

Example unregistered_name_is_ignored :
  enter "fred" 7 alpha_vantage = (Ok Unlimited, alpha_vantage).
Proof. reflexivity. Qed.

Example full_history_sleeps :
  fst (enter "alpha_vantage" 12
         (set_history "alpha_vantage" [2; 3; 4; 5; 6] alpha_vantage))
  = Ok (Sleep (60 - (12 - 2) + 0.1)).
Proof. reflexivity. Qed.

Example expired_calls_are_pruned :
  history
    (snd (enter "alpha_vantage" 63
            (set_history "alpha_vantage" [2; 3; 4; 5; 6] alpha_vantage)))
    "alpha_vantage"
  = [4; 5; 6].
Proof. reflexivity. Qed.

(** A caller that finds the history full, alone: it records its call
    only after the oldest one has left the window. *)
Example lone_waiter_stays_within_budget :
  exists final,
    run {| clock := 12;
           limiter := set_history "alpha_vantage" [2; 3; 4; 5; 6] alpha_vantage;
           tasks := [Fresh "alpha_vantage"] |}
        [Run 0; Tick 62.1; Run 0] = Some final /\
    tasks final = [Finished] /\
    calls_in_window (history (limiter final) "alpha_vantage") 60 (clock final) = 5%nat.
Proof. eexists. split; [vm_compute; reflexivity | split; reflexivity]. Qed.

(** A task cannot be resumed before its sleep is over. *)
Example early_wake_is_not_a_run :
  run {| clock := 12;
         limiter := set_history "alpha_vantage" [2; 3; 4; 5; 6] alpha_vantage;
         tasks := [Fresh "alpha_vantage"] |}
      [Run 0; Tick 62; Run 0] = None.
Proof. reflexivity. Qed.

(** A caller that sleeps with nobody else around is the run
    [enter], a tick to the reading at which it wakes, [record_call]. *)
Lemma lone_sleeper_is_a_run (api_name : string) (now stamp w : Q) (rl rl1 : t) :
  enter api_name now rl = (Ok (Sleep w), rl1) ->
  now + w <= stamp ->
  0 <= w ->
  run {| clock := now; limiter := rl; tasks := [Fresh api_name] |}
      [Run 0; Tick stamp; Run 0]
  = Some {| clock := stamp;
            limiter := record_call api_name stamp rl1;
            tasks := [Finished] |}.
Proof.
  intros Henter Hwake Hw. simpl. rewrite Henter. simpl.
  assert (E1 : Qle_bool now stamp = true) by (apply Qle_bool_iff; qlra).
  rewrite E1. simpl.
  assert (E2 : Qle_bool (now + w) stamp = true) by (apply Qle_bool_iff; exact Hwake).
  rewrite E2. reflexivity.
Qed.

(** *** Callers that do not overlap stay within the budget *)

Section Alone.

Variable api_name : string.
Variables max_calls time_window : Z.
Hypothesis budget_positive : (1 <= max_calls)%Z.

Definition newer_than (c : Q) : Q -> bool := fun x => Py.Qltb c x.

Definition in_window (t_end : Q) : Q -> bool :=
  fun c => Py.Qltb (t_end - inject_Z time_window) c && Qle_bool c t_end.

(** What holds between two calls: [T] is the latest clock reading. *)
Record settled (rl : t) (log : list Q) (T : Q) : Prop := {
  limit_registered : _limits rl !! api_name = Some (max_calls, time_window);
  log_in_the_past : forall x, In x log -> x <= T;
  history_is_recent_log :
    forall c, T - inject_Z time_window <= c ->
      List.filter (newer_than c) log
      = List.filter (newer_than c) (history rl api_name);
  within_budget :
    forall t_end, (Z.of_nat (calls_in_window log time_window t_end) <= max_calls)%Z
}.

Lemma filter_narrows (P R : Q -> bool) (l : list Q) :
  (forall x, P x = true -> R x = true) ->
  List.filter P (List.filter R l) = List.filter P l.
Proof.
  intros H. induction l as [| x l IH]; simpl; [reflexivity |].
  destruct (R x) eqn:ER; simpl.
  - rewrite IH. reflexivity.
  - destruct (P x) eqn:EP; [| exact IH].
    rewrite (H x EP) in ER. discriminate ER.
Qed.

Lemma filter_length_mono (P R : Q -> bool) (l : list Q) :
  (forall x, In x l -> P x = true -> R x = true) ->
  (length (List.filter P l) <= length (List.filter R l))%nat.
Proof.
  induction l as [| x l IH]; intros H; simpl; [lia |].
  assert (IH' : (length (List.filter P l) <= length (List.filter R l))%nat).
  { apply IH. intros y Hy. apply H. right. exact Hy. }
  destruct (P x) eqn:EP.
  - rewrite (H x (or_introl eq_refl) EP). simpl. lia.
  - destruct (R x); simpl; lia.
Qed.

Lemma filter_all (P : Q -> bool) (l : list Q) :
  (forall x, In x l -> P x = true) -> List.filter P l = l.
Proof.
  induction l as [| x l IH]; intros H; simpl; [reflexivity |].
  rewrite (H x (or_introl eq_refl)), IH; [reflexivity |].
  intros y Hy. apply H. right. exact Hy.
Qed.

Lemma filter_drops_one (P : Q -> bool) (l : list Q) (x : Q) :
  In x l -> P x = false -> (S (length (List.filter P l)) <= length l)%nat.
Proof.
  induction l as [| y l IH]; intros Hin HP; [destruct Hin |].
  simpl. destruct Hin as [-> | Hin].
  - rewrite HP. pose proof (List.filter_length_le P l). lia.
  - specialize (IH Hin HP). destruct (P y); simpl; lia.
Qed.

Lemma window_of_snoc (l : list Q) (s t_end : Q) :
  calls_in_window (l ++ [s]) time_window t_end
  = (calls_in_window l time_window t_end
     + (if in_window t_end s then 1 else 0))%nat.
Proof.
  unfold calls_in_window. rewrite List.filter_app, length_app. simpl.
  fold (in_window t_end s). destruct (in_window t_end s); reflexivity.
Qed.

Lemma in_window_spec (t_end c : Q) :
  in_window t_end c = true <-> t_end - inject_Z time_window < c /\ c <= t_end.
Proof.
  unfold in_window. rewrite andb_true_iff, PyFacts.Qltb_true, Qle_bool_iff.
  reflexivity.
Qed.

Lemma min_le_both (a b : Q) : Py.min a b <= a /\ Py.min a b <= b.
Proof.
  unfold Py.min. destruct (Py.Qltb b a) eqn:E.
  - apply PyFacts.Qltb_true in E. split; qlra.
  - apply PyFacts.Qltb_false in E. split; qlra.
Qed.

Lemma list_min_least (c : Q) (cs : list Q) :
  forall x, In x (c :: cs) -> list_min c cs <= x.
Proof.
  unfold list_min. revert c.
  induction cs as [| d cs IH]; intros c x Hin; simpl.
  - destruct Hin as [<- | []]. qlra.
  - destruct (min_le_both c d) as [Hc Hd].
    destruct Hin as [-> | [-> | Hin]].
    + pose proof (IH (Py.min x d) (Py.min x d) (or_introl eq_refl)). qlra.
    + pose proof (IH (Py.min c x) (Py.min c x) (or_introl eq_refl)). qlra.
    + apply IH. right. exact Hin.
Qed.

Lemma list_min_member (c : Q) (cs : list Q) : In (list_min c cs) (c :: cs).
Proof.
  unfold list_min. revert c.
  induction cs as [| d cs IH]; intros c; simpl.
  - left. reflexivity.
  - destruct (IH (Py.min c d)) as [H | H].
    + rewrite <- H. unfold Py.min. destruct (Py.Qltb d c); auto.
    + right. right. exact H.
Qed.

Lemma history_set (h : list Q) (rl : t) :
  history (set_history api_name h rl) api_name = h.
Proof. unfold history, set_history. simpl. rewrite lookup_insert_eq. reflexivity. Qed.

Lemma history_recorded (stamp : Q) (rl : t) :
  history (record_call api_name stamp rl) api_name
  = history rl api_name ++ [stamp].
Proof. unfold record_call. apply history_set. Qed.

(** The history after pruning at [now] is the part of the log that is
    newer than the cutoff. *)
Lemma pruned_is_recent_log (rl : t) (log : list Q) (T now : Q) :
  settled rl log T -> T <= now ->
  List.filter (newer_than (now - inject_Z time_window)) (history rl api_name)
  = List.filter (newer_than (now - inject_Z time_window)) log.
Proof.
  intros Hs Hnow. symmetry. apply (history_is_recent_log _ _ _ Hs). qlra.
Qed.

Lemma pruned_within_budget (rl : t) (log : list Q) (T now : Q) :
  settled rl log T -> T <= now ->
  (Z.of_nat (length (List.filter (newer_than (now - inject_Z time_window))
                       (history rl api_name))) <= max_calls)%Z.
Proof.
  intros Hs Hnow. rewrite (pruned_is_recent_log rl log T now Hs Hnow).
  pose proof (within_budget _ _ _ Hs now) as Hb.
  unfold calls_in_window in Hb.
  assert (Hle : (length (List.filter (newer_than (now - inject_Z time_window)) log)
                 <= length (List.filter (in_window now) log))%nat).
  { apply filter_length_mono. intros x Hx Hnew.
    apply in_window_spec. unfold newer_than in Hnew.
    apply PyFacts.Qltb_true in Hnew.
    pose proof (log_in_the_past _ _ _ Hs x Hx). split; qlra. }
  unfold in_window in Hle. lia.
Qed.

(** Recording [stamp] keeps the state settled, provided the stamps of
    the log that share a window with it number less than the budget. *)
Lemma record_settles (rl : t) (log : list Q) (T now stamp : Q) :
  settled rl log T -> T <= now -> now <= stamp ->
  (forall t_end, in_window t_end stamp = true ->
     (Z.of_nat (calls_in_window log time_window t_end) < max_calls)%Z) ->
  settled
    (record_call api_name stamp
       (set_history api_name
          (List.filter (newer_than (now - inject_Z time_window)) (history rl api_name))
          rl))
    (log ++ [stamp]) stamp.
Proof.
  intros Hs Hnow Hstamp Hroom. constructor.
  - unfold record_call, set_history. simpl. exact (limit_registered _ _ _ Hs).
  - intros x Hx. apply in_app_or in Hx. destruct Hx as [Hx | [<- | []]].
    + pose proof (log_in_the_past _ _ _ Hs x Hx). qlra.
    + qlra.
  - intros c Hc. rewrite history_recorded, history_set.
    rewrite !List.filter_app. f_equal.
    rewrite filter_narrows.
    + apply (history_is_recent_log _ _ _ Hs). qlra.
    + intros x Hx. unfold newer_than in *.
      apply PyFacts.Qltb_true in Hx. apply PyFacts.Qltb_true. qlra.
  - intros t_end. rewrite window_of_snoc.
    destruct (in_window t_end stamp) eqn:Ew.
    + specialize (Hroom t_end Ew). lia.
    + pose proof (within_budget _ _ _ Hs t_end). lia.
Qed.

(** One call made alone keeps the state settled. *)
Lemma call_settles (rl : t) (log : list Q) (T now stamp : Q) :
  settled rl log T -> T <= now ->
  match enter api_name now rl with
  | (Ok Unlimited, _) => False
  | (Ok Proceed, rl1) =>
      now <= stamp -> settled (record_call api_name stamp rl1) (log ++ [stamp]) stamp
  | (Ok (Sleep w), rl1) =>
      now + w <= stamp -> settled (record_call api_name stamp rl1) (log ++ [stamp]) stamp
  | (Raise _, _) => False
  end.
Proof.
  intros Hs Hnow. unfold enter.
  rewrite (limit_registered _ _ _ Hs). cbv zeta.
  pose proof (pruned_within_budget rl log T now Hs Hnow) as Hfull.
  pose proof (pruned_is_recent_log rl log T now Hs Hnow) as Hlog.
  set (cutoff := now - inject_Z time_window) in *.
  unfold newer_than in Hfull, Hlog.
  remember (List.filter (fun call_time => Py.Qltb cutoff call_time)
              (history rl api_name)) as pruned eqn:Epruned.
  assert (Hrecent : forall x, In x pruned -> cutoff < x).
  { intros x Hx. rewrite Epruned in Hx. apply List.filter_In in Hx.
    destruct Hx as [_ Hx]. apply PyFacts.Qltb_true in Hx. exact Hx. }
  assert (Hseen : forall t_end x, stamp <= t_end -> now <= stamp ->
            In x log -> in_window t_end x = true -> newer_than cutoff x = true).
  { intros t_end x Ht Hst Hx Hw. apply in_window_spec in Hw.
    unfold newer_than, cutoff. apply PyFacts.Qltb_true. qlra. }
  destruct (max_calls <=? Z.of_nat (length pruned))%Z eqn:Efull.
  - apply Z.leb_le in Efull.
    assert (Hmin : match pruned with
                   | [] => True
                   | c :: cs => In (list_min c cs) pruned
                   end).
    { destruct pruned as [| c cs]; [exact I | apply list_min_member]. }
    destruct pruned as [| c cs] eqn:Eshape.
    + simpl in Efull. lia.
    + rewrite <- Eshape in *. clear Eshape.
      set (oldest := list_min c cs) in *.
      pose proof (Hrecent oldest Hmin) as Hold.
      assert (Hwait : 0 < inject_Z time_window - (now - oldest) + 0.1).
      { unfold cutoff in Hold. qlra. }
      apply PyFacts.Qltb_true in Hwait. rewrite Hwait.
      apply PyFacts.Qltb_true in Hwait.
      intros Hslept. rewrite Epruned.
      apply (record_settles rl log T now stamp Hs Hnow); [qlra |].
      intros t_end Hw. apply in_window_spec in Hw.
      unfold calls_in_window. fold (in_window t_end).
      assert (Hle : (length (List.filter (in_window t_end) log)
                     <= length (List.filter (newer_than oldest) pruned))%nat).
      { rewrite Hlog, filter_narrows.
        - apply filter_length_mono. intros x Hx Hx'.
          apply in_window_spec in Hx'. unfold newer_than.
          apply PyFacts.Qltb_true. qlra.
        - intros x Hx. unfold newer_than in Hx.
          apply PyFacts.Qltb_true in Hx. apply PyFacts.Qltb_true. qlra. }
      assert (Hdrop : (S (length (List.filter (newer_than oldest) pruned))
                       <= length pruned)%nat).
      { apply (filter_drops_one _ _ oldest Hmin).
        unfold newer_than. apply PyFacts.Qltb_false. qlra. }
      lia.
  - apply Z.leb_gt in Efull.
    intros Hstamp. rewrite Epruned.
    apply (record_settles rl log T now stamp Hs Hnow Hstamp).
    intros t_end Hw. apply in_window_spec in Hw.
    unfold calls_in_window. fold (in_window t_end).
    assert (Hle : (length (List.filter (in_window t_end) log)
                   <= length pruned)%nat).
    { rewrite Hlog.
      apply filter_length_mono. intros x Hx Hx'.
      apply (Hseen t_end x); [qlra | exact Hstamp | exact Hx | exact Hx']. }
    lia.
Qed.

(** Any number of calls made one after the other leave at most
    [max_calls] recorded timestamps in every window. *)
Lemma calls_alone_within_budget (readings : list (Q * Q)) (T : Q)
    (rl rl' : t) (log log' : list Q) :
  settled rl log T ->
  calls_alone api_name readings T rl log = Some (rl', log') ->
  forall t_end,
    (Z.of_nat (calls_in_window log' time_window t_end) <= max_calls)%Z.
Proof.
  revert T rl log.
  induction readings as [| [now stamp] rest IH]; intros T rl log Hs Hrun; simpl in Hrun.
  - injection Hrun as _ <-. exact (within_budget _ _ _ Hs).
  - destruct (Qle_bool T now) eqn:Emono; simpl in Hrun; [| discriminate Hrun].
    apply Qle_bool_iff in Emono.
    pose proof (call_settles rl log T now stamp Hs Emono) as Hcall.
    unfold wait_if_needed in Hrun.
    destruct (enter api_name now rl) as [[[| | w] | e] rl1];
      try contradiction.
    + destruct (Qle_bool now stamp) eqn:E; [| discriminate Hrun].
      apply Qle_bool_iff in E. exact (IH _ _ _ (Hcall E) Hrun).
    + destruct (Qle_bool (now + w) stamp) eqn:E; [| discriminate Hrun].
      apply Qle_bool_iff in E. exact (IH _ _ _ (Hcall E) Hrun).
Qed.

End Alone.

(** A limiter with a fresh budget is settled. *)
Lemma fresh_limiter_settled (api_name : string) (max_calls time_window : Z) (T : Q) :
  (0 <= max_calls)%Z ->
  settled api_name max_calls time_window
    (add_limit api_name max_calls time_window init) [] T.
Proof.
  intros Hmc. constructor.
  - unfold add_limit. simpl. apply lookup_insert_eq.
  - intros x [].
  - intros c _. reflexivity.
  - intros t_end. unfold calls_in_window. simpl. exact Hmc.
Qed.

Lemma callers_alone_stay_within_quota (api_name : string)
    (max_calls time_window : Z) (readings : list (Q * Q)) (T : Q)
    (rl' : t) (log' : list Q) :
  (1 <= max_calls)%Z ->
  calls_alone api_name readings T
    (add_limit api_name max_calls time_window init) [] = Some (rl', log') ->
  forall t_end,
    (Z.of_nat (calls_in_window log' time_window t_end) <= max_calls)%Z.
Proof.
  intros Hmc Hrun.
  apply (calls_alone_within_budget api_name max_calls time_window Hmc
           readings T (add_limit api_name max_calls time_window init) rl' [] log');
    [| exact Hrun].
  apply fresh_limiter_settled. lia.
Qed.

(** Seven calls one after the other against 5 per 60 seconds: the sixth
    and the seventh each wait for the window to move on. *)
Example seven_calls_alone :
  exists rl',
    calls_alone "alpha_vantage"
      [(0, 0); (1, 1); (2, 2); (3, 3); (4, 4); (5, 60.1); (61, 61.1)]
      0 alpha_vantage []
    = Some (rl', [0; 1; 2; 3; 4; 60.1; 61.1]) /\
    history rl' "alpha_vantage" = [2; 3; 4; 60.1; 61.1].
Proof. eexists. split; [vm_compute; reflexivity | reflexivity]. Qed.

Example cut_sleep_is_not_a_run :
  calls_alone "alpha_vantage"
    [(0, 0); (1, 1); (2, 2); (3, 3); (4, 4); (5, 60)] 0 alpha_vantage [] = None.
Proof. reflexivity. Qed.

(** C1 fails on the code.  Callers that find the history full while
    others are already asleep on it all sleep until the same instant
    and all record their call on waking, without looking at the
    history again: eleven gathered callers against a budget of 5 calls
    per 60 seconds leave six timestamps inside one window. *)
Theorem gathered_callers_overrun_quota :
  exists final,
    run eleven_callers schedule = Some final /\
    _limits (limiter final) !! "alpha_vantage" = Some (5%Z, 60%Z) /\
    Forall (fun tk => tk = Finished) (tasks final) /\
    history (limiter final) "alpha_vantage"
    = repeat 0 5 ++ repeat 60.1 6 /\
    calls_in_window (history (limiter final) "alpha_vantage") 60 (clock final)
    = 6%nat.
Proof.
  eexists. split; [vm_compute; reflexivity |].
  split; [reflexivity |].
  split; [repeat constructor |].
  split; reflexivity.
Qed.

End RateLimiterFacts.

(* ===================================================================== *)
(** * Further properties of the modelled code                             *)
(* ===================================================================== *)

(** ** Residency of the heavy model *)

Module ResidencyFacts.

Import Scenario.

(** The three fields of the loader are set together and cleared
    together. *)
Definition consistent (l : ModelLoader.t) : Prop :=
  l = ModelLoader.init \/
  exists m tk n,
    l = {| ModelLoader.current_model := Some m;
           ModelLoader.current_tokenizer := Some tk;
           ModelLoader.current_model_name := Some n |}.

Lemma init_consistent : consistent ModelLoader.init.
Proof. left. reflexivity. Qed.

Lemma unload_gives_init (l : ModelLoader.t) :
  consistent l -> ModelLoader.unload_model l = ModelLoader.init.
Proof.
  intros [-> | (m & tk & n & ->)]; reflexivity.
Qed.

(** Unloading is idempotent and complete: after one call, and again
    after a second, nothing is resident under any name and no handle
    can be obtained. *)
Theorem unload_twice_stays_unloaded (l : ModelLoader.t) :
  consistent l ->
  let once := ModelLoader.unload_model l in
  let twice := ModelLoader.unload_model once in
  twice = once /\
  ModelLoader.is_model_loaded None once = false /\
  (forall n, ModelLoader.is_model_loaded (Some n) once = false) /\
  ModelLoader.get_current_model once = None /\
  consistent once.
Proof.
  intros Hc once twice. unfold twice, once.
  rewrite (unload_gives_init l Hc).
  repeat split; try reflexivity. apply init_consistent.
Qed.

Definition resident (n : string) : ModelLoader.t :=
  {| ModelLoader.current_model := Some (ModelLoader.Model n);
     ModelLoader.current_tokenizer := Some (ModelLoader.Tokenizer n true);
     ModelLoader.current_model_name := Some n |}.

Lemma unload_twice_stays_unloaded_witness :
  ModelLoader.unload_model (ModelLoader.unload_model (resident "m"))
  = ModelLoader.unload_model (resident "m") /\
  ModelLoader.is_model_loaded None (ModelLoader.unload_model (resident "m")) = false.
Proof.
  destruct (unload_twice_stays_unloaded (resident "m")) as (H1 & H2 & _).
  - right. exists (ModelLoader.Model "m"), (ModelLoader.Tokenizer "m" true), "m".
    reflexivity.
  - split; [exact H1 | exact H2].
Defined.

Lemma load_model_cases (h : ModelLoader.hub) (n : string)
    (l : ModelLoader.t) :
  consistent l ->
  match ModelLoader.load_model h n l with
  | (Ok handles, l') =>
      ModelLoader.get_current_model l' = Some handles /\
      ModelLoader.is_model_loaded None l' = true /\
      (forall n', ModelLoader.is_model_loaded (Some n') l' = String.eqb n n') /\
      consistent l'
  | (Raise _, l') => l' = ModelLoader.init
  end.
Proof.
  intros Hc. unfold ModelLoader.load_model.
  assert (Hl1 : match ModelLoader.current_model l with
                | Some _ => ModelLoader.unload_model l
                | None => l
                end = ModelLoader.init).
  { destruct Hc as [-> | (m & tk & n0 & ->)]; reflexivity. }
  rewrite Hl1.
  destruct (match ModelLoader.tokenizer_from_pretrained h n true with
            | Ok tk => Ok tk
            | Raise _ => ModelLoader.tokenizer_from_pretrained h n false
            end) as [tk | e]; [| reflexivity].
  destruct (ModelLoader.model_from_pretrained h n) as [m | e]; [| reflexivity].
  repeat split.
  right. exists m, tk, n. reflexivity.
Qed.

(** A successful load makes exactly the requested name resident and
    hands out the pair it stored; a failed load leaves nothing resident,
    also when another model was resident before the call. *)
Theorem load_replaces_or_evicts (h : ModelLoader.hub) (n : string)
    (l : ModelLoader.t) :
  consistent l ->
  match ModelLoader.load_model h n l with
  | (Ok handles, l') =>
      ModelLoader.get_current_model l' = Some handles /\
      ModelLoader.is_model_loaded None l' = true /\
      (forall n', ModelLoader.is_model_loaded (Some n') l' = String.eqb n n') /\
      consistent l'
  | (Raise _, l') => l' = ModelLoader.init
  end.
Proof. apply load_model_cases. Qed.

(** Loading a name the hub does not have evicts the resident model. *)
Lemma load_replaces_or_evicts_witness :
  snd (ModelLoader.load_model (hub_loading []) "missing" (resident "m"))
  = ModelLoader.init.
Proof.
  pose proof (load_replaces_or_evicts (hub_loading []) "missing" (resident "m")) as H.
  destruct (ModelLoader.load_model (hub_loading []) "missing" (resident "m"))
    as [[handles | e] l'] eqn:E.
  - vm_compute in E. discriminate E.
  - apply H. right.
    exists (ModelLoader.Model "m"), (ModelLoader.Tokenizer "m" true), "m".
    reflexivity.
Defined.

(** Stage 1 asks the hub for its model exactly when that name is not
    the resident one, and never touches what [Stage2Llama] keeps about
    itself; when its name is resident it leaves the loader as it is. *)
Theorem stage1_loads_only_when_absent (h : ModelLoader.hub)
    (infer : Stage1Mistral.inference) (ctx : string) (i : Intent)
    (s : Store.store) :
  let s' := snd (Stage1Mistral.analyze h infer ctx i s) in
  Store.load_log s' =
    Store.load_log s ++
    (if ModelLoader.is_model_loaded (Some Stage1Mistral.MODEL_NAME) (Store.model_loader s)
     then [] else [Stage1Mistral.MODEL_NAME]) /\
  Store.stage2_MODEL_NAME s' = Store.stage2_MODEL_NAME s /\
  Store.stage2_last_stage1_risk s' = Store.stage2_last_stage1_risk s /\
  (ModelLoader.is_model_loaded (Some Stage1Mistral.MODEL_NAME) (Store.model_loader s) = true ->
   Store.model_loader s' = Store.model_loader s).
Proof.
  intros s'. unfold s'. clear s'.
  unfold Stage1Mistral.analyze, Store.bind, Store.is_model_loaded, Store.ret,
    Store.raise, Store.lift, Store.get_current_model, Store.load_model.
  destruct (ModelLoader.is_model_loaded (Some Stage1Mistral.MODEL_NAME)
              (Store.model_loader s)) eqn:Eloaded; cbn [negb].
  - destruct (ModelLoader.get_current_model (Store.model_loader s)) as [[m tk] |].
    + destruct (infer m tk ctx i) as [out | e]; cbn [snd];
        rewrite app_nil_r; repeat split.
    + cbn [snd]. rewrite app_nil_r. repeat split.
  - destruct (ModelLoader.load_model h Stage1Mistral.MODEL_NAME (Store.model_loader s))
      as [[handles | e] l1]; cbn [snd Store.model_loader].
    + destruct (ModelLoader.get_current_model l1) as [[m tk] |].
      * destruct (infer m tk ctx i) as [out | e]; cbn [snd Store.load_log];
          repeat split; discriminate.
      * cbn [snd Store.load_log]. repeat split; discriminate.
    + repeat split; discriminate.
Qed.

(** When stage 1 cannot load its model it raises the hub's exception
    without consulting the inference, and nothing is resident. *)
Theorem stage1_load_failure_propagates (h : ModelLoader.hub)
    (infer : Stage1Mistral.inference) (ctx : string) (i : Intent)
    (s : Store.store) (e : exn) :
  consistent (Store.model_loader s) ->
  ModelLoader.is_model_loaded (Some Stage1Mistral.MODEL_NAME) (Store.model_loader s) = false ->
  fst (ModelLoader.load_model h Stage1Mistral.MODEL_NAME (Store.model_loader s)) = Raise e ->
  fst (Stage1Mistral.analyze h infer ctx i s) = Raise e /\
  Store.model_loader (snd (Stage1Mistral.analyze h infer ctx i s)) = ModelLoader.init.
Proof.
  intros Hc Habsent Hfail.
  unfold Stage1Mistral.analyze, Store.bind, Store.is_model_loaded.
  rewrite Habsent. cbn [negb]. unfold Store.load_model.
  pose proof (load_model_cases h Stage1Mistral.MODEL_NAME
                (Store.model_loader s) Hc) as Hout.
  destruct (ModelLoader.load_model h Stage1Mistral.MODEL_NAME (Store.model_loader s))
    as [[handles | e'] l1]; simpl in Hfail; [discriminate Hfail |].
  injection Hfail as ->. simpl. split; [reflexivity | exact Hout].
Qed.

End ResidencyFacts.

(** ** Exits and reports of the Mode B pipeline *)

Module ModeBFacts.

Import Scenario.

Lemma stage1_load_failure_propagates_witness :
  fst (Stage1Mistral.analyze (hub_loading []) (stage1_reply "low")
         "ctx" sample_intent fresh_store)
  = Raise (Exn "OSError" "not found").
Proof.
  apply (ResidencyFacts.stage1_load_failure_propagates (hub_loading [])
           (stage1_reply "low") "ctx" sample_intent fresh_store
           (Exn "OSError" "not found")).
  - left. reflexivity.
  - reflexivity.
  - reflexivity.
Defined.

(** Whatever [process_query] returns or raises, at whichever stage,
    nothing is resident afterwards and no handle can be obtained; the
    clean-up changes neither the report nor the exception of the
    pipeline. *)
Theorem unloaded_on_every_exit (c : OrchestratorHF.collaborators) (q : string)
    (s : Store.store) :
  let s' := snd (OrchestratorHF.process_query c q s) in
  ModelLoader.is_model_loaded None (Store.model_loader s') = false /\
  ModelLoader.get_current_model (Store.model_loader s') = None /\
  fst (OrchestratorHF.process_query c q s) = fst (OrchestratorHF.pipeline c q s) /\
  Store.load_log s' = Store.load_log (snd (OrchestratorHF.pipeline c q s)).
Proof.
  intros s'. unfold s'. clear s'.
  pose proof (OrchestratorFacts.process_query_unloads c q s) as Hun.
  split; [exact Hun |]. split.
  - unfold ModelLoader.get_current_model.
    unfold ModelLoader.is_model_loaded in Hun.
    destruct (ModelLoader.current_model
                (Store.model_loader (snd (OrchestratorHF.process_query c q s))));
      [discriminate Hun | reflexivity].
  - unfold OrchestratorHF.process_query, Store.try_except.
    destruct (OrchestratorHF.pipeline c q s) as [[report | e] s1];
      split; reflexivity.
Qed.

End ModeBFacts.

(** ** More on the rate limiter *)

Module RateLimiterMoreFacts.

Import RateLimiter.
Local Open Scope Q_scope.

Definition seven_stamps : list Q := [0; 1; 2; 3; 4; 60.1; 61.1].

Definition window_end : Q := 61.1.

(** A caller that is alone on a fresh limiter stays within the quota:
    whatever the clock readings, as long as every sleep runs to its
    end, no window of [time_window] seconds ever holds more than
    [max_calls] of the calls made. *)
Theorem lone_caller_stays_within_quota (api_name : string)
    (max_calls time_window : Z) (readings : list (Q * Q)) (T : Q)
    (rl' : t) (log' : list Q) :
  (1 <= max_calls)%Z ->
  calls_alone api_name readings T
    (add_limit api_name max_calls time_window init) [] = Some (rl', log') ->
  forall t_end,
    (Z.of_nat (calls_in_window log' time_window t_end) <= max_calls)%Z.
Proof.
  intros Hmc Hrun.
  apply (RateLimiterFacts.calls_alone_within_budget api_name max_calls time_window
           Hmc readings T (add_limit api_name max_calls time_window init) rl' [] log');
    [| exact Hrun].
  apply RateLimiterFacts.fresh_limiter_settled. lia.
Qed.

Lemma lone_caller_stays_within_quota_witness :
  (Z.of_nat (calls_in_window seven_stamps 60 window_end) <= 5)%Z.
Proof.
  unfold seven_stamps, window_end.
  destruct (calls_alone "alpha_vantage"
              [(0, 0); (1, 1); (2, 2); (3, 3); (4, 4); (5, 60.1); (61, 61.1)]
              0 (add_limit "alpha_vantage" 5%Z 60%Z init) []) as [[rl' log'] |] eqn:E.
  - pose proof (lone_caller_stays_within_quota
                  "alpha_vantage" 5%Z 60%Z _ 0 rl' log' ltac:(lia) E 61.1) as H.
    vm_compute in E. injection E as _ <-. exact H.
  - vm_compute in E. discriminate E.
Defined.

Lemma history_elsewhere (api_name other : string) (h : list Q) (rl : t) :
  other <> api_name ->
  history (set_history api_name h rl) other = history rl other.
Proof.
  intros Hne. unfold history, set_history. simpl.
  rewrite lookup_insert_ne by congruence. reflexivity.
Qed.

(** The limiter [enter] leaves behind: untouched for an unregistered
    name, the pruned history otherwise. *)
Lemma enter_state (api_name : string) (now : Q) (rl : t) :
  snd (enter api_name now rl) =
  match _limits rl !! api_name with
  | None => rl
  | Some (_, time_window) =>
      set_history api_name
        (List.filter (fun call_time => Py.Qltb (now - inject_Z time_window) call_time)
           (history rl api_name)) rl
  end.
Proof.
  unfold enter.
  destruct (_limits rl !! api_name) as [[mc tw] |]; [| reflexivity].
  cbv zeta.
  destruct (mc <=? _)%Z; [| reflexivity].
  destruct (List.filter _ (history rl api_name)) as [| c cs]; [reflexivity |].
  destruct (Py.Qltb 0 _); reflexivity.
Qed.

(** A call touches nothing but the history of its own name: the
    registered limits and every other name's history are as before, and
    for an unregistered name the call returns at once, changes nothing
    and records nothing. *)
Theorem calls_are_isolated_per_name (api_name : string) (now stamp : Q)
    (rl rl' : t) (r : result unit) (stamps : list Q) :
  wait_if_needed api_name now stamp rl = Some (r, rl', stamps) ->
  _limits rl' = _limits rl /\
  (forall other, other <> api_name -> history rl' other = history rl other) /\
  (_limits rl !! api_name = None -> r = Ok tt /\ rl' = rl /\ stamps = []).
Proof.
  intros H. unfold wait_if_needed in H.
  pose proof (enter_state api_name now rl) as Hst.
  destruct (enter api_name now rl) as [[[| | w] | e] rl1] eqn:Eenter;
    simpl in Hst.
  - injection H as <- <- <-.
    destruct (_limits rl !! api_name) as [[mc tw] |] eqn:El.
    + subst rl1. split; [reflexivity |]. split; [| discriminate].
      intros other Hne. apply history_elsewhere. exact Hne.
    + subst rl1. repeat split.
  - destruct (Qle_bool now stamp); [| discriminate H].
    injection H as <- <- <-.
    destruct (_limits rl !! api_name) as [[mc tw] |] eqn:El.
    + subst rl1. split; [reflexivity |]. split; [| discriminate].
      intros other Hne. unfold record_call.
      rewrite !history_elsewhere by exact Hne. reflexivity.
    + exfalso. unfold enter in Eenter. rewrite El in Eenter. discriminate Eenter.
  - destruct (Qle_bool (now + w) stamp); [| discriminate H].
    injection H as <- <- <-.
    destruct (_limits rl !! api_name) as [[mc tw] |] eqn:El.
    + subst rl1. split; [reflexivity |]. split; [| discriminate].
      intros other Hne. unfold record_call.
      rewrite !history_elsewhere by exact Hne. reflexivity.
    + exfalso. unfold enter in Eenter. rewrite El in Eenter. discriminate Eenter.
  - injection H as <- <- <-.
    destruct (_limits rl !! api_name) as [[mc tw] |] eqn:El.
    + subst rl1. split; [reflexivity |]. split; [| discriminate].
      intros other Hne. apply history_elsewhere. exact Hne.
    + exfalso. unfold enter in Eenter. rewrite El in Eenter. discriminate Eenter.
Qed.

Definition two_budgets : t :=
  set_history "fred" [1; 2]
    (add_limit "fred" 120%Z 60%Z (add_limit "alpha_vantage" 5%Z 60%Z init)).

Lemma calls_are_isolated_per_name_witness :
  exists rl',
    wait_if_needed "alpha_vantage" 3 3 two_budgets = Some (Ok tt, rl', [3]) /\
    history rl' "fred" = [1; 2].
Proof.
  destruct (wait_if_needed "alpha_vantage" 3 3 two_budgets)
    as [[[r rl'] stamps] |] eqn:E.
  - destruct (calls_are_isolated_per_name _ _ _ _ _ _ _ E) as (_ & Hother & _).
    exists rl'. split.
    + vm_compute in E. injection E as <- <- <-. reflexivity.
    + rewrite (Hother "fred") by discriminate. reflexivity.
  - vm_compute in E. discriminate E.
Defined.

(** The wait is bounded: with every recorded stamp in the past, a
    caller is never put to sleep for less than the 0.1 s buffer nor for
    more than the window plus the buffer. *)
Theorem sleep_is_bounded (api_name : string) (now w : Q) (rl rl' : t)
    (max_calls time_window : Z) :
  _limits rl !! api_name = Some (max_calls, time_window) ->
  (forall x, In x (history rl api_name) -> x <= now) ->
  enter api_name now rl = (Ok (Sleep w), rl') ->
  0.1 < w /\ w <= inject_Z time_window + 0.1.
Proof.
  intros Hlim Hpast H. unfold enter in H. rewrite Hlim in H. cbv zeta in H.
  destruct (max_calls <=? _)%Z; [| discriminate H].
  destruct (List.filter _ (history rl api_name)) as [| c cs] eqn:Epruned;
    [discriminate H |].
  destruct (Py.Qltb 0 _); [| discriminate H].
  injection H as <- _.
  pose proof (RateLimiterFacts.list_min_member c cs) as Hmem.
  rewrite <- Epruned in Hmem. apply List.filter_In in Hmem.
  destruct Hmem as [Hin Hnew]. apply PyFacts.Qltb_true in Hnew.
  specialize (Hpast _ Hin). split; qlra.
Qed.

Lemma sleep_is_bounded_witness :
  0.1 < 60 - (12 - 2) + 0.1 /\ 60 - (12 - 2) + 0.1 <= inject_Z 60 + 0.1.
Proof.
  apply (sleep_is_bounded "alpha_vantage" 12 _
           (set_history "alpha_vantage" [2; 3; 4; 5; 6] RateLimiterFacts.alpha_vantage)
           (set_history "alpha_vantage" [2; 3; 4; 5; 6]
              (set_history "alpha_vantage" [2; 3; 4; 5; 6] RateLimiterFacts.alpha_vantage))
           5%Z 60%Z).
  - reflexivity.
  - intros x Hx. vm_compute in Hx.
    destruct Hx as [<- | [<- | [<- | [<- | [<- | []]]]]]; discriminate.
  - vm_compute. reflexivity.
Defined.

(** A budget of zero calls (or less) does not block: with no call left
    in the window [min] is applied to an empty list, the call raises
    [ValueError] and nothing is recorded. *)
Theorem empty_budget_raises (api_name : string) (now stamp : Q) (rl : t)
    (max_calls time_window : Z) :
  _limits rl !! api_name = Some (max_calls, time_window) ->
  (max_calls <= 0)%Z ->
  (forall x, In x (history rl api_name) -> x <= now - inject_Z time_window) ->
  wait_if_needed api_name now stamp rl =
  Some (Raise (Exn "ValueError" "min() arg is an empty sequence"),
        set_history api_name [] rl, []).
Proof.
  intros Hlim Hmc Hold. unfold wait_if_needed, enter. rewrite Hlim. cbv zeta.
  assert (Hpruned : List.filter
                      (fun call_time => Py.Qltb (now - inject_Z time_window) call_time)
                      (history rl api_name) = []).
  { induction (history rl api_name) as [| x xs IH]; [reflexivity |].
    simpl.
    assert (Hx : Py.Qltb (now - inject_Z time_window) x = false).
    { apply PyFacts.Qltb_false. apply Hold. left. reflexivity. }
    rewrite Hx. apply IH. intros y Hy. apply Hold. right. exact Hy. }
  rewrite Hpruned. simpl length.
  assert (E : (max_calls <=? Z.of_nat 0)%Z = true) by (apply Z.leb_le; lia).
  rewrite E. reflexivity.
Qed.

Lemma empty_budget_raises_witness :
  wait_if_needed "paused" 5 5 (add_limit "paused" 0%Z 60%Z init) =
  Some (Raise (Exn "ValueError" "min() arg is an empty sequence"),
        set_history "paused" [] (add_limit "paused" 0%Z 60%Z init), []).
Proof.
  apply (empty_budget_raises "paused" 5 5 (add_limit "paused" 0%Z 60%Z init) 0%Z 60%Z).
  - reflexivity.
  - lia.
  - intros x [].
Defined.

End RateLimiterMoreFacts.

(** ** More on contradiction detection *)

Module CircuitBreakerMoreFacts.

Import CircuitBreaker.

Lemma contradictory_sym (a b : AgentOutput) :
  _is_contradictory a b = _is_contradictory b a.
Proof.
  unfold _is_contradictory.
  replace (Z.abs (risk_ordinal b - risk_ordinal a))
    with (Z.abs (risk_ordinal a - risk_ordinal b)) by lia.
  destruct (3 <=? Z.abs (risk_ordinal a - risk_ordinal b))%Z; [reflexivity |].
  induction opposite_pairs as [| p ps IH]; [reflexivity |].
  simpl. rewrite IH. f_equal. rewrite orb_comm. f_equal; apply andb_comm.
Qed.

(** Whether two results contradict each other does not depend on the
    order in which they are compared, nor on anything but their risk
    levels and key drivers. *)
Theorem contradiction_is_symmetric (a b a' b' : AgentOutput) :
  risk_level a' = risk_level a -> key_drivers a' = key_drivers a ->
  risk_level b' = risk_level b -> key_drivers b' = key_drivers b ->
  _is_contradictory a b = _is_contradictory b' a'.
Proof.
  intros Hra Hda Hrb Hdb. rewrite (contradictory_sym a b).
  unfold _is_contradictory, risk_ordinal. rewrite Hra, Hda, Hrb, Hdb. reflexivity.
Qed.

Lemma contradiction_is_symmetric_witness :
  _is_contradictory CircuitBreakerFacts.risk_low CircuitBreakerFacts.technical_critical
  = _is_contradictory CircuitBreakerFacts.technical_critical CircuitBreakerFacts.risk_low.
Proof.
  apply (contradiction_is_symmetric
           CircuitBreakerFacts.risk_low CircuitBreakerFacts.technical_critical
           CircuitBreakerFacts.risk_low CircuitBreakerFacts.technical_critical);
    reflexivity.
Defined.

(** A rule fires when both of its identities are present and their
    results contradict each other. *)
Definition fires (d : gmap string AgentOutput) (rule : (string * string) * string) : bool :=
  match d !! fst (fst rule), d !! snd (fst rule) with
  | Some output1, Some output2 => _is_contradictory output1 output2
  | _, _ => false
  end.

Lemma rule_step_fires (d : gmap string AgentOutput)
    (acc : list (string * string) * option string)
    (rule : (string * string) * string) :
  rule_step d acc rule =
  if fires d rule
  then (fst acc ++ [fst rule],
        match snd acc with
        | None => Some (snd rule)
        | Some a => Some a
        end)
  else acc.
Proof.
  destruct rule as [[a1 a2] arb]. unfold rule_step, fires. simpl.
  destruct (d !! a1) as [o1 |]; [| reflexivity].
  destruct (d !! a2) as [o2 |]; [| reflexivity].
  destruct (_is_contradictory o1 o2); reflexivity.
Qed.

Lemma rules_fold (d : gmap string AgentOutput)
    (rules : list ((string * string) * string))
    (acc : list (string * string) * option string) :
  fold_left (rule_step d) rules acc =
  (fst acc ++ map fst (List.filter (fires d) rules),
   match snd acc with
   | Some a => Some a
   | None => hd_error (map snd (List.filter (fires d) rules))
   end).
Proof.
  revert acc.
  induction rules as [| rule rules IH]; intros [cs ar].
  - simpl. rewrite app_nil_r. destruct ar; reflexivity.
  - cbn [fold_left List.filter]. rewrite IH, rule_step_fires.
    destruct (fires d rule); cbn [fst snd map hd_error].
    + rewrite <- app_assoc. simpl. destruct ar; reflexivity.
    + reflexivity.
Qed.

(** The detector in closed form. *)
Lemma check_contradictions_fired (outs : list AgentOutput) :
  check_contradictions outs =
  if (length outs <? 2)%nat then None
  else
    match List.filter (fires (agent_dict outs)) CONTRADICTION_RULES with
    | [] => None
    | rule :: rules =>
        Some {| event := "CONTRADICTION_DETECTED";
                conflicting_agents :=
                  dedup (flat_map (fun c => [fst c; snd c])
                           (map fst (rule :: rules)));
                arbiter := if String.eqb (snd rule) "" then "SynthesisAgent"
                           else snd rule;
                action := "REWEIGHT_AND_REEVALUATE";
                contradiction_count := length (rule :: rules);
                contradiction_types :=
                  map (fun c => String.append (fst c) (String.append "_vs_" (snd c)))
                      (map fst (rule :: rules)) |}
    end.
Proof.
  unfold check_contradictions.
  destruct (length outs <? 2)%nat; [reflexivity |].
  rewrite rules_fold. cbn [fst snd app].
  destruct (List.filter (fires (agent_dict outs)) CONTRADICTION_RULES)
    as [| rule rules]; [reflexivity |].
  rewrite <- (length_map fst (rule :: rules)). reflexivity.
Qed.

(** Two identities conflict when they form a rule of the table, both
    are present, and the results retained for them contradict each
    other. *)
Definition conflict (outs : list AgentOutput) (a1 a2 : string) : Prop :=
  exists arb o1 o2,
    In ((a1, a2), arb) CONTRADICTION_RULES /\
    agent_dict outs !! a1 = Some o1 /\
    agent_dict outs !! a2 = Some o2 /\
    _is_contradictory o1 o2 = true.

Lemma fires_conflict (outs : list AgentOutput) (rule : (string * string) * string) :
  In rule CONTRADICTION_RULES ->
  fires (agent_dict outs) rule = true ->
  conflict outs (fst (fst rule)) (snd (fst rule)).
Proof.
  intros Hin Hf. destruct rule as [[a1 a2] arb]. unfold fires in Hf. simpl in *.
  destruct (agent_dict outs !! a1) as [o1 |] eqn:E1; [| discriminate Hf].
  destruct (agent_dict outs !! a2) as [o2 |] eqn:E2; [| discriminate Hf].
  exists arb, o1, o2. repeat split; assumption.
Qed.

Lemma conflict_fires (outs : list AgentOutput) (a1 a2 : string) :
  conflict outs a1 a2 ->
  exists arb, In ((a1, a2), arb) (List.filter (fires (agent_dict outs)) CONTRADICTION_RULES).
Proof.
  intros (arb & o1 & o2 & Hin & H1 & H2 & Hc).
  exists arb. apply List.filter_In. split; [exact Hin |].
  unfold fires. simpl. rewrite H1, H2. exact Hc.
Qed.

Lemma dedup_iff (x : string) (xs : list string) : In x (dedup xs) <-> In x xs.
Proof.
  unfold dedup.
  rewrite <- list_elem_of_In, elem_of_elements, elem_of_list_to_set, list_elem_of_In.
  reflexivity.
Qed.

(** The detector is sound and complete for the rule table: it returns
    an event exactly when some rule's two identities conflict (so never
    for fewer than two results), and the event lists exactly the
    identities that take part in a conflict. *)
Theorem event_iff_conflict (outs : list AgentOutput) :
  (is_Some (check_contradictions outs) <-> exists a1 a2, conflict outs a1 a2) /\
  ((length outs < 2)%nat -> check_contradictions outs = None) /\
  (forall ev, check_contradictions outs = Some ev ->
     forall x, In x (conflicting_agents ev) <->
               exists a1 a2, conflict outs a1 a2 /\ (x = a1 \/ x = a2)).
Proof.
  rewrite check_contradictions_fired.
  split; [| split].
  - split.
    + intros [ev Hev].
      destruct (length outs <? 2)%nat; [discriminate Hev |].
      destruct (List.filter (fires (agent_dict outs)) CONTRADICTION_RULES)
        as [| rule rules] eqn:Ef; [discriminate Hev |].
      assert (Hin : In rule (List.filter (fires (agent_dict outs)) CONTRADICTION_RULES))
        by (rewrite Ef; left; reflexivity).
      apply List.filter_In in Hin. destruct Hin as [Hin Hf].
      exists (fst (fst rule)), (snd (fst rule)). apply fires_conflict; assumption.
    + intros (a1 & a2 & Hc).
      destruct (length outs <? 2)%nat eqn:Elen.
      * apply Nat.ltb_lt in Elen. exfalso.
        destruct Hc as (arb & o1 & o2 & Hin & H1 & H2 & _).
        apply (CircuitBreakerFacts.rule_identities_differ _ _ _ Hin).
        exact (CircuitBreakerFacts.agent_dict_short outs _ _ _ _ Elen H1 H2).
      * destruct (conflict_fires outs a1 a2 Hc) as [arb Hin].
        destruct (List.filter (fires (agent_dict outs)) CONTRADICTION_RULES);
          [destruct Hin | eauto].
  - intros Hlen. apply Nat.ltb_lt in Hlen. rewrite Hlen. reflexivity.
  - intros ev Hev x.
    destruct (length outs <? 2)%nat; [discriminate Hev |].
    destruct (List.filter (fires (agent_dict outs)) CONTRADICTION_RULES)
      as [| rule rules] eqn:Ef; [discriminate Hev |].
    injection Hev as <-. cbn [conflicting_agents]. rewrite dedup_iff.
    change (In x (flat_map (fun c : string * string => [fst c; snd c])
                    (map fst (rule :: rules))) <->
            exists a1 a2, conflict outs a1 a2 /\ (x = a1 \/ x = a2)).
    rewrite <- Ef. clear Ef.
    rewrite in_flat_map. split.
    + intros (c & Hc & Hx). apply in_map_iff in Hc.
      destruct Hc as (r & <- & Hr).
      apply List.filter_In in Hr. destruct Hr as [Hin Hf].
      exists (fst (fst r)), (snd (fst r)).
      split; [apply fires_conflict; assumption |].
      destruct Hx as [<- | [<- | []]]; auto.
    + intros (a1 & a2 & Hc & Hx).
      destruct (conflict_fires outs a1 a2 Hc) as [arb Hin].
      exists (a1, a2). split.
      * apply in_map_iff. exists ((a1, a2), arb). split; [reflexivity | exact Hin].
      * simpl. destruct Hx as [-> | ->]; auto.
Qed.

End CircuitBreakerMoreFacts.

(** ** The shape of a contradiction event *)

Module CircuitBreakerShape.

Import CircuitBreaker CircuitBreakerMoreFacts.

Lemma fires_mirror (d : gmap string AgentOutput) (a b x y : string) :
  fires d ((a, b), x) = fires d ((b, a), y).
Proof.
  unfold fires. simpl.
  destruct (d !! a) as [oa |], (d !! b) as [ob |]; try reflexivity.
  apply contradictory_sym.
Qed.

(** Every event names two or four distinct identities and counts each
    conflicting pair twice, once per direction of its rule; its arbiter
    is the one the table assigns to the first conflicting rule, never
    the defensive default. *)
Theorem event_shape (outs : list AgentOutput) (ev : CircuitBreakerEvent) :
  check_contradictions outs = Some ev ->
  NoDup (conflicting_agents ev) /\
  (arbiter ev = "MacroAgent" \/ arbiter ev = "RiskAgent") /\
  event ev = "CONTRADICTION_DETECTED" /\
  action ev = "REWEIGHT_AND_REEVALUATE" /\
  length (contradiction_types ev) = contradiction_count ev /\
  length (conflicting_agents ev) = contradiction_count ev /\
  (contradiction_count ev = 2%nat \/ contradiction_count ev = 4%nat).
Proof.
  rewrite check_contradictions_fired.
  destruct (length outs <? 2)%nat; [discriminate |].
  unfold CONTRADICTION_RULES. cbn [List.filter].
  rewrite <- (fires_mirror (agent_dict outs) "RiskAgent" "TechnicalAgent"
                "MacroAgent" "MacroAgent").
  rewrite <- (fires_mirror (agent_dict outs) "MacroAgent" "SentimentAgent"
                "RiskAgent" "RiskAgent").
  destruct (fires (agent_dict outs) ("RiskAgent", "TechnicalAgent", "MacroAgent"));
    destruct (fires (agent_dict outs) ("MacroAgent", "SentimentAgent", "RiskAgent"));
    intros H; try discriminate H; injection H as <-;
    (split; [cbn [conflicting_agents]; unfold dedup; apply NoDup_elements |]);
    (split; [cbn; auto |]);
    repeat split; try (vm_compute; reflexivity); cbn; auto.
Qed.

Lemma event_shape_witness :
  exists ev,
    check_contradictions
      [CircuitBreakerFacts.risk_low; CircuitBreakerFacts.technical_critical] = Some ev /\
    contradiction_count ev = 2%nat /\ arbiter ev = "MacroAgent".
Proof.
  destruct (check_contradictions
              [CircuitBreakerFacts.risk_low; CircuitBreakerFacts.technical_critical])
    as [ev |] eqn:E.
  - exists ev. split; [reflexivity |].
    pose proof (event_shape _ ev E) as H.
    vm_compute in E. injection E as <-. split; reflexivity.
  - vm_compute in E. discriminate E.
Defined.

(** *** Antonyms in the key drivers *)

Lemma lower_app (a b : string) :
  Py.lower (String.append a b) = String.append (Py.lower a) (Py.lower b).
Proof. induction a as [| c a IH]; simpl; [reflexivity | rewrite IH; reflexivity]. Qed.

Lemma prefix_app (w a b : string) :
  String.prefix w a = true -> String.prefix w (String.append a b) = true.
Proof.
  revert a. induction w as [| c w IH]; intros a H;
    [destruct (String.append a b); reflexivity |].
  destruct a as [| c' a]; simpl in *; [discriminate H |].
  destruct (Ascii.ascii_dec c c'); [apply IH; exact H | discriminate H].
Qed.

Lemma contains_app_l (w a b : string) :
  Py.contains w a = true -> Py.contains w (String.append a b) = true.
Proof.
  induction a as [| c a IH]; intros H.
  - simpl in H. rewrite orb_false_r in H.
    destruct w; [| discriminate H].
    destruct b; reflexivity.
  - cbn [Py.contains] in H. apply orb_prop in H.
    change (String.append (String c a) b) with (String c (String.append a b)).
    cbn [Py.contains]. apply orb_true_iff.
    destruct H as [H | H].
    + left. exact (prefix_app w (String c a) b H).
    + right. apply IH. exact H.
Qed.

Lemma contains_app_r (w a b : string) :
  Py.contains w b = true -> Py.contains w (String.append a b) = true.
Proof.
  intros H. induction a as [| c a IH]; [exact H |].
  change (String.append (String c a) b) with (String c (String.append a b)).
  cbn [Py.contains]. rewrite IH. apply orb_true_r.
Qed.

(** A word found in one driver is found in the joined, lower-cased
    driver text. *)
Lemma contains_joined (w d : string) (ds : list string) :
  In d ds -> Py.contains w (Py.lower d) = true ->
  Py.contains w (Py.lower (Py.join " " ds)) = true.
Proof.
  intros Hin Hw. induction ds as [| x ds IH]; [destruct Hin |].
  destruct ds as [| y ds'].
  - destruct Hin as [-> | []]. exact Hw.
  - change (Py.join " " (x :: y :: ds'))
      with (String.append x (String.append " " (Py.join " " (y :: ds')))).
    rewrite lower_app. destruct Hin as [-> | Hin].
    + apply contains_app_l. exact Hw.
    + apply contains_app_r. rewrite lower_app. apply contains_app_r.
      apply IH. exact Hin.
Qed.

(** When the results retained for the two identities of a rule carry
    opposite words of the antonym list in their key drivers, in any
    letter case and whatever their risk levels, an event is returned
    that names both identities. *)
Theorem antonyms_are_flagged (outs : list AgentOutput) (A B : AgentOutput)
    (arb w1 w2 dA dB : string) :
  agent_dict outs !! agent_id A = Some A ->
  agent_dict outs !! agent_id B = Some B ->
  In ((agent_id A, agent_id B), arb) CONTRADICTION_RULES ->
  In (w1, w2) opposite_pairs \/ In (w2, w1) opposite_pairs ->
  In dA (key_drivers A) -> Py.contains w1 (Py.lower dA) = true ->
  In dB (key_drivers B) -> Py.contains w2 (Py.lower dB) = true ->
  exists ev,
    check_contradictions outs = Some ev /\
    In (agent_id A) (conflicting_agents ev) /\
    In (agent_id B) (conflicting_agents ev).
Proof.
  intros HA HB Hrule Hpair HdA HwA HdB HwB.
  assert (Hc : _is_contradictory A B = true).
  { unfold _is_contradictory.
    destruct (3 <=? _)%Z; [reflexivity |].
    apply existsb_exists.
    pose proof (contains_joined w1 dA _ HdA HwA) as H1.
    pose proof (contains_joined w2 dB _ HdB HwB) as H2.
    destruct Hpair as [Hp | Hp].
    - exists (w1, w2). split; [exact Hp |]. simpl. rewrite H1, H2. reflexivity.
    - exists (w2, w1). split; [exact Hp |]. simpl. rewrite H1, H2.
      apply orb_true_r. }
  assert (Hconf : conflict outs (agent_id A) (agent_id B)).
  { exists arb, A, B. repeat split; assumption. }
  destruct (conflict_fires outs _ _ Hconf) as [arb' Hin].
  rewrite check_contradictions_fired.
  destruct (length outs <? 2)%nat eqn:Elen.
  - apply Nat.ltb_lt in Elen. exfalso.
    apply (CircuitBreakerFacts.rule_identities_differ _ _ _ Hrule).
    exact (CircuitBreakerFacts.agent_dict_short outs _ _ _ _ Elen HA HB).
  - destruct (List.filter (fires (agent_dict outs)) CONTRADICTION_RULES)
      as [| rule rules] eqn:Ef; [destruct Hin |].
    eexists. split; [reflexivity |]. cbn [conflicting_agents].
    rewrite !dedup_iff.
    split; apply in_flat_map; exists (agent_id A, agent_id B);
      (split; [apply in_map_iff; exists ((agent_id A, agent_id B), arb');
               split; [reflexivity | exact Hin] | simpl; auto]).
Qed.

Definition macro_bull : AgentOutput :=
  CircuitBreakerFacts.output "MacroAgent" "medium" ["Bullish momentum"; "rates"].
Definition sentiment_bear : AgentOutput :=
  CircuitBreakerFacts.output "SentimentAgent" "medium" ["retail is BEARISH"].

Lemma antonyms_are_flagged_witness :
  exists ev,
    check_contradictions [macro_bull; sentiment_bear] = Some ev /\
    In "MacroAgent" (conflicting_agents ev) /\
    In "SentimentAgent" (conflicting_agents ev).
Proof.
  apply (antonyms_are_flagged [macro_bull; sentiment_bear] macro_bull sentiment_bear
           "RiskAgent" "bullish" "bearish" "Bullish momentum" "retail is BEARISH").
  - vm_compute. reflexivity.
  - vm_compute. reflexivity.
  - right. right. left. reflexivity.
  - left. left. reflexivity.
  - left. reflexivity.
  - reflexivity.
  - left. reflexivity.
  - reflexivity.
Defined.

End CircuitBreakerShape.

(** ** Bounds of the scores *)

Module ScoreBounds.

Import ConfidenceEngine PyFacts.
Local Open Scope Q_scope.

Lemma clamp_monotone (x y : Q) :
  x <= y -> Py.max 0 (Py.min 1 x) <= Py.max 0 (Py.min 1 y).
Proof.
  intros H.
  destruct (clamp_cases x) as [[Hx Ex] | [[Hx Ex] | [Hx Ex]]];
    destruct (clamp_cases y) as [[Hy Ey] | [[Hy Ey] | [Hy Ey]]];
    rewrite Ex, Ey; qlra.
Qed.

(** On datetimes that can be subtracted the score lies in [0,1]
    whatever the maximum age (zero or negative included: the division
    is then never reached), and older data never scores higher than
    newer data. *)
Lemma score_bounded_and_antitone (ts1 ts2 ref : TimeUtils.datetime) (M : Z) :
  0 <= TimeUtils.calculate_freshness_score ts1 M ref <= 1 /\
  ((ts1 <= ts2)%Z ->
   TimeUtils.calculate_freshness_score ts1 M ref
   <= TimeUtils.calculate_freshness_score ts2 M ref).
Proof.
  assert (Hrange : forall ts, 0 <= TimeUtils.calculate_freshness_score ts M ref <= 1).
  { intros ts. unfold TimeUtils.calculate_freshness_score.
    destruct (Qle_bool _ 0); [qlra |].
    destruct (Qle_bool (inject_Z M) _); [qlra |].
    apply clamp_range. }
  split; [apply Hrange |].
  intros Hts.
  assert (Hage : TimeUtils.age_hours ts2 ref <= TimeUtils.age_hours ts1 ref).
  { unfold TimeUtils.age_hours, TimeUtils.total_seconds, Qdiv, Qle, Qmult. simpl.
    nia. }
  pose proof (Hrange ts1) as H1. pose proof (Hrange ts2) as H2.
  unfold TimeUtils.calculate_freshness_score in *.
  set (age1 := TimeUtils.age_hours ts1 ref) in *.
  set (age2 := TimeUtils.age_hours ts2 ref) in *.
  destruct (Qle_bool age2 0) eqn:E2; [qlra |].
  assert (Hpos2 : 0 < age2).
  { destruct (Qlt_le_dec 0 age2) as [H | H]; [exact H |].
    apply Qle_bool_iff in H. congruence. }
  assert (E1 : Qle_bool age1 0 = false).
  { destruct (Qle_bool age1 0) eqn:E; [| reflexivity].
    apply Qle_bool_iff in E. exfalso. qlra. }
  rewrite E1 in *.
  destruct (Qle_bool (inject_Z M) age1) eqn:EM1; [qlra |].
  assert (Hlt1 : age1 < inject_Z M).
  { destruct (Qlt_le_dec age1 (inject_Z M)) as [H | H]; [exact H |].
    apply Qle_bool_iff in H. congruence. }
  assert (EM2 : Qle_bool (inject_Z M) age2 = false).
  { destruct (Qle_bool (inject_Z M) age2) eqn:E; [| reflexivity].
    apply Qle_bool_iff in E. exfalso. qlra. }
  rewrite EM2.
  apply clamp_monotone.
  assert (Hdiv : age2 / inject_Z M <= age1 / inject_Z M).
  { unfold Qdiv. apply Qmult_le_compat_r; [exact Hage |].
    apply Qinv_le_0_compat. qlra. }
  qlra.
Qed.

(** The freshness score is returned exactly when the timestamp and the
    reference time are of one kind, both naive or both aware; a mixed
    pair raises [TypeError], as does every aware timestamp when the
    reference time is left out, the clock reading being naive.  A score
    that is returned lies in [0,1] whatever the maximum age, and of two
    timestamps scored against one reference the later never scores
    lower. *)
Theorem freshness_bounded_and_antitone (ts1 ts2 : Clock.stamp)
    (ref : option Clock.stamp) (reading : TimeUtils.datetime) (M : Z) :
  let kind := Clock.aware (default (Clock.utcnow reading) ref) in
  let score := fun ts => Clock.calculate_freshness_score ts M ref reading in
  (Clock.aware ts1 = kind -> exists v, score ts1 = Ok v /\ 0 <= v <= 1) /\
  (Clock.aware ts1 <> kind -> score ts1 = Raise Clock.mixed_kinds) /\
  (ref = None -> Clock.aware ts1 = true -> score ts1 = Raise Clock.mixed_kinds) /\
  (forall v1 v2,
     score ts1 = Ok v1 -> score ts2 = Ok v2 ->
     (Clock.instant ts1 <= Clock.instant ts2)%Z -> v1 <= v2).
Proof.
  intros kind score. unfold score, kind.
  unfold Clock.calculate_freshness_score, Clock.sub.
  set (reference := default (Clock.utcnow reading) ref).
  assert (Hmixed : Clock.aware ts1 <> Clock.aware reference ->
            bind_result
              (if Bool.eqb (Clock.aware reference) (Clock.aware ts1)
               then Ok (Clock.instant reference - Clock.instant ts1)%Z
               else Raise Clock.mixed_kinds)
              (fun _ => Ok (TimeUtils.calculate_freshness_score (Clock.instant ts1) M
                              (Clock.instant reference)))
            = Raise Clock.mixed_kinds).
  { intros Hne.
    destruct (Bool.eqb (Clock.aware reference) (Clock.aware ts1)) eqn:E;
      [| reflexivity].
    apply Bool.eqb_prop in E. congruence. }
  split; [| split; [exact Hmixed | split]].
  - intros Hkind. rewrite Hkind, Bool.eqb_reflx. cbn [bind_result].
    eexists. split; [reflexivity |].
    apply (score_bounded_and_antitone (Clock.instant ts1) (Clock.instant ts1)).
  - intros -> Haware. apply Hmixed. rewrite Haware. unfold reference.
    cbn. discriminate.
  - intros v1 v2 H1 H2 Hle.
    destruct (Bool.eqb (Clock.aware reference) (Clock.aware ts1));
      cbn [bind_result] in H1; [| discriminate H1].
    destruct (Bool.eqb (Clock.aware reference) (Clock.aware ts2));
      cbn [bind_result] in H2; [| discriminate H2].
    injection H1 as <-. injection H2 as <-.
    apply (score_bounded_and_antitone (Clock.instant ts1) (Clock.instant ts2)).
    exact Hle.
Qed.

(** A news item stamped with an offset, scored against the clock. *)
Lemma freshness_bounded_and_antitone_witness :
  Clock.calculate_freshness_score
    {| Clock.instant := TimeUtils.hours 6; Clock.aware := true |} 24 None
    (TimeUtils.hours 12)
  = Raise Clock.mixed_kinds /\
  exists v,
    Clock.calculate_freshness_score
      {| Clock.instant := TimeUtils.hours 6; Clock.aware := false |} 24 None
      (TimeUtils.hours 12) = Ok v /\ 0 <= v <= 1.
Proof.
  split.
  - destruct (freshness_bounded_and_antitone
                {| Clock.instant := TimeUtils.hours 6; Clock.aware := true |}
                {| Clock.instant := TimeUtils.hours 6; Clock.aware := true |}
                None (TimeUtils.hours 12) 24%Z) as (_ & _ & H & _).
    apply H; reflexivity.
  - destruct (freshness_bounded_and_antitone
                {| Clock.instant := TimeUtils.hours 6; Clock.aware := false |}
                {| Clock.instant := TimeUtils.hours 6; Clock.aware := false |}
                None (TimeUtils.hours 12) 24%Z) as (H & _).
    apply H. reflexivity.
Defined.

(** Every entry of the static table, and its default, lies between
    0.70 and 0.98. *)
Lemma static_reliability_range (name : string) :
  0.70 <= static_reliability name <= 0.98.
Proof.
  unfold static_reliability.
  rewrite ConfidenceEngineFacts.default_reliability_value.
  destruct (SOURCE_RELIABILITY !! name) as [v |] eqn:E; simpl; [| split; qlra].
  unfold SOURCE_RELIABILITY in E.
  apply elem_of_list_to_map_2 in E. apply list_elem_of_In in E.
  simpl in E.
  repeat (destruct E as [E | E]; [injection E as _ <-; split; qlra |]).
  destruct E.
Qed.

Lemma valid_source_bounds (s : SourceSummary) :
  valid_source s = true ->
  0 <= freshness s <= 1 /\ 0 <= reliability s <= 1.
Proof.
  unfold valid_source, in_unit. intros H.
  apply andb_prop in H. destruct H as [Hf Hr].
  apply andb_prop in Hf. apply andb_prop in Hr.
  destruct Hf as [Hf0 Hf1]. destruct Hr as [Hr0 Hr1].
  apply Qle_bool_iff in Hf0, Hf1, Hr0, Hr1. repeat split; assumption.
Qed.

Lemma weighted_terms_bounds (ss : list SourceSummary) :
  forallb valid_source ss = true ->
  0 <= Py.sum (ConfidenceEngineFacts.weighted_terms ss)
  <= 0.98 * Py.sum (map freshness ss).
Proof.
  induction ss as [| s ss IH]; intros H.
  - unfold Py.sum. simpl. split; qlra.
  - simpl in H. apply andb_prop in H. destruct H as [Hs Hss].
    specialize (IH Hss).
    unfold ConfidenceEngineFacts.weighted_terms in *. simpl map.
    rewrite !sum_cons.
    destruct (valid_source_bounds s Hs) as [[Hf0 Hf1] [Hr0 Hr1]].
    pose proof (static_reliability_range (source s)) as [Hs0 Hs1].
    set (r := static_reliability (source s)) in *.
    assert (Hprod : 0 <= r * reliability s <= 0.98).
    { split.
      - apply Qmult_le_0_compat; qlra.
      - assert (r * reliability s <= r * 1)
          by (apply Qmult_le_l; qlra).
        qlra. }
    assert (Hterm : 0 <= r * reliability s * freshness s
                    <= 0.98 * freshness s).
    { split.
      - apply Qmult_le_0_compat; qlra.
      - apply Qmult_le_compat_r; qlra. }
    split; qlra.
Qed.

(** In exact arithmetic the weighted mean stays below the largest
    entry of the static table. *)
Lemma source_reliability_aux (ss : list SourceSummary) :
  forallb valid_source ss = true ->
  0 <= _calculate_source_reliability ss <= 0.98.
Proof.
  intros Hvalid.
  rewrite (ConfidenceEngineFacts.source_reliability_refines ss Hvalid).
  unfold ConfidenceEngineFacts.reliability_spec.
  destruct ss as [| s ss']; [split; qlra |].
  set (l := s :: ss') in *.
  destruct (Qeq_bool (Py.sum (map freshness l)) 0) eqn:Ez; [split; qlra |].
  apply Qeq_bool_neq in Ez.
  pose proof (ConfidenceEngineFacts.weights_nonneg l Hvalid) as Hw.
  pose proof (weighted_terms_bounds l Hvalid) as [Ht0 Ht1].
  assert (Hpos : 0 < Py.sum (map freshness l)).
  { destruct (Qlt_le_dec 0 (Py.sum (map freshness l))) as [H | H]; [exact H |].
    exfalso. apply Ez. qlra. }
  split.
  - apply Qle_shift_div_l; [exact Hpos | qlra].
  - apply Qle_shift_div_r; [exact Hpos | exact Ht1].
Qed.

(** For sources within their schema bounds the source reliability is
    a score: it lies between 0 and 1. *)
Theorem source_reliability_bounded (ss : list SourceSummary) :
  forallb valid_source ss = true ->
  0 <= _calculate_source_reliability ss <= 1.
Proof.
  intros Hvalid.
  destruct (source_reliability_aux ss Hvalid) as [H0 H1].
  split; qlra.
Qed.

Lemma source_reliability_bounded_witness :
  0 <= _calculate_source_reliability [ConfidenceEngineFacts.reuters] <= 1.
Proof.
  apply (source_reliability_bounded [ConfidenceEngineFacts.reuters]). reflexivity.
Defined.

End ScoreBounds.

(** ** Data freshness and the size of the final confidence *)

Module ConfidenceMoreFacts.

Import ConfidenceEngine PyFacts.
Local Open Scope Q_scope.

Lemma sum_unit_bounds (xs : list Q) :
  Forall (fun x => 0 <= x <= 1) xs ->
  0 <= Py.sum xs <= inject_Z (Z.of_nat (length xs)).
Proof.
  induction 1 as [| x xs Hx _ IH].
  - split; vm_compute; discriminate.
  - rewrite sum_cons. cbn [length]. rewrite Nat2Z.inj_succ.
    unfold Z.succ. rewrite inject_Z_plus. change (inject_Z 1) with 1.
    split; qlra.
Qed.

(** The agent's own freshness: the mean over its sources, 0.5 without
    sources. *)
Definition own_freshness (a : AgentOutput) : Q :=
  match source_summary a with
  | [] => 0.5
  | ss =>
      let freshness_scores := map freshness ss in
      Py.sum freshness_scores / inject_Z (Z.of_nat (length freshness_scores))
  end.

Lemma data_freshness_unfolded (a : AgentOutput) (cf : gmap string Q) :
  _calculate_data_freshness a cf =
  Py.max 0 (Py.min 1 ((own_freshness a + default 0.5 (cf !! "overall")) / 2)).
Proof. reflexivity. Qed.

Lemma own_freshness_bounds (a : AgentOutput) :
  forallb valid_source (source_summary a) = true ->
  0 <= own_freshness a <= 1.
Proof.
  intros Hvalid. unfold own_freshness.
  assert (Hall : Forall (fun x => 0 <= x <= 1) (map freshness (source_summary a))).
  { apply List.Forall_forall. intros x Hx. apply in_map_iff in Hx.
    destruct Hx as (s0 & <- & Hs0).
    rewrite forallb_forall in Hvalid.
    apply (ScoreBounds.valid_source_bounds s0 (Hvalid s0 Hs0)). }
  apply sum_unit_bounds in Hall.
  destruct (source_summary a) as [| s ss]; [split; qlra |].
  cbv zeta.
  set (fs := map freshness (s :: ss)) in *.
  assert (Hn : 0 < inject_Z (Z.of_nat (length fs))).
  { unfold fs. cbn [map length]. rewrite Nat2Z.inj_succ.
    change 0 with (inject_Z 0). rewrite <- Zlt_Qlt. lia. }
  split.
  - apply Qle_shift_div_l; [exact Hn | qlra].
  - apply Qle_shift_div_r; [exact Hn | qlra].
Qed.

(** The data freshness always lies in [0,1]; for sources within their
    schema bounds and a context freshness in [0,1] it is the plain mean
    of the agent's own freshness and the context's overall freshness,
    each replaced by 0.5 when absent. *)
Theorem data_freshness_is_mean (a : AgentOutput) (cf : gmap string Q) :
  0 <= _calculate_data_freshness a cf <= 1 /\
  (forallb valid_source (source_summary a) = true ->
   (forall v, cf !! "overall" = Some v -> 0 <= v <= 1) ->
   _calculate_data_freshness a cf
   == (own_freshness a + default 0.5 (cf !! "overall")) / 2).
Proof.
  split; [apply clamp_range |].
  intros Hvalid Hctx.
  pose proof (own_freshness_bounds a Hvalid) as Hown.
  rewrite data_freshness_unfolded.
  assert (Hc : 0 <= default 0.5 (cf !! "overall") <= 1).
  { destruct (cf !! "overall") as [v |] eqn:E; simpl; [apply Hctx; reflexivity |].
    split; qlra. }
  set (ctx := default 0.5 (cf !! "overall")) in *.
  assert (Hh : (own_freshness a + ctx) / 2 == (own_freshness a + ctx) * (1 # 2))
    by (field).
  destruct (clamp_cases ((own_freshness a + ctx) / 2)) as [[H E] | [[H E] | [H E]]].
  - exfalso. rewrite Hh in H. qlra.
  - exact E.
  - exfalso. rewrite Hh in H. qlra.
Qed.

Definition one_source : AgentOutput :=
  ConfidenceEngineFacts.sample_output "RiskAgent" "high" [ConfidenceEngineFacts.reuters].

(** Own freshness 1, context freshness 0.9: 0.95. *)
Lemma data_freshness_is_mean_witness :
  _calculate_data_freshness one_source {[ "overall" := 0.9 ]} == 0.95.
Proof.
  destruct (data_freshness_is_mean one_source {[ "overall" := 0.9 ]}) as [_ H].
  rewrite H.
  - reflexivity.
  - reflexivity.
  - intros v Hv. vm_compute in Hv. injection Hv as <-. split; discriminate.
Defined.

Lemma in_unit_bounds (q : Q) : in_unit q = true -> 0 <= q <= 1.
Proof.
  unfold in_unit. intros H. apply andb_prop in H. destruct H as [H0 H1].
  apply Qle_bool_iff in H0, H1. split; assumption.
Qed.

Lemma product_below (b r d f : Q) :
  0 <= b <= 1 -> 0 <= r <= 0.98 -> 0 <= d <= 1 -> 0 <= f <= 1 ->
  0 <= b * r * d * f /\ b * r * d * f <= b * 0.98 * f /\ b * 0.98 * f <= b.
Proof.
  intros Hb Hr Hd Hf.
  assert (H1 : 0 <= b * r) by (apply Qmult_le_0_compat; qlra).
  assert (H2 : b * r <= b * 0.98).
  { rewrite (Qmult_comm b r), (Qmult_comm b 0.98).
    apply Qmult_le_compat_r; qlra. }
  assert (H3 : 0 <= b * r * d) by (apply Qmult_le_0_compat; qlra).
  assert (H4 : b * r * d <= b * r).
  { assert (b * r * d <= b * r * 1).
    { rewrite (Qmult_comm (b * r) d), (Qmult_comm (b * r) 1).
      apply Qmult_le_compat_r; qlra. }
    qlra. }
  assert (H5 : 0 <= b * r * d * f) by (apply Qmult_le_0_compat; qlra).
  assert (H6 : b * r * d * f <= b * 0.98 * f).
  { apply Qmult_le_compat_r; qlra. }
  assert (H7 : b * 0.98 * f <= b * 0.98 * 1).
  { rewrite (Qmult_comm (b * 0.98) f), (Qmult_comm (b * 0.98) 1).
    apply Qmult_le_compat_r; qlra. }
  repeat split; qlra.
Qed.

(** The final confidence never exceeds the agent's own confidence: for
    results within their schema bounds and a freshness factor in [0,1],
    every entry of the confidence map is at most the confidence of a
    result with that identity. *)
Theorem confidence_is_never_inflated (outs : list AgentOutput)
    (ff : option Q) (cf : option (gmap string Q)) (id : string) (v : Q) :
  forallb valid_output outs = true ->
  0 <= default 0.95 ff <= 1 ->
  compute_dynamic_confidence outs ff cf !! id = Some v ->
  exists a, In a outs /\ agent_id a = id /\ v <= confidence a.
Proof.
  intros Hvalid Hf Hv.
  unfold compute_dynamic_confidence in Hv.
  apply ConfidenceEngineFacts.confidence_map_entries in Hv.
  destruct Hv as [Hv | (a & Hin & Hid & Hv)];
    [rewrite lookup_empty in Hv; discriminate Hv |].
  exists a. split; [exact Hin |]. split; [exact Hid |].
  rewrite forallb_forall in Hvalid. specialize (Hvalid a Hin).
  unfold valid_output in Hvalid. apply andb_prop in Hvalid.
  destruct Hvalid as [Hconf Hsrc].
  apply in_unit_bounds in Hconf.
  pose proof (ScoreBounds.source_reliability_aux (source_summary a) Hsrc) as Hrel.
  pose proof (clamp_range ((own_freshness a + default 0.5 (default ∅ cf !! "overall")) / 2))
    as Hdf.
  rewrite <- data_freshness_unfolded in Hdf.
  destruct (product_below _ _ _ _ Hconf Hrel Hdf Hf) as (P0 & P1 & P2).
  unfold final_confidence in Hv.
  destruct (clamp_cases
              (confidence a * _calculate_source_reliability (source_summary a)
               * _calculate_data_freshness a (default ∅ cf) * default 0.95 ff))
    as [[H E] | [[H E] | [H E]]]; rewrite Hv, E; qlra.
Qed.

Lemma confidence_is_never_inflated_witness :
  exists a,
    In a [one_source] /\ agent_id a = "RiskAgent" /\ 0.5415 <= confidence a.
Proof.
  destruct (confidence_is_never_inflated [one_source] None None "RiskAgent"
              (Py.max 0 (Py.min 1 (final_confidence one_source 0.95 ∅))))
    as (a & Hin & Hid & H).
  - reflexivity.
  - split; discriminate.
  - vm_compute. reflexivity.
  - exists a. repeat split; try assumption.
    assert (E : Py.max 0 (Py.min 1 (final_confidence one_source 0.95 ∅)) == 0.5415)
      by reflexivity.
    rewrite <- E. exact H.
Defined.

End ConfidenceMoreFacts.

(** ** Retrying *)

Module RetryFacts.

Import Retry.
Local Open Scope Q_scope.

(** The delays of [n] successive sleeps: each is the one before times
    the backoff. *)
Fixpoint delays (delay backoff : Q) (n : nat) : list Q :=
  match n with
  | O => []
  | S n' => delay :: delays (delay * backoff) backoff n'
  end.

(** An outcome after which the loop goes on: a caught exception. *)
Definition retriable {T} (caught : exn -> bool) (o : result T) : bool :=
  match o with
  | Ok _ => false
  | Raise e => caught e
  end.

(** The attempts numbered [1 + a], ..., [a + n]. *)
Definition numbered (a n : nat) : list Z :=
  map (fun i => (1 + Z.of_nat i)%Z) (seq a n).

Lemma range_numbered (max_attempts : Z) :
  range 1 (max_attempts + 1) = numbered 0 (Z.to_nat max_attempts).
Proof.
  unfold range, numbered.
  replace (max_attempts + 1 - 1)%Z with max_attempts by lia. reflexivity.
Qed.

Lemma numbered_cons (a n : nat) :
  numbered a (S n) = (1 + Z.of_nat a)%Z :: numbered (S a) n.
Proof. reflexivity. Qed.

Lemma delays_length (d b : Q) (n : nat) : length (delays d b n) = n.
Proof.
  revert d. induction n as [| n IH]; intros d; simpl; [| rewrite IH]; reflexivity.
Qed.

Lemma delays_nth (d b : Q) (n i : nat) :
  (i < n)%nat -> nth i (delays d b n) 0 == d * b ^ Z.of_nat i.
Proof.
  revert d i. induction n as [| n IH]; intros d i Hi; [lia |].
  destruct i as [| i].
  - simpl. ring.
  - cbn [delays nth]. rewrite IH by lia.
    rewrite Nat2Z.inj_succ.
    unfold Z.succ. rewrite Qpower.Qpower_plus' by lia. simpl. ring.
Qed.

Section Loop.

Context {T : Type}.
Variable func : Z -> result T.
Variable caught : exn -> bool.
Variable sleep : Q -> option exn.
Variable max_attempts : Z.
Variable backoff : Q.

(** One turn of the loop at an attempt that fails with a caught
    exception before the last attempt. *)
Lemma attempts_retry (a n : nat) (d : Q) (last : option exn) (slept : list Q) :
  (1 + Z.of_nat a < max_attempts)%Z ->
  retriable caught (func (1 + Z.of_nat a)%Z) = true ->
  sleep d = None ->
  exists e,
    attempts func caught sleep max_attempts backoff (numbered a (S n)) d last slept
    = attempts func caught sleep max_attempts backoff (numbered (S a) n)
        (d * backoff) (Some e) (slept ++ [d]).
Proof.
  intros Hlt Hr Hs. rewrite numbered_cons. cbn [attempts].
  unfold retriable in Hr.
  destruct (func (1 + Z.of_nat a)%Z) as [v | e]; [discriminate Hr |].
  exists e. rewrite Hr.
  apply Z.ltb_lt in Hlt. rewrite Hlt, Hs. reflexivity.
Qed.

(** The loop from attempt [1 + a] on, when [pre] attempts fail with a
    caught exception and the next one does not. *)
Lemma attempts_decided (pre : nat) :
  forall (a more : nat) (d : Q) (last : option exn) (slept : list Q),
  (Z.of_nat (a + pre) < max_attempts)%Z ->
  (forall j, (a <= j < a + pre)%nat ->
             retriable caught (func (1 + Z.of_nat j)%Z) = true) ->
  retriable caught (func (1 + Z.of_nat (a + pre))%Z) = false ->
  Forall (fun x => sleep x = None) (delays d backoff pre) ->
  attempts func caught sleep max_attempts backoff
    (numbered a (S pre + more)) d last slept
  = (func (1 + Z.of_nat (a + pre))%Z, slept ++ delays d backoff pre).
Proof.
  induction pre as [| pre IH]; intros a more d last slept Hmax Hpre Hdec Hsleep.
  - rewrite Nat.add_0_r in *. cbn [Nat.add]. rewrite numbered_cons.
    cbn [attempts delays]. rewrite app_nil_r.
    unfold retriable in Hdec.
    destruct (func (1 + Z.of_nat a)%Z) as [v | e]; [reflexivity |].
    rewrite Hdec. reflexivity.
  - cbn [delays] in Hsleep. apply List.Forall_cons_iff in Hsleep.
    destruct Hsleep as [Hd Hrest].
    replace (S (S pre) + more)%nat with (S (S pre + more)) by lia.
    destruct (attempts_retry a (S pre + more) d last slept) as [e ->];
      [lia | apply Hpre; lia | exact Hd |].
    rewrite (IH (S a) more (d * backoff) (Some e) (slept ++ [d])).
    + replace (S a + pre)%nat with (a + S pre)%nat by lia.
      cbn [delays]. rewrite <- app_assoc. reflexivity.
    + lia.
    + intros j Hj. apply Hpre. lia.
    + replace (S a + pre)%nat with (a + S pre)%nat by lia. exact Hdec.
    + exact Hrest.
Qed.

(** The loop from attempt [1 + a] on, when every attempt up to the
    last fails with a caught exception. *)
Lemma attempts_exhausted (n : nat) :
  forall (a : nat) (d : Q) (last : option exn) (slept : list Q),
  Z.of_nat (a + S n) = max_attempts ->
  (forall j, (a <= j < a + S n)%nat ->
             retriable caught (func (1 + Z.of_nat j)%Z) = true) ->
  Forall (fun x => sleep x = None) (delays d backoff n) ->
  exists e,
    func max_attempts = Raise e /\
    attempts func caught sleep max_attempts backoff (numbered a (S n)) d last slept
    = (Raise e, slept ++ delays d backoff n).
Proof.
  induction n as [| n IH]; intros a d last slept Hmax Hall Hsleep.
  - rewrite numbered_cons. cbn [attempts numbered seq map delays].
    replace (1 + Z.of_nat a)%Z with max_attempts by lia.
    pose proof (Hall a ltac:(lia)) as Ha.
    replace (1 + Z.of_nat a)%Z with max_attempts in Ha by lia.
    unfold retriable in Ha.
    destruct (func max_attempts) as [v | e]; [discriminate Ha |].
    exists e. rewrite Ha, Z.ltb_irrefl, app_nil_r. split; reflexivity.
  - cbn [delays] in Hsleep. apply List.Forall_cons_iff in Hsleep.
    destruct Hsleep as [Hd Hrest].
    destruct (attempts_retry a (S n) d last slept) as [e ->];
      [lia | apply Hall; lia | exact Hd |].
    destruct (IH (S a) (d * backoff) (Some e) (slept ++ [d])) as (e' & Hf & ->).
    + lia.
    + intros j Hj. apply Hall. lia.
    + exact Hrest.
    + exists e'. split; [exact Hf |].
      cbn [delays]. rewrite <- app_assoc. reflexivity.
Qed.

(** The loop from attempt [1 + a] on, when the sleep after the
    [pre + 1]-th failure raises. *)
Lemma attempts_sleep_raises (pre : nat) :
  forall (a more : nat) (d : Q) (last : option exn) (slept : list Q) (e' : exn),
  (1 + Z.of_nat (a + pre) < max_attempts)%Z ->
  (forall j, (a <= j <= a + pre)%nat ->
             retriable caught (func (1 + Z.of_nat j)%Z) = true) ->
  Forall (fun x => sleep x = None) (delays d backoff pre) ->
  sleep (nth pre (delays d backoff (S pre)) 0) = Some e' ->
  attempts func caught sleep max_attempts backoff
    (numbered a (S pre + more)) d last slept
  = (Raise e', slept ++ delays d backoff pre).
Proof.
  induction pre as [| pre IH]; intros a more d last slept e' Hmax Hpre Hsleep Hbad.
  - rewrite Nat.add_0_r in *. cbn [Nat.add]. rewrite numbered_cons.
    cbn [attempts delays nth] in *. rewrite app_nil_r.
    pose proof (Hpre a ltac:(lia)) as Ha. unfold retriable in Ha.
    destruct (func (1 + Z.of_nat a)%Z) as [v | e]; [discriminate Ha |].
    rewrite Ha.
    assert (Hlt : (1 + Z.of_nat a <? max_attempts)%Z = true)
      by (apply Z.ltb_lt; lia).
    rewrite Hlt, Hbad. reflexivity.
  - cbn [delays] in Hsleep. apply List.Forall_cons_iff in Hsleep.
    destruct Hsleep as [Hd Hrest].
    replace (S (S pre) + more)%nat with (S (S pre + more)) by lia.
    destruct (attempts_retry a (S pre + more) d last slept) as [e ->];
      [lia | apply Hpre; lia | exact Hd |].
    rewrite (IH (S a) more (d * backoff) (Some e) (slept ++ [d]) e').
    + cbn [delays]. rewrite <- app_assoc. reflexivity.
    + lia.
    + intros j Hj. apply Hpre. lia.
    + exact Hrest.
    + exact Hbad.
Qed.

End Loop.

(** The first attempt whose outcome is not a caught exception decides
    the call: a returned value is returned, an exception outside
    [exceptions] propagates; either way no later attempt is made, and
    one sleep was made after each earlier attempt, the first of [delay]
    and each next one [backoff] times longer. *)
Theorem first_outcome_not_caught_decides {T} (func : Z -> result T)
    (max_attempts : Z) (delay backoff : Q) (caught : exn -> bool)
    (sleep : Q -> option exn) (k : Z) :
  (1 <= k <= max_attempts)%Z ->
  (forall j, (1 <= j < k)%Z -> retriable caught (func j) = true) ->
  retriable caught (func k) = false ->
  Forall (fun x => sleep x = None) (delays delay backoff (Z.to_nat (k - 1))) ->
  retry func max_attempts delay backoff caught sleep
  = (func k, delays delay backoff (Z.to_nat (k - 1))).
Proof.
  intros Hk Hpre Hdec Hsleep.
  unfold retry. rewrite range_numbered.
  replace (Z.to_nat max_attempts)
    with (S (Z.to_nat (k - 1)) + Z.to_nat (max_attempts - k))%nat by lia.
  rewrite (attempts_decided func caught sleep max_attempts backoff
             (Z.to_nat (k - 1)) 0 (Z.to_nat (max_attempts - k)) delay None []).
  - cbn [app Nat.add]. replace (1 + Z.of_nat (Z.to_nat (k - 1)))%Z with k by lia.
    reflexivity.
  - lia.
  - intros j Hj. apply Hpre. lia.
  - cbn [Nat.add]. replace (1 + Z.of_nat (Z.to_nat (k - 1)))%Z with k by lia.
    exact Hdec.
  - exact Hsleep.
Qed.

(** A function that fails twice with a caught error and then returns. *)
Definition flaky (attempt : Z) : result Z :=
  if (attempt <? 3)%Z then Raise (Exn "ConnectionError" "reset") else Ok attempt.

Definition catch_all (e : exn) : bool := true.

Definition sound_sleep (d : Q) : option exn := None.

Lemma first_outcome_not_caught_decides_witness :
  retry flaky 3 1 2 catch_all sound_sleep = (Ok 3%Z, [1; 1 * 2]).
Proof.
  apply (first_outcome_not_caught_decides flaky 3 1 2 catch_all sound_sleep 3).
  - lia.
  - intros j Hj. unfold flaky.
    destruct (j <? 3)%Z eqn:E; [reflexivity | apply Z.ltb_ge in E; lia].
  - reflexivity.
  - repeat constructor.
Defined.

(** When every attempt fails with a caught exception, the call raises
    the exception of the last attempt, after [max_attempts - 1] sleeps
    (none after the last attempt), the [i]-th of
    [delay * backoff ^ i]. *)
Theorem exhausted_retry_raises_last {T} (func : Z -> result T)
    (max_attempts : Z) (delay backoff : Q) (caught : exn -> bool)
    (sleep : Q -> option exn) :
  (1 <= max_attempts)%Z ->
  (forall j, (1 <= j <= max_attempts)%Z -> retriable caught (func j) = true) ->
  Forall (fun x => sleep x = None)
         (delays delay backoff (Z.to_nat (max_attempts - 1))) ->
  exists e slept,
    func max_attempts = Raise e /\
    retry func max_attempts delay backoff caught sleep = (Raise e, slept) /\
    Z.of_nat (length slept) = (max_attempts - 1)%Z /\
    forall i, (i < length slept)%nat -> nth i slept 0 == delay * backoff ^ Z.of_nat i.
Proof.
  intros Hmax Hall Hsleep.
  unfold retry. rewrite range_numbered.
  replace (Z.to_nat max_attempts) with (S (Z.to_nat (max_attempts - 1))) by lia.
  destruct (attempts_exhausted func caught sleep max_attempts backoff
              (Z.to_nat (max_attempts - 1)) 0 delay None [])
    as (e & Hf & ->).
  - lia.
  - intros j Hj. apply Hall. lia.
  - exact Hsleep.
  - exists e, (delays delay backoff (Z.to_nat (max_attempts - 1))).
    split; [exact Hf |]. split; [reflexivity |].
    rewrite delays_length. split; [lia |].
    intros i Hi. apply delays_nth. exact Hi.
Qed.

Definition always_down (attempt : Z) : result Z :=
  Raise (Exn "ConnectionError" (if (attempt =? 3)%Z then "third" else "earlier")).

Lemma exhausted_retry_raises_last_witness :
  exists e slept,
    always_down 3 = Raise e /\
    retry always_down 3 1 2 catch_all sound_sleep = (Raise e, slept) /\
    Z.of_nat (length slept) = (3 - 1)%Z /\
    forall i, (i < length slept)%nat -> nth i slept 0 == 1 * 2 ^ Z.of_nat i.
Proof.
  apply (exhausted_retry_raises_last always_down 3 1 2 catch_all sound_sleep).
  - lia.
  - intros j Hj. reflexivity.
  - repeat constructor.
Defined.

(** Without attempts ([max_attempts] zero or negative) the function is
    never called and the call raises the [TypeError] of [raise None]. *)
Theorem retry_without_attempts_raises_type_error {T} (func : Z -> result T)
    (max_attempts : Z) (delay backoff : Q) (caught : exn -> bool)
    (sleep : Q -> option exn) :
  (max_attempts <= 0)%Z ->
  retry func max_attempts delay backoff caught sleep = (Raise raise_none, []) /\
  forall func' : Z -> result T,
    retry func' max_attempts delay backoff caught sleep
    = retry func max_attempts delay backoff caught sleep.
Proof.
  intros Hmax. unfold retry. rewrite range_numbered.
  replace (Z.to_nat max_attempts) with 0%nat by lia.
  split; [reflexivity | intros func'; reflexivity].
Qed.

Lemma retry_without_attempts_raises_type_error_witness :
  retry flaky 0 1 2 catch_all sound_sleep = (Raise raise_none, []).
Proof.
  apply (retry_without_attempts_raises_type_error flaky 0 1 2 catch_all sound_sleep).
  lia.
Defined.

(** An exception raised by the sleep itself is not retried: it
    propagates at once, in place of the caught exception that led to
    the sleep. *)
Theorem failing_sleep_ends_retry {T} (func : Z -> result T)
    (max_attempts : Z) (delay backoff : Q) (caught : exn -> bool)
    (sleep : Q -> option exn) (k : Z) (e' : exn) :
  (1 <= k < max_attempts)%Z ->
  (forall j, (1 <= j <= k)%Z -> retriable caught (func j) = true) ->
  Forall (fun x => sleep x = None) (delays delay backoff (Z.to_nat (k - 1))) ->
  sleep (nth (Z.to_nat (k - 1)) (delays delay backoff (Z.to_nat k)) 0) = Some e' ->
  retry func max_attempts delay backoff caught sleep
  = (Raise e', delays delay backoff (Z.to_nat (k - 1))).
Proof.
  intros Hk Hpre Hsleep Hbad.
  unfold retry. rewrite range_numbered.
  replace (Z.to_nat max_attempts)
    with (S (Z.to_nat (k - 1)) + Z.to_nat (max_attempts - k))%nat by lia.
  rewrite (attempts_sleep_raises func caught sleep max_attempts backoff
             (Z.to_nat (k - 1)) 0 (Z.to_nat (max_attempts - k)) delay None [] e').
  - reflexivity.
  - lia.
  - intros j Hj. apply Hpre. lia.
  - exact Hsleep.
  - replace (S (Z.to_nat (k - 1))) with (Z.to_nat k) by lia. exact Hbad.
Qed.

(** A sleep that refuses negative delays, as [time.sleep] does. *)
Definition refusing_negative (d : Q) : option exn :=
  if Py.Qltb d 0 then Some (Exn "ValueError" "sleep length must be non-negative")
  else None.

Lemma failing_sleep_ends_retry_witness :
  retry always_down 3 (-1) 2 catch_all refusing_negative
  = (Raise (Exn "ValueError" "sleep length must be non-negative"), []).
Proof.
  apply (failing_sleep_ends_retry always_down 3 (-1) 2 catch_all refusing_negative 1).
  - lia.
  - intros j Hj. reflexivity.
  - constructor.
  - reflexivity.
Defined.

End RetryFacts.

(** ** The text fallbacks *)

Module TextResponseFacts.

Import TextResponse.

(** Closes a goal from [H : In x l] for a literal list [l] without [x]. *)
Ltac absent H :=
  simpl in H; repeat (destruct H as [H | H]; [discriminate H |]); destruct H.

Lemma crisis_is_critical (t : string) :
  Py.contains "crisis" t = true ->
  any_word ["critical"; "crisis"; "crash"; "collapse"] t = true.
Proof.
  intros H. unfold any_word. cbn [existsb]. rewrite H.
  rewrite orb_true_l, orb_true_r. reflexivity.
Qed.

(** The text fallback of stage 1 always passes the validation of
    [AgentOutput]: whatever the response, the result has one of the four
    risk levels, confidence 0.6 and the response as its reasoning; and
    the driver ["Kriz sinyali"] is present exactly when the lowered
    response mentions a crisis, in which case the level is critical. *)
Theorem stage1_text_fallback_validates (response : string) :
  exists risk drivers,
    Stage1Mistral.make_output response (Stage1Fallback._parse_text_response response)
    = Ok {| agent_id := "Stage1Mistral";
            signal_type := "anomaly";
            risk_level := risk;
            confidence := 0.6%Q;
            key_drivers := drivers;
            source_summary := [];
            reasoning := response;
            raw_data := Some (Stage1Fallback._parse_text_response response) |} /\
    In risk ["critical"; "high"; "medium"; "low"] /\
    (In "Kriz sinyali" drivers <-> Py.contains "crisis" (Py.lower response) = true) /\
    (In "Kriz sinyali" drivers -> risk = "critical").
Proof.
  pose proof (crisis_is_critical (Py.lower response)) as Hcrisis.
  unfold Stage1Fallback._parse_text_response.
  destruct (any_word ["critical"; "crisis"; "crash"; "collapse"] (Py.lower response));
    destruct (any_word ["high"; "danger"; "warning"] (Py.lower response));
    destruct (any_word ["low"; "stable"; "safe"] (Py.lower response));
    destruct (Py.contains "anomaly" (Py.lower response));
    destruct (Py.contains "crisis" (Py.lower response));
    try (specialize (Hcrisis eq_refl); discriminate Hcrisis);
    eexists; eexists;
    (split; [reflexivity |]);
    (split; [simpl; tauto |]);
    (split; [split; [intros H; first [reflexivity | absent H]
                    | intros H; first [discriminate H | simpl; auto]]
            | intros H; first [reflexivity | absent H]]).
Qed.

(** The characters of a string held as UTF-8 bytes: the bytes that
    are not continuation bytes.  This is what [min_length] counts. *)
Definition continuation (c : ascii) : bool :=
  let n := nat_of_ascii c in (128 <=? n)%nat && (n <? 192)%nat.

Fixpoint characters (s : string) : nat :=
  match s with
  | EmptyString => 0
  | String c r => (if continuation c then 0 else 1) + characters r
  end.

Fixpoint ascii_only (s : string) : bool :=
  match s with
  | EmptyString => true
  | String c r => (nat_of_ascii c <? 128)%nat && ascii_only r
  end.

Lemma ascii_characters (s : string) :
  ascii_only s = true -> String.length s = characters s.
Proof.
  induction s as [| c r IH]; intros H; [reflexivity |].
  cbn [ascii_only] in H. apply andb_prop in H. destruct H as [Hc Hr].
  cbn [String.length characters]. rewrite (IH Hr).
  unfold continuation. apply Nat.ltb_lt in Hc.
  assert (E : (128 <=? nat_of_ascii c)%nat = false) by (apply Nat.leb_gt; exact Hc).
  rewrite E. reflexivity.
Qed.

(** Mode B on the text fallback, for an ASCII response: the
    construction of the report fails the validation of [FinalReport]
    exactly when the response has fewer than 300 characters; otherwise
    the report has one of the four risk levels, confidence 0.6, the
    response as its rationale, no warning, and for its action plan the
    default entry under a critical or high stage-1 risk and nothing
    under any other. *)
Theorem synthesis_text_fallback_needs_long_response (response : string)
    (stage1_report : AgentOutput) (confidence_metrics : gmap string Q)
    (user_query : string) :
  ascii_only response = true ->
  in_unit (default 0.5%Q (confidence_metrics !! "data_freshness")) = true ->
  let outcome :=
    Stage2Llama.make_report (Some (risk_level stage1_report)) stage1_report
      confidence_metrics user_query response
      (SynthesisFallback._parse_text_response response) in
  ((characters response < 300)%nat ->
   outcome = Raise (validation_error "strategic_rationale")) /\
  ((300 <= characters response)%nat ->
   exists risk,
     In risk ["critical"; "high"; "medium"; "low"] /\
     outcome
     = Ok {| query := user_query;
             final_risk_level := risk;
             overall_confidence := 0.6%Q;
             strategic_rationale := response;
             action_plan :=
               if Py.str_in (risk_level stage1_report) ["critical"; "high"]
               then [Stage2Llama.default_high_plan] else [];
             agent_contributions := [stage1_report];
             data_freshness_score :=
               default 0.5%Q (confidence_metrics !! "data_freshness");
             warnings := [] |}).
Proof.
  intros Hascii Hfresh outcome. unfold outcome. clear outcome.
  rewrite <- (ascii_characters response Hascii).
  unfold SynthesisFallback._parse_text_response, Stage2Llama.make_report.
  set (risk :=
         if any_word ["critical"; "crisis"; "urgent"] (Py.lower response)
         then "critical"
         else if any_word ["high"; "warning"; "concern"] (Py.lower response)
         then "high"
         else if any_word ["low"; "stable"; "safe"] (Py.lower response)
         then "low" else "medium").
  assert (Hrisk : In risk ["critical"; "high"; "medium"; "low"]).
  { unfold risk.
    destruct (any_word ["critical"; "crisis"; "urgent"] (Py.lower response));
      destruct (any_word ["high"; "warning"; "concern"] (Py.lower response));
      destruct (any_word ["low"; "stable"; "safe"] (Py.lower response));
      simpl; tauto. }
  change (Py.get_or "action_plan" (JList []) _) with (JList []).
  change (Py.get_or "final_risk_level" (JStr "medium") _) with (JStr risk).
  change (Py.get_or "overall_confidence" (JNum 0.5%Q) _) with (JNum 0.6%Q).
  change (Py.get_or "strategic_rationale" (JStr response) _) with (JStr response).
  change (Py.get_or "warnings" (JList []) _) with (JList []).
  unfold Stage2Llama._parse_action_plan. cbn [Py.truthy negb].
  change (default "medium" (Some (risk_level stage1_report)))
    with (risk_level stage1_report).
  assert (Hplan :
    (if Py.str_in (risk_level stage1_report) ["critical"; "high"]
     then Ok [Stage2Llama.default_high_plan] else Ok [])
    = Ok (if Py.str_in (risk_level stage1_report) ["critical"; "high"]
          then [Stage2Llama.default_high_plan] else [])).
  { destruct (Py.str_in (risk_level stage1_report) ["critical"; "high"]);
      reflexivity. }
  rewrite Hplan. cbn [bind_result].
  unfold make_final_report. cbn [as_str bind_result as_unit_float].
  change (in_unit 0.6%Q) with true. cbn [bind_result].
  rewrite Hfresh. cbn [negb as_str_list as_str_list_items bind_result].
  split.
  - intros Hlen. apply Nat.leb_gt in Hlen. rewrite Hlen. reflexivity.
  - intros Hlen. apply Nat.leb_le in Hlen. rewrite Hlen.
    exists risk. split; [exact Hrisk | reflexivity].
Qed.

Lemma synthesis_text_fallback_needs_long_response_witness :
  Stage2Llama.make_report (Some "medium")
    (CircuitBreakerFacts.output "Stage1Mistral" "medium" []) ∅ "Is TSLA risky?"
    "too short" (SynthesisFallback._parse_text_response "too short")
  = Raise (validation_error "strategic_rationale").
Proof.
  destruct (synthesis_text_fallback_needs_long_response "too short"
              (CircuitBreakerFacts.output "Stage1Mistral" "medium" []) ∅
              "Is TSLA risky?") as [H _];
    [reflexivity | reflexivity |].
  apply H. apply Nat.ltb_lt. vm_compute. reflexivity.
Defined.

End TextResponseFacts.

(** ** The arbiter's brief *)

Module ArbiterFacts.

Import CircuitBreaker CircuitBreakerMoreFacts Arbiter.

Lemma str_in_iff (x : string) (xs : list string) :
  Py.str_in x xs = true <-> In x xs.
Proof.
  unfold Py.str_in. rewrite existsb_exists. split.
  - intros (y & Hy & E). apply String.eqb_eq in E. subst y. exact Hy.
  - intros H. exists x. split; [exact H | apply String.eqb_refl].
Qed.

(** What the dict comprehension retains for an identity is one of the
    results, and has that identity. *)
Lemma agent_dict_fold (outs : list AgentOutput) :
  forall (d : gmap string AgentOutput) (id : string) (o : AgentOutput),
  fold_left (fun d output => <[ agent_id output := output ]> d) outs d !! id = Some o ->
  (In o outs /\ agent_id o = id) \/ d !! id = Some o.
Proof.
  induction outs as [| a outs IH]; intros d id o H; [right; exact H |].
  cbn [fold_left] in H. apply IH in H. destruct H as [[Hin Hid] | H].
  - left. split; [right; exact Hin | exact Hid].
  - apply lookup_insert_Some in H. destruct H as [[Hid <-] | [_ H]].
    + left. split; [left; reflexivity | exact Hid].
    + right. exact H.
Qed.

Lemma agent_dict_member (outs : list AgentOutput) (id : string) (o : AgentOutput) :
  agent_dict outs !! id = Some o -> In o outs /\ agent_id o = id.
Proof.
  intros H. apply agent_dict_fold in H. destruct H as [H | H]; [exact H |].
  rewrite lookup_empty in H. discriminate H.
Qed.

(** The rules behind an event: both identities of a fired rule are
    listed, they differ, and each listed identity has a result. *)
Lemma event_rule (outs : list AgentOutput) (ev : CircuitBreakerEvent) :
  check_contradictions outs = Some ev ->
  (exists a1 a2, a1 <> a2 /\ In a1 (conflicting_agents ev) /\
                 In a2 (conflicting_agents ev)) /\
  (forall id, In id (conflicting_agents ev) ->
              exists o, In o outs /\ agent_id o = id).
Proof.
  rewrite check_contradictions_fired. intros Hev.
  destruct (length outs <? 2)%nat; [discriminate Hev |].
  destruct (List.filter (fires (agent_dict outs)) CONTRADICTION_RULES)
    as [| rule rules] eqn:Ef; [discriminate Hev |].
  injection Hev as <-. cbn [conflicting_agents].
  assert (Hfired : forall r, In r (rule :: rules) ->
                             In r CONTRADICTION_RULES /\ fires (agent_dict outs) r = true).
  { intros r Hr. rewrite <- Ef in Hr. apply List.filter_In in Hr. exact Hr. }
  split.
  - destruct (Hfired rule ltac:(left; reflexivity)) as [Hin _].
    destruct rule as [[a1 a2] arb].
    exists a1, a2. split; [| split].
    + exact (CircuitBreakerFacts.rule_identities_differ a1 a2 arb Hin).
    + apply (proj2 (dedup_iff _ _)). simpl. auto.
    + apply (proj2 (dedup_iff _ _)). simpl. auto.
  - intros id Hid. apply (proj1 (dedup_iff _ _)) in Hid.
    change (In id (flat_map (fun c : string * string => [fst c; snd c])
                     (map fst (rule :: rules)))) in Hid.
    apply in_flat_map in Hid.
    destruct Hid as (c & Hc & Hid). apply in_map_iff in Hc.
    destruct Hc as (r & <- & Hr).
    destruct (Hfired r Hr) as [Hin Hf].
    destruct (fires_conflict outs r Hin Hf) as (arb & o1 & o2 & _ & H1 & H2 & _).
    apply agent_dict_member in H1, H2.
    destruct Hid as [<- | [<- | []]]; eauto.
Qed.

Lemma two_distinct {A} (f : A -> string) (l : list A) (x y : A) :
  In x l -> In y l -> f x <> f y -> (2 <= length l)%nat.
Proof.
  intros Hx Hy Hne.
  destruct l as [| a [| b l]]; simpl in *.
  - destruct Hx.
  - destruct Hx as [<- | []]. destruct Hy as [<- | []]. congruence.
  - lia.
Qed.

(** The brief built from an event of the detector names the event's
    arbiter and shows the arbiter at least two results: one or more for
    every identity the event lists, and none for any other identity. *)
Theorem arbiter_is_shown_every_conflicting_agent (outs : list AgentOutput)
    (ev : CircuitBreakerEvent) :
  check_contradictions outs = Some ev ->
  let brief := get_arbiter_recommendation ev outs in
  rec_arbiter brief = arbiter ev /\
  rec_conflicting_agents brief = conflicting_agents ev /\
  (forall id, In id (conflicting_agents ev) <->
              exists co, In co (conflicting_outputs brief) /\ co_agent_id co = id) /\
  (2 <= length (conflicting_outputs brief))%nat.
Proof.
  intros Hev brief. unfold brief. clear brief.
  destruct (event_rule outs ev Hev) as [(a1 & a2 & Hne & Ha1 & Ha2) Hpresent].
  assert (Hshown : forall id, In id (conflicting_agents ev) ->
            exists co, In co (conflicting_outputs (get_arbiter_recommendation ev outs))
                       /\ co_agent_id co = id).
  { intros id Hid. destruct (Hpresent id Hid) as (o & Hin & Ho).
    exists {| co_agent_id := agent_id o;
              co_risk_level := risk_level o;
              co_confidence := confidence o;
              co_key_drivers := key_drivers o |}.
    split; [| exact Ho].
    unfold get_arbiter_recommendation. cbn [conflicting_outputs].
    apply in_map_iff. exists o. split; [reflexivity |].
    apply List.filter_In. split; [exact Hin |].
    apply str_in_iff. rewrite Ho. exact Hid. }
  split; [reflexivity |]. split; [reflexivity |]. split.
  - intros id. split; [apply Hshown |].
    intros (co & Hco & <-).
    unfold get_arbiter_recommendation in Hco. cbn [conflicting_outputs] in Hco.
    apply in_map_iff in Hco. destruct Hco as (o & <- & Ho).
    apply List.filter_In in Ho. destruct Ho as [_ Ho].
    apply str_in_iff in Ho. exact Ho.
  - destruct (Hshown a1 Ha1) as (c1 & Hc1 & E1).
    destruct (Hshown a2 Ha2) as (c2 & Hc2 & E2).
    apply (two_distinct co_agent_id _ c1 c2 Hc1 Hc2). congruence.
Qed.

Lemma arbiter_is_shown_every_conflicting_agent_witness :
  exists ev,
    check_contradictions
      [CircuitBreakerFacts.risk_low; CircuitBreakerFacts.technical_critical] = Some ev /\
    rec_arbiter
      (get_arbiter_recommendation ev
         [CircuitBreakerFacts.risk_low; CircuitBreakerFacts.technical_critical])
    = arbiter ev.
Proof.
  destruct (check_contradictions
              [CircuitBreakerFacts.risk_low; CircuitBreakerFacts.technical_critical])
    as [ev |] eqn:E.
  - exists ev. split; [reflexivity |].
    destruct (arbiter_is_shown_every_conflicting_agent _ _ E) as [H _]. exact H.
  - vm_compute in E. discriminate E.
Defined.

End ArbiterFacts.

(** ** The news query *)

Module NewsQueryFacts.

Import ContextBuilder.

(** The news provider is always asked for exactly five keywords: the
    first five of the intent, topped up from the anomaly keywords in
    their order; an intent with five or more keywords leaves no room
    for any anomaly keyword. *)
Theorem news_query_has_five_keywords (p : providers) (i : Intent)
    (user_query : string) :
  exists sent,
    _get_news_data p i user_query
    = match get_live_anomalies p sent with
      | Ok news => news
      | Raise e => JDict (error_payload e "results" (JList []))
      end /\
    length sent = 5%nat /\
    sent = firstn 5 (keywords i)
             ++ firstn (5 - length (keywords i)) anomaly_keywords /\
    ((5 <= length (keywords i))%nat -> sent = firstn 5 (keywords i)).
Proof.
  exists (firstn 5 (keywords i ++ anomaly_keywords)).
  split; [reflexivity |].
  rewrite firstn_app.
  split; [| split].
  - rewrite length_app, !length_firstn.
    change (length anomaly_keywords) with 8%nat. lia.
  - reflexivity.
  - intros H. replace (5 - length (keywords i))%nat with 0%nat by lia.
    cbn [firstn]. apply app_nil_r.
Qed.

End NewsQueryFacts.

(** ** Mode A *)

Module ModeAFacts.

Import Orchestrator.

Lemma load_agents_raises (c : collaborators) :
  exists e,
    _load_agents c = Raise e /\
    (forall four, construct_stage1 c = Ok four -> e = abstract_class).
Proof.
  unfold _load_agents.
  destruct (construct_stage1 c) as [four | e]; cbn [bind_result].
  - exists abstract_class. split; [reflexivity | reflexivity].
  - exists e. split; [reflexivity | intros four H; discriminate H].
Qed.

(** Mode A never returns a report.  [_load_agents] cannot build its
    dict: the entry [SynthesisAgent()] raises [TypeError], the class
    being abstract.  So every query raises: the exception of the intent
    classifier or of the context builder if one of them raises, and
    otherwise the one of [_load_agents], the [TypeError] once the
    stage-1 agents are built. *)
Theorem mode_a_never_returns_a_report (c : collaborators) (q : string) :
  (exists e, process_query c q = Raise e) /\
  (forall i context four,
      classify c q = Ok i ->
      harvest c i q = Ok context ->
      construct_stage1 c = Ok four ->
      process_query c q = Raise abstract_class).
Proof.
  destruct (load_agents_raises c) as (e & Hload & Hclass).
  split.
  - unfold process_query.
    destruct (classify c q) as [i | e1]; cbn [bind_result]; [| eauto].
    destruct (harvest c i q) as [context | e2]; cbn [bind_result]; [| eauto].
    rewrite Hload. cbn [bind_result]. eauto.
  - intros i context four Hi Hc Hfour.
    unfold process_query. rewrite Hi. cbn [bind_result]. rewrite Hc.
    cbn [bind_result]. rewrite Hload, (Hclass four Hfour). reflexivity.
Qed.

Definition reply (risk : string) (context : ContextBuilder.context) (i : Intent)
    : result AgentOutput :=
  Ok (CircuitBreakerFacts.output "RiskAgent" risk []).

Definition staffed : collaborators :=
  {| classify := fun _ => Ok Scenario.sample_intent;
     harvest := fun _ _ => Ok Scenario.sample_context;
     construct_stage1 :=
       Ok {| RiskAgent := reply "low"; MacroAgent := reply "low";
             TechnicalAgent := reply "low"; SentimentAgent := reply "low" |} |}.

Lemma mode_a_never_returns_a_report_witness :
  process_query staffed "Is TSLA risky?" = Raise abstract_class.
Proof.
  destruct (mode_a_never_returns_a_report staffed "Is TSLA risky?") as [_ H].
  apply (H Scenario.sample_intent Scenario.sample_context
           {| RiskAgent := reply "low"; MacroAgent := reply "low";
              TechnicalAgent := reply "low"; SentimentAgent := reply "low" |});
    reflexivity.
Defined.

End ModeAFacts.

(** ** Source summaries built by the agents *)

Module BaseAgentFacts.

Import BaseAgent ConfidenceEngine PyFacts.
Local Open Scope Q_scope.

(** The agents' table and the engine's table give every source name
    the same reliability. *)
Lemma tables_agree (name : string) :
  _get_source_reliability name = static_reliability name.
Proof.
  destruct (decide (name = "Reuters")) as [-> | H1]; [reflexivity |].
  destruct (decide (name = "Bloomberg")) as [-> | H2]; [reflexivity |].
  destruct (decide (name = "Financial Times")) as [-> | H3]; [reflexivity |].
  destruct (decide (name = "Wall Street Journal")) as [-> | H4]; [reflexivity |].
  destruct (decide (name = "FRED")) as [-> | H5]; [reflexivity |].
  destruct (decide (name = "Alpha Vantage")) as [-> | H6]; [reflexivity |].
  destruct (decide (name = "Tavily")) as [-> | H7]; [reflexivity |].
  destruct (decide (name = "NewsAPI")) as [-> | H8]; [reflexivity |].
  destruct (decide (name = "default")) as [-> | H9]; [reflexivity |].
  unfold _get_source_reliability, static_reliability, reliability_map,
    SOURCE_RELIABILITY, default_reliability.
  cbn [list_to_map foldr uncurry fst snd].
  rewrite !lookup_insert_ne by congruence.
  rewrite !lookup_empty. reflexivity.
Qed.

Lemma created_summaries (sources : list string) (fs : gmap string Q) :
  forall ss, _create_source_summary sources fs = Ok ss ->
  map source ss = sources /\
  Forall (fun s => reliability s = static_reliability (source s) /\
                   freshness s = default 0.5 (fs !! source s) /\
                   valid_source s = true) ss.
Proof.
  induction sources as [| src rest IH]; intros ss H.
  - injection H as <-. split; [reflexivity | constructor].
  - cbn [_create_source_summary] in H. cbv zeta in H.
    destruct (in_unit (default 0.5 (fs !! src))) eqn:Ef; cbn [negb] in H;
      [| discriminate H].
    destruct (in_unit (_get_source_reliability src)) eqn:Er; cbn [negb] in H;
      [| discriminate H].
    destruct (_create_source_summary rest fs) as [ss' | e];
      cbn [bind_result] in H; [| discriminate H].
    injection H as <-.
    destruct (IH ss' eq_refl) as [Hsrc Hall].
    split; [cbn; rewrite Hsrc; reflexivity |].
    constructor; [| exact Hall].
    cbn. split; [apply tables_agree |]. split; [reflexivity |].
    unfold valid_source. cbn. rewrite Ef, Er. reflexivity.
Qed.

(** A summary built by an agent takes its reliability from the same
    table the engine multiplies it with.  So the engine counts the
    static reliability twice: in a summary of any length every source
    enters the weighted sum with the square of its table entry, and the
    source reliability of a one-source summary of positive freshness is
    that square, at most 0.98 squared. *)
Theorem agent_summaries_square_the_reliability (sources : list string)
    (fs : gmap string Q) (ss : list SourceSummary) :
  _create_source_summary sources fs = Ok ss ->
  map source ss = sources /\
  ConfidenceEngineFacts.weighted_terms ss
  = map (fun s => static_reliability (source s) * static_reliability (source s)
                  * freshness s) ss /\
  (forall src, sources = [src] -> 0 < default 0.5 (fs !! src) ->
     _calculate_source_reliability ss
     == static_reliability src * static_reliability src /\
     _calculate_source_reliability ss <= 0.9604).
Proof.
  intros H. destruct (created_summaries sources fs ss H) as [Hsrc Hall].
  split; [exact Hsrc |]. split.
  - unfold ConfidenceEngineFacts.weighted_terms.
    apply map_ext_in. intros s Hs.
    rewrite List.Forall_forall in Hall. destruct (Hall s Hs) as (-> & _ & _).
    reflexivity.
  - intros src -> Hpos.
    destruct ss as [| s [| s' ss']]; try discriminate Hsrc.
    injection Hsrc as Hs.
    apply List.Forall_cons_iff in Hall. destruct Hall as [(Hr & Hf & Hv) _].
    rewrite Hs in Hr, Hf.
    assert (E : _calculate_source_reliability [s]
                == static_reliability src * static_reliability src).
    { unfold _calculate_source_reliability. cbn [fold_left reliability_step fst snd].
      rewrite Hs, Hr, Hf.
      set (f := default 0.5 (fs !! src)) in *.
      set (r := static_reliability src).
      assert (Hw : Py.Qltb 0 (0 + f) = true) by (apply Qltb_true; qlra).
      rewrite Hw. field. qlra. }
    split; [exact E |].
    rewrite E.
    pose proof (ScoreBounds.static_reliability_range src) as [H0 H1].
    set (r := static_reliability src) in *.
    assert (r * r <= r * 0.98) by (apply Qmult_le_l; qlra).
    assert (r * 0.98 <= 0.98 * 0.98) by (apply Qmult_le_compat_r; qlra).
    assert (0.98 * 0.98 == 0.9604) by reflexivity.
    qlra.
Qed.

Lemma agent_summaries_square_the_reliability_witness :
  exists ss,
    _create_source_summary ["Reuters"] ∅ = Ok ss /\
    _calculate_source_reliability ss == 0.9025.
Proof.
  destruct (_create_source_summary ["Reuters"] ∅) as [ss | e] eqn:E.
  - exists ss. split; [reflexivity |].
    destruct (agent_summaries_square_the_reliability _ _ _ E) as (_ & _ & H).
    destruct (H "Reuters" eq_refl) as [Hsq _]; [reflexivity |].
    rewrite Hsq. reflexivity.
  - vm_compute in E. discriminate E.
Defined.

End BaseAgentFacts.
